(** * SampSharp remote server bridge: a shallow embedding of
      [src/SampSharp/remote_server.cpp] and the properties of its protocol
      engine.

    The C++ object [remote_server] becomes a record of its fields, every
    member function a computation in a small state-and-error monad, every
    call into a collaborator (transport, native bridge, callback registry,
    status indicator, logger, mutex, allocator) an entry of an ordered trace.
    Loops that poll the transport take fuel. *)

From Stdlib Require Import ZArith List Bool Lia.
From Stdlib Require Strings.String.
Import ListNotations.
Import String.StringSyntax.
Local Open Scope string_scope.
Local Open Scope list_scope.
Local Open Scope Z_scope.

Set Implicit Arguments.

(** ** Constants of the translation unit *)

Definition DEBUG_PAUSE_TIMEOUT : Z := 5.
Definition DEBUG_PAUSE_TICK_INTERVAL : Z := 7.
Definition DEBUG_PAUSE_TICK_MIN_SKIP : Z := 50.

(* receive *)
Definition CMD_PING : Z := 0x01.
Definition CMD_PRINT : Z := 0x02.
Definition CMD_RESPONSE : Z := 0x03.
Definition CMD_RECONNECT : Z := 0x04.
Definition CMD_REGISTER_CALL : Z := 0x05.
Definition CMD_FIND_NATIVE : Z := 0x06.
Definition CMD_INVOKE_NATIVE : Z := 0x07.
Definition CMD_START : Z := 0x08.
Definition CMD_DISCONNECT : Z := 0x09.
Definition CMD_ALIVE : Z := 0x10.

(* send *)
Definition CMD_TICK : Z := 0x11.
Definition CMD_PONG : Z := 0x12.
Definition CMD_PUBLIC_CALL : Z := 0x13.
Definition CMD_REPLY : Z := 0x14.
Definition CMD_ANNOUNCE : Z := 0x15.

(** Modelled from the spec: the [status] enumeration is declared in
    remote_server.h, which is not part of the sources at hand.  The spec
    lists six independent flags kept in one bit mask; each gets one bit. *)
Definition status_none : Z := 0.
Definition status_client_connected : Z := 1.
Definition status_client_started : Z := 2.
Definition status_client_received_init : Z := 4.
Definition status_client_reconnecting : Z := 8.
Definition status_client_disconnecting : Z := 16.
Definition status_server_received_init : Z := 32.

(** Modelled from the spec: the four results of a receive attempt
    ([cmd_status], declared with the transport interface). *)
Inductive cmd_status : Type := conn_dead | no_cmd | handled | unhandled.

Definition cmd_status_eqb (a b : cmd_status) : bool :=
  match a, b with
  | conn_dead, conn_dead | no_cmd, no_cmd
  | handled, handled | unhandled, unhandled => true
  | _, _ => false
  end.

(** ** Bytes and buffers

    A byte is a [Z] in [0, 256); a buffer is the list of its bytes.  Integers
    are laid out little-endian, as on the x86 hosts the plugin is built for. *)

Definition byte := Z.
Definition bytes := list byte.

Definition uint32 (z : Z) : Z := z mod 2 ^ 32.
Definition int32 (z : Z) : Z := (z + 2 ^ 31) mod 2 ^ 32 - 2 ^ 31.

(** the [n] low bytes of [z], least significant first *)
Fixpoint le_bytes (n : nat) (z : Z) : bytes :=
  match n with
  | O => []
  | S n' => (z mod 256) :: le_bytes n' (z / 256)
  end.

(** the unsigned integer held by a little-endian byte string *)
Fixpoint le_value (bs : bytes) : Z :=
  match bs with
  | [] => 0
  | b :: bs' => b + 256 * le_value bs'
  end.

(** [n] bytes of [buf] starting at offset [off] *)
Definition peek (buf : bytes) (off n : nat) : bytes := firstn n (skipn off buf).

(** [buf] with [data] written at offset [off] *)
Definition poke (buf : bytes) (off : nat) (data : bytes) : bytes :=
  firstn off buf ++ data ++ skipn (off + length data) buf.

(** the NUL-terminated string starting at the head of [buf] *)
Fixpoint c_str (buf : bytes) : bytes :=
  match buf with
  | [] => []
  | b :: rest => if b =? 0 then [] else b :: c_str rest
  end.

Definition zlength (bs : bytes) : Z := Z.of_nat (length bs).

(** ** Observable effects *)

Inductive log_level : Type := Lprint | Ldebug | Linfo | Lerror.

(** what a log call prints besides its format string *)
Inductive log_arg : Type :=
| ArgStr (s : bytes)
| ArgText (s : String.string)
| ArgInt (z : Z).

Definition ptr := nat.

Inductive event : Type :=
| EvLog (lvl : log_level) (fmt : String.string) (args : list log_arg)
| EvSend (cmd : Z) (payload : bytes)
| EvCommSetup
| EvCommConnect
| EvCommDisconnect
| EvSignalStarting
| EvSignalDisconnect
| EvSignalError
| EvSetOn (on : bool)
| EvRegisterBuffer (buf : bytes)
| EvCallbacksClear
| EvFillCallBuffer (name : String.string)
| EvGetHandle (name : bytes)
| EvInvoke (args : bytes) (buflen : Z)
| EvNativesClear
| EvRcon (command : String.string)
| EvLock
| EvUnlock
| EvNew (p : ptr) (data : bytes)
| EvDelete (p : ptr).

Definition is_send (e : event) : bool :=
  match e with EvSend _ _ => true | _ => false end.
Definition is_lock (e : event) : bool :=
  match e with EvLock => true | _ => false end.
Definition is_rcon (e : event) : bool :=
  match e with EvRcon _ => true | _ => false end.
Definition is_register (e : event) : bool :=
  match e with EvRegisterBuffer _ => true | _ => false end.
Definition is_invoke (e : event) : bool :=
  match e with EvInvoke _ _ => true | _ => false end.
Definition is_new (e : event) : bool :=
  match e with EvNew _ _ => true | _ => false end.
Definition is_delete_of (p : ptr) (e : event) : bool :=
  match e with EvDelete q => Nat.eqb p q | _ => false end.
Definition is_pause_log (e : event) : bool :=
  match e with
  | EvLog Linfo fmt _ => String.eqb fmt "Debugger pause detected."
  | _ => false
  end.
Definition is_resume_log (e : event) : bool :=
  match e with
  | EvLog Linfo fmt _ => String.eqb fmt "Debugger resume detected."
  | _ => false
  end.

Definition count (f : event -> bool) (tr : list event) : nat :=
  length (filter f tr).

(** ** Collaborators *)

(** Build-time constants and platform services that live in headers. *)
Class Config : Type := {
  LEN_NETBUF : Z;
  PLUGIN_PROTOCOL_VERSION : Z;
  PLUGIN_VERSION : Z;
  get_cwd : bytes
}.

(** The native bridge ([natives_] member).  [natives_invoke n args buflen
    cap] returns what it stored in the output buffer and the length it
    reports in [*txlen]. *)
Class NativesMap (N : Type) : Type := {
  natives_get_handle : N -> bytes -> Z * N;
  natives_invoke : N -> bytes -> Z -> Z -> bytes * Z * N;
  natives_clear : N -> N
}.

(** The callback registry ([callbacks_] member).  [callbacks_fill_call_buffer
    c amx name params cap] is [None] when the call is not to be forwarded
    and the serialised call otherwise. *)
Class CallbacksMap (C : Type) : Type := {
  callbacks_register_buffer : C -> bytes -> C;
  callbacks_fill_call_buffer :
    C -> option Z -> String.string -> list Z -> Z -> option bytes;
  callbacks_clear : C -> C
}.

(** Modelled from the spec: the transport ([commsvr], declared outside the
    sources at hand) provides connect/disconnect/send/receive and reports
    readiness and liveness.  It is modelled as a scripted channel: the
    outcomes of its future [setup], [connect] and [receive] calls are lists
    consumed one per call. *)
Inductive received : Type :=
| RecvDead
| RecvNone
| RecvCmd (command : Z) (payload : bytes).

Record commsvr : Type := {
  comm_connected : bool;
  comm_ready : bool;
  comm_setups : list bool;
  comm_connects : list bool;
  comm_incoming : list received
}.

Definition comm_setup (c : commsvr) : bool * commsvr :=
  let ok := match comm_setups c with [] => true | b :: _ => b end in
  (ok, {| comm_connected := comm_connected c;
          comm_ready := ok;
          comm_setups := tl (comm_setups c);
          comm_connects := comm_connects c;
          comm_incoming := comm_incoming c |}).

Definition comm_connect (c : commsvr) : bool * commsvr :=
  let ok := match comm_connects c with [] => false | b :: _ => b end in
  (ok, {| comm_connected := ok;
          comm_ready := comm_ready c;
          comm_setups := comm_setups c;
          comm_connects := tl (comm_connects c);
          comm_incoming := comm_incoming c |}).

Definition comm_disconnect (c : commsvr) : commsvr :=
  {| comm_connected := false;
     comm_ready := false;
     comm_setups := comm_setups c;
     comm_connects := comm_connects c;
     comm_incoming := comm_incoming c |}.

Definition comm_receive (c : commsvr) : received * commsvr :=
  (match comm_incoming c with [] => RecvNone | r :: _ => r end,
   {| comm_connected := comm_connected c;
      comm_ready := comm_ready c;
      comm_setups := comm_setups c;
      comm_connects := comm_connects c;
      comm_incoming := tl (comm_incoming c) |}).

(** ** The state-and-error monad *)

Inductive fault : Type :=
| BadDelete (p : ptr)
| OutOfBounds (p : ptr) (off : nat).

Inductive result (S A : Type) : Type :=
| Ok (a : A) (s : S)
| Fault (f : fault)
| OutOfFuel.

Arguments Fault {S A} f.
Arguments OutOfFuel {S A}.

Definition M (S A : Type) : Type := S -> result S A.

Definition ret {S A : Type} (a : A) : M S A := fun s => Ok a s.

Definition bind {S A B : Type} (m : M S A) (k : A -> M S B) : M S B :=
  fun s =>
    match m s with
    | Ok a s' => k a s'
    | Fault f => Fault f
    | OutOfFuel => OutOfFuel
    end.

Definition get {S : Type} : M S S := fun s => Ok s s.
Definition modify {S : Type} (f : S -> S) : M S unit := fun s => Ok tt (f s).
Definition raise {S A : Type} (f : fault) : M S A := fun _ => Fault f.
Definition out_of_fuel {S A : Type} : M S A := fun _ => OutOfFuel.

Notation "x <- c1 ;; c2" := (bind c1 (fun x => c2))
  (at level 61, c1 at next level, right associativity).
Notation "' pat <- c1 ;; c2" := (bind c1 (fun x => match x with pat => c2 end))
  (at level 61, pat pattern, c1 at next level, right associativity).
Notation "c1 ;; c2" := (bind c1 (fun _ => c2))
  (at level 61, right associativity).

(** ** The bridge *)

Section Bridge.

Context {cfg : Config}.
Context {N : Type} {natives : NativesMap N}.
Context {C : Type} {callbacks : CallbacksMap C}.

(** The fields of [remote_server], the wall clock read by [time(NULL)], the
    heap of reply buffers and the trace of calls made so far.  The types of
    [tick_], [sol_] and [ticks_skipped_] are declared in remote_server.h;
    times and the tick counter are integers that do not wrap here. *)
Record remote_server : Type := {
  status_ : Z;
  debug_check_ : bool;
  is_debug_ : bool;
  tick_ : Z;
  sol_ : Z;
  ticks_skipped_ : Z;
  buf_ : bytes;
  buftx_ : bytes;
  communication_ : commsvr;
  natives_ : N;
  callbacks_ : C;
  clock : Z;
  heap_next : ptr;
  heap_live : list (ptr * bytes);
  trace : list event
}.

Definition set_status (v : Z) (s : remote_server) : remote_server :=
  {| status_ := v; debug_check_ := debug_check_ s; is_debug_ := is_debug_ s;
     tick_ := tick_ s; sol_ := sol_ s; ticks_skipped_ := ticks_skipped_ s;
     buf_ := buf_ s; buftx_ := buftx_ s; communication_ := communication_ s;
     natives_ := natives_ s; callbacks_ := callbacks_ s; clock := clock s;
     heap_next := heap_next s; heap_live := heap_live s; trace := trace s |}.

Definition set_is_debug (v : bool) (s : remote_server) : remote_server :=
  {| status_ := status_ s; debug_check_ := debug_check_ s; is_debug_ := v;
     tick_ := tick_ s; sol_ := sol_ s; ticks_skipped_ := ticks_skipped_ s;
     buf_ := buf_ s; buftx_ := buftx_ s; communication_ := communication_ s;
     natives_ := natives_ s; callbacks_ := callbacks_ s; clock := clock s;
     heap_next := heap_next s; heap_live := heap_live s; trace := trace s |}.

Definition set_tick (v : Z) (s : remote_server) : remote_server :=
  {| status_ := status_ s; debug_check_ := debug_check_ s;
     is_debug_ := is_debug_ s;
     tick_ := v; sol_ := sol_ s; ticks_skipped_ := ticks_skipped_ s;
     buf_ := buf_ s; buftx_ := buftx_ s; communication_ := communication_ s;
     natives_ := natives_ s; callbacks_ := callbacks_ s; clock := clock s;
     heap_next := heap_next s; heap_live := heap_live s; trace := trace s |}.

Definition set_sol (v : Z) (s : remote_server) : remote_server :=
  {| status_ := status_ s; debug_check_ := debug_check_ s;
     is_debug_ := is_debug_ s;
     tick_ := tick_ s; sol_ := v; ticks_skipped_ := ticks_skipped_ s;
     buf_ := buf_ s; buftx_ := buftx_ s; communication_ := communication_ s;
     natives_ := natives_ s; callbacks_ := callbacks_ s; clock := clock s;
     heap_next := heap_next s; heap_live := heap_live s; trace := trace s |}.

Definition set_ticks_skipped (v : Z) (s : remote_server) : remote_server :=
  {| status_ := status_ s; debug_check_ := debug_check_ s;
     is_debug_ := is_debug_ s;
     tick_ := tick_ s; sol_ := sol_ s; ticks_skipped_ := v;
     buf_ := buf_ s; buftx_ := buftx_ s; communication_ := communication_ s;
     natives_ := natives_ s; callbacks_ := callbacks_ s; clock := clock s;
     heap_next := heap_next s; heap_live := heap_live s; trace := trace s |}.

Definition set_buf (v : bytes) (s : remote_server) : remote_server :=
  {| status_ := status_ s; debug_check_ := debug_check_ s;
     is_debug_ := is_debug_ s;
     tick_ := tick_ s; sol_ := sol_ s; ticks_skipped_ := ticks_skipped_ s;
     buf_ := v; buftx_ := buftx_ s; communication_ := communication_ s;
     natives_ := natives_ s; callbacks_ := callbacks_ s; clock := clock s;
     heap_next := heap_next s; heap_live := heap_live s; trace := trace s |}.

Definition set_buftx (v : bytes) (s : remote_server) : remote_server :=
  {| status_ := status_ s; debug_check_ := debug_check_ s;
     is_debug_ := is_debug_ s;
     tick_ := tick_ s; sol_ := sol_ s; ticks_skipped_ := ticks_skipped_ s;
     buf_ := buf_ s; buftx_ := v; communication_ := communication_ s;
     natives_ := natives_ s; callbacks_ := callbacks_ s; clock := clock s;
     heap_next := heap_next s; heap_live := heap_live s; trace := trace s |}.

Definition set_communication (v : commsvr) (s : remote_server)
  : remote_server :=
  {| status_ := status_ s; debug_check_ := debug_check_ s;
     is_debug_ := is_debug_ s;
     tick_ := tick_ s; sol_ := sol_ s; ticks_skipped_ := ticks_skipped_ s;
     buf_ := buf_ s; buftx_ := buftx_ s; communication_ := v;
     natives_ := natives_ s; callbacks_ := callbacks_ s; clock := clock s;
     heap_next := heap_next s; heap_live := heap_live s; trace := trace s |}.

Definition set_natives (v : N) (s : remote_server) : remote_server :=
  {| status_ := status_ s; debug_check_ := debug_check_ s;
     is_debug_ := is_debug_ s;
     tick_ := tick_ s; sol_ := sol_ s; ticks_skipped_ := ticks_skipped_ s;
     buf_ := buf_ s; buftx_ := buftx_ s; communication_ := communication_ s;
     natives_ := v; callbacks_ := callbacks_ s; clock := clock s;
     heap_next := heap_next s; heap_live := heap_live s; trace := trace s |}.

Definition set_callbacks (v : C) (s : remote_server) : remote_server :=
  {| status_ := status_ s; debug_check_ := debug_check_ s;
     is_debug_ := is_debug_ s;
     tick_ := tick_ s; sol_ := sol_ s; ticks_skipped_ := ticks_skipped_ s;
     buf_ := buf_ s; buftx_ := buftx_ s; communication_ := communication_ s;
     natives_ := natives_ s; callbacks_ := v; clock := clock s;
     heap_next := heap_next s; heap_live := heap_live s; trace := trace s |}.

Definition set_heap (n : ptr) (l : list (ptr * bytes)) (s : remote_server)
  : remote_server :=
  {| status_ := status_ s; debug_check_ := debug_check_ s;
     is_debug_ := is_debug_ s;
     tick_ := tick_ s; sol_ := sol_ s; ticks_skipped_ := ticks_skipped_ s;
     buf_ := buf_ s; buftx_ := buftx_ s; communication_ := communication_ s;
     natives_ := natives_ s; callbacks_ := callbacks_ s; clock := clock s;
     heap_next := n; heap_live := l; trace := trace s |}.

Definition set_trace (v : list event) (s : remote_server) : remote_server :=
  {| status_ := status_ s; debug_check_ := debug_check_ s;
     is_debug_ := is_debug_ s;
     tick_ := tick_ s; sol_ := sol_ s; ticks_skipped_ := ticks_skipped_ s;
     buf_ := buf_ s; buftx_ := buftx_ s; communication_ := communication_ s;
     natives_ := natives_ s; callbacks_ := callbacks_ s; clock := clock s;
     heap_next := heap_next s; heap_live := heap_live s; trace := v |}.

Definition Srv (A : Type) : Type := M remote_server A.

(** *** Calls into the collaborators *)

Definition emit (e : event) : Srv unit :=
  modify (fun s => set_trace (trace s ++ [e]) s).

Definition log_print (fmt : String.string) (args : list log_arg) : Srv unit :=
  emit (EvLog Lprint fmt args).
Definition log_debug (fmt : String.string) (args : list log_arg) : Srv unit :=
  emit (EvLog Ldebug fmt args).
Definition log_info (fmt : String.string) (args : list log_arg) : Srv unit :=
  emit (EvLog Linfo fmt args).
Definition log_error (fmt : String.string) (args : list log_arg) : Srv unit :=
  emit (EvLog Lerror fmt args).

(** [communication_->send(cmd, len, buf)] *)
Definition send (cmd : Z) (len : Z) (buf : bytes) : Srv unit :=
  emit (EvSend cmd (firstn (Z.to_nat len) buf)).

Definition call_setup : Srv bool :=
  s <- get ;;
  let '(ok, c) := comm_setup (communication_ s) in
  modify (set_communication c) ;;
  emit EvCommSetup ;;
  ret ok.

Definition call_connect : Srv bool :=
  s <- get ;;
  let '(ok, c) := comm_connect (communication_ s) in
  modify (set_communication c) ;;
  emit EvCommConnect ;;
  ret ok.

Definition call_disconnect : Srv unit :=
  modify (fun s => set_communication (comm_disconnect (communication_ s)) s) ;;
  emit EvCommDisconnect.

Definition call_receive : Srv received :=
  s <- get ;;
  let '(r, c) := comm_receive (communication_ s) in
  modify (set_communication c) ;;
  ret r.

Definition call_get_handle (name : bytes) : Srv Z :=
  s <- get ;;
  let '(h, n) := natives_get_handle (natives_ s) name in
  modify (set_natives n) ;;
  emit (EvGetHandle (c_str name)) ;;
  ret h.

Definition call_invoke (args : bytes) (buflen cap : Z) : Srv (bytes * Z) :=
  s <- get ;;
  let '(out, txlen, n) := natives_invoke (natives_ s) args buflen cap in
  modify (set_natives n) ;;
  emit (EvInvoke args buflen) ;;
  ret (out, txlen).

Definition call_natives_clear : Srv unit :=
  modify (fun s => set_natives (natives_clear (natives_ s)) s) ;;
  emit EvNativesClear.

Definition call_callbacks_clear : Srv unit :=
  modify (fun s => set_callbacks (callbacks_clear (callbacks_ s)) s) ;;
  emit EvCallbacksClear.

Definition call_register_buffer (buf : bytes) : Srv unit :=
  modify (fun s =>
            set_callbacks (callbacks_register_buffer (callbacks_ s) buf) s) ;;
  emit (EvRegisterBuffer buf).

(** [callbacks_.fill_call_buffer(amx, name, params, buf_, &len, true)]: on
    success the serialised call is stored at the head of [buf_] and its
    length is returned in [len]. *)
Definition call_fill_call_buffer (amx : option Z) (name : String.string)
    (params : list Z) (cap : Z) : Srv (option Z) :=
  s <- get ;;
  emit (EvFillCallBuffer name) ;;
  match callbacks_fill_call_buffer (callbacks_ s) amx name params cap with
  | None => ret None
  | Some call =>
      modify (set_buf (poke (buf_ s) 0 call)) ;;
      ret (Some (zlength call))
  end.

(** [new uint8_t[n]] followed by [memcpy] of [data] *)
Definition new_array (data : bytes) : Srv ptr :=
  s <- get ;;
  let p := heap_next s in
  modify (set_heap (S p) ((p, data) :: heap_live s)) ;;
  emit (EvNew p data) ;;
  ret p.

Fixpoint block_of (p : ptr) (l : list (ptr * bytes)) : option bytes :=
  match l with
  | [] => None
  | (q, d) :: l' => if Nat.eqb p q then Some d else block_of p l'
  end.

Fixpoint remove_block (p : ptr) (l : list (ptr * bytes))
  : list (ptr * bytes) :=
  match l with
  | [] => []
  | (q, d) :: l' => if Nat.eqb p q then l' else (q, d) :: remove_block p l'
  end.

(** [delete[] p] for a non-null [p]; releasing a block that is not live is
    a fault. *)
Definition delete_array (p : ptr) : Srv unit :=
  s <- get ;;
  match block_of p (heap_live s) with
  | None => raise (BadDelete p)
  | Some _ =>
      modify (set_heap (heap_next s) (remove_block p (heap_live s))) ;;
      emit (EvDelete p)
  end.

(** [p[off]]; reading outside the block is a fault. *)
Definition read_byte (p : ptr) (off : nat) : Srv byte :=
  s <- get ;;
  match block_of p (heap_live s) with
  | None => raise (OutOfBounds p off)
  | Some d =>
      match nth_error d off with
      | Some b => ret b
      | None => raise (OutOfBounds p off)
      end
  end.

(** [*(uint32_t * )(p + off)] *)
Definition read_u32 (p : ptr) (off : nat) : Srv Z :=
  b0 <- read_byte p off ;;
  b1 <- read_byte p (off + 1) ;;
  b2 <- read_byte p (off + 2) ;;
  b3 <- read_byte p (off + 3) ;;
  ret (le_value [b0; b1; b2; b3]).

(** *** Status macros *)

Definition STATUS_SET (v : Z) : Srv unit :=
  modify (fun s => set_status (Z.lor (status_ s) v) s).
Definition STATUS_UNSET (v : Z) : Srv unit :=
  modify (fun s => set_status (Z.land (status_ s) (Z.lnot v)) s).
Definition STATUS_ISSET (v : Z) (s : remote_server) : bool :=
  Z.land (status_ s) v =? v.

(** *** Commands *)

(** In every handler [buf] points at the receive buffer [buf_], which the
    transport filled with the payload; [buflen] is the payload's length. *)

Definition cmd_ping (buflen : Z) : Srv unit :=
  send CMD_PONG 0 [].

Definition cmd_print (buflen : Z) : Srv unit :=
  s <- get ;;
  log_print "%s" [ArgStr (c_str (buf_ s))].

Definition cmd_alive (buflen : Z) : Srv unit :=
  ret tt.

Definition cmd_register_call (buflen : Z) : Srv unit :=
  s <- get ;;
  log_debug "Register call %s" [ArgStr (c_str (buf_ s))] ;;
  call_register_buffer (buf_ s).

Definition cmd_find_native (buflen : Z) : Srv unit :=
  (* copy callerid to output buffer *)
  s <- get ;;
  modify (set_buftx (poke (buftx_ s) 0 (peek (buf_ s) 0 2))) ;;
  log_debug "Find native w/%d data" [ArgInt (uint32 (buflen - 2))] ;;
  h <- call_get_handle (skipn 2 (buf_ s)) ;;
  s <- get ;;
  modify (set_buftx (poke (buftx_ s) 2 (le_bytes 4 h))) ;;
  s <- get ;;
  send CMD_RESPONSE (4 + 2) (buftx_ s).

Definition cmd_invoke_native (buflen : Z) : Srv unit :=
  let txlen := uint32 LEN_NETBUF in
  (* copy callerid to output buffer *)
  s <- get ;;
  modify (set_buftx (poke (buftx_ s) 0 (peek (buf_ s) 0 2))) ;;
  let buflen := uint32 (buflen - 2) in
  let txlen := uint32 (txlen - 2) in
  ' (out, txlen) <- call_invoke (skipn 2 (buf_ s)) buflen txlen ;;
  s <- get ;;
  modify (set_buftx (poke (buftx_ s) 2 out)) ;;
  log_debug "Native invoked with %d buflen, response has %d buflen"
            [ArgInt buflen; ArgInt txlen] ;;
  let txlen := uint32 (txlen + 2) in
  s <- get ;;
  send CMD_RESPONSE txlen (buftx_ s).

Definition cmd_disconnect (buflen : Z) : Srv unit :=
  log_info "The gamemode is disconnecting." [] ;;
  STATUS_SET status_client_disconnecting.

(** *** Communication *)

(** store current time as last interaction time *)
Definition store_time : Srv unit :=
  modify (fun s => set_sol (clock s) s).

(** a guessed value whether the client is paused by a debugger *)
Definition is_debugging (is_tick : bool) : Srv bool :=
  s <- get ;;
  if negb (debug_check_ s) then ret false
  else
    let new_debug := DEBUG_PAUSE_TIMEOUT <=? tick_ s - sol_ s in
    let finish := modify (set_is_debug new_debug) ;; ret new_debug in
    (if new_debug && negb (is_debug_ s)
     then log_info "Debugger pause detected." []
     else if negb new_debug && is_debug_ s
          then log_info "Debugger resume detected." []
          else ret tt) ;;
    if is_tick then
      if new_debug && is_debug_ s then
        if (DEBUG_PAUSE_TICK_INTERVAL <=? clock s - tick_ s)
           && (DEBUG_PAUSE_TICK_MIN_SKIP <? ticks_skipped_ s)
        then
          log_debug "Keepalive tick." [] ;;
          modify (set_ticks_skipped 0) ;;
          ret false
        else
          modify (set_ticks_skipped (ticks_skipped_ s + 1)) ;;
          finish
      else
        (if negb new_debug && negb (ticks_skipped_ s =? 0)
         then modify (set_ticks_skipped 0)
         else ret tt) ;;
        finish
    else finish.

(** a value indicating whether the client is connected *)
Definition is_client_connected (s : remote_server) : bool :=
  comm_connected (communication_ s) && STATUS_ISSET status_client_connected s.

(** sends the server announcement to the client *)
Definition cmd_send_announce : Srv unit :=
  let buf := le_bytes 4 PLUGIN_PROTOCOL_VERSION ++ le_bytes 4 PLUGIN_VERSION
             ++ get_cwd in
  send CMD_ANNOUNCE (4 * 2 + zlength get_cwd) buf ;;
  log_info "Server announcement sent." [] ;;
  log_info "Hi from %s" [ArgStr get_cwd].

(** try to let a client connect *)
Definition connect : Srv bool :=
  s <- get ;;
  if comm_connected (communication_ s) then ret true
  else
    ready <- (if comm_ready (communication_ s) then ret true
              else call_setup) ;;
    if negb ready then ret false
    else
      ok <- call_connect ;;
      if negb ok then ret false
      else
        emit (EvSetOn false) ;;
        STATUS_SET status_client_connected ;;
        s <- get ;;
        (if STATUS_ISSET status_client_reconnecting s
         then log_info "Client reconnected." []
         else log_info "Connected to client." []) ;;
        STATUS_UNSET status_client_reconnecting ;;
        cmd_send_announce ;;
        ret true.

(** disconnects from client *)
Definition disconnect (context : option String.string) (expected : bool)
  : Srv unit :=
  s <- get ;;
  if negb (is_client_connected s) then ret tt
  else
    (if expected then
       log_info "Client disconnected." [] ;;
       emit EvSignalDisconnect
     else if STATUS_ISSET status_client_disconnecting s then
       log_info "Client disconnected." [] ;;
       emit EvSignalDisconnect ;;
       STATUS_UNSET (Z.lor status_client_started status_client_disconnecting) ;;
       call_natives_clear ;;
       call_callbacks_clear
     else
       let context := match context with Some c => c | None => "" end in
       log_error "Unexpected disconnect of client. %s" [ArgText context] ;;
       emit EvSignalError ;;
       STATUS_UNSET status_client_started ;;
       call_natives_clear ;;
       call_callbacks_clear) ;;
    (* disconnect and close *)
    call_disconnect ;;
    (* re-setup *)
    call_setup ;;
    STATUS_UNSET status_client_connected.

Definition cmd_reconnect (buflen : Z) : Srv unit :=
  log_info "The gamemode is reconnecting." [] ;;
  STATUS_SET status_client_reconnecting ;;
  disconnect None true.

(** The reply slot of a receive call: the pointer written through
    [response] ([None] for [NULL]) and the length written through [len]. *)
Definition reply : Type := (option ptr * Z)%type.

(** [cmd_start] waits for the answer to a synthesised OnGameModeInit with
    [cmd_receive_unhandled]; that nested wait is the parameter
    [receive_unhandled]. *)
Definition cmd_start (receive_unhandled : Srv (bool * reply)) (buflen : Z)
  : Srv unit :=
  log_info "The gamemode has started." [] ;;
  STATUS_SET status_client_started ;;
  s <- get ;;
  let type := if buflen =? 0 then 0 else nth 0 (buf_ s) 0 in
  if type =? 0 then
    log_debug "Using 'none' start method" []
  else if type =? 1 then
    log_debug "Using 'gmx' start method" [] ;;
    if STATUS_ISSET status_server_received_init s then
      log_debug "Sending gmx to attach game mode." [] ;;
      emit (EvRcon "gmx")
    else ret tt
  else if type =? 2 then
    log_debug "Using 'fake gmx' start method" [] ;;
    if STATUS_ISSET status_server_received_init s then
      STATUS_SET status_client_received_init ;;
      filled <- call_fill_call_buffer None "OnGameModeInit" [0]
                                      (uint32 LEN_NETBUF) ;;
      match filled with
      | None => ret tt
      | Some len =>
          (* send *)
          s <- get ;;
          send CMD_PUBLIC_CALL len (buf_ s) ;;
          (* receive *)
          ' (ok, (response, len)) <- receive_unhandled ;;
          match ok, response with
          | true, Some p =>
              if len =? 0 then
                log_error "Received no response to callback OnGameModeInit." []
              else delete_array p
          | _, _ =>
              log_error "Received no response to callback OnGameModeInit." []
          end
      end
    else ret tt
  else
    log_error "Invalid game mode start mode" [].

(** processes a command *)
Definition cmd_process (receive_unhandled : Srv (bool * reply))
    (cmd : Z) (buflen : Z) (resp : reply) : Srv (cmd_status * reply) :=
  (* mapped commands *)
  if cmd =? CMD_PING then cmd_ping buflen ;; ret (handled, resp)
  else if cmd =? CMD_PRINT then cmd_print buflen ;; ret (handled, resp)
  else if cmd =? CMD_REGISTER_CALL then
    cmd_register_call buflen ;; ret (handled, resp)
  else if cmd =? CMD_FIND_NATIVE then
    cmd_find_native buflen ;; ret (handled, resp)
  else if cmd =? CMD_INVOKE_NATIVE then
    cmd_invoke_native buflen ;; ret (handled, resp)
  else if cmd =? CMD_RECONNECT then
    cmd_reconnect buflen ;; ret (handled, resp)
  else if cmd =? CMD_DISCONNECT then
    cmd_disconnect buflen ;; ret (handled, resp)
  else if cmd =? CMD_START then
    cmd_start receive_unhandled buflen ;; ret (handled, resp)
  else if cmd =? CMD_ALIVE then cmd_alive buflen ;; ret (handled, resp)
  else
    (* unmapped commands (unhandled) *)
    if 0 <? buflen then
      s <- get ;;
      p <- new_array (firstn (Z.to_nat buflen) (buf_ s)) ;;
      ret (unhandled, (Some p, buflen))
    else ret (unhandled, resp).

(** receives a single command if available *)
Definition cmd_receive_one (receive_unhandled : Srv (bool * reply))
    (resp : reply) : Srv (cmd_status * reply) :=
  ok <- connect ;;
  if negb ok then ret (conn_dead, resp)
  else
    r <- call_receive ;;
    match r with
    | RecvDead => ret (conn_dead, resp)
    | RecvNone => ret (no_cmd, resp)
    | RecvCmd command payload =>
        s <- get ;;
        modify (set_buf (poke (buf_ s) 0 payload)) ;;
        store_time ;;
        cmd_process receive_unhandled command (zlength payload) resp
    end.

(** the state in which the handler of a received command starts: the
    command is off the channel, the payload at the head of [buf_], the
    interaction time stamped *)
Definition delivered (payload : bytes) (s : remote_server)
  : remote_server :=
  set_sol (clock s)
    (set_buf (poke (buf_ s) 0 payload)
       (set_communication (snd (comm_receive (communication_ s))) s)).

(** a result the receive loop discards *)
Definition discarded (stat : cmd_status) : bool :=
  cmd_status_eqb stat handled || cmd_status_eqb stat no_cmd.

(** receives commands until an unhandled command appears; every turn of
    the loop takes one unit of fuel, and so does every level of nesting *)
Fixpoint cmd_receive_unhandled (fuel : nat) : Srv (bool * reply) :=
  match fuel with
  | O => out_of_fuel
  | S fuel' =>
      ' (stat, resp) <- cmd_receive_one (cmd_receive_unhandled fuel')
                                        (None, 0) ;;
      if discarded stat then cmd_receive_unhandled fuel'
      else ret (cmd_status_eqb stat unhandled, resp)
  end.

Definition terminate (context : option String.string) : Srv unit :=
  disconnect context false.

(** the receive half of [public_call]: wait for the reply, take the return
    value out of it and release it; [retval] is [None] for a null return
    slot and holds the slot's content otherwise; the result is the slot
    after the call *)
Definition public_call_receive (fuel : nat) (name : String.string)
    (retval : option Z) : Srv (option Z) :=
  ' (ok, (response, len)) <- cmd_receive_unhandled fuel ;;
  let no_response :=
    log_error "Received no response to callback %s." [ArgText name] ;;
    emit EvUnlock ;;
    ret retval in
  match ok, response with
  | true, Some p =>
      if len =? 0 then no_response
      else
        emit EvUnlock ;;
        r <- (if 5 <=? len then
                b <- read_byte p 0 ;;
                if negb (b =? 0) then
                  match retval with
                  | Some _ =>
                      (* get return value *)
                      v <- read_u32 p 1 ;;
                      ret (Some (int32 v))
                  | None => ret retval
                  end
                else ret retval
              else ret retval) ;;
        delete_array p ;;
        ret r
  | _, _ => no_response
  end.

(** the forwarding half of [public_call], entered once the status flags
    allow the call: skip it while the client looks paused, serialise it,
    send it under the lock and wait for the reply *)
Definition public_call_forward (fuel : nat) (amx : option Z)
    (name : String.string) (params : list Z) (retval : option Z)
  : Srv (option Z) :=
  (* skip call if debugger pause is detected *)
  dbg <- is_debugging false ;;
  if dbg then ret retval
  else
    (* prep network buffer *)
    filled <- call_fill_call_buffer amx name params (uint32 LEN_NETBUF) ;;
    match filled with
    | None => ret retval
    | Some len =>
        emit EvLock ;;
        (* send *)
        s <- get ;;
        send CMD_PUBLIC_CALL len (buf_ s) ;;
        (* receive *)
        public_call_receive fuel name retval
    end.

(** called when a public call is send from the server *)
Definition public_call (fuel : nat) (amx : option Z) (name : String.string)
    (params : list Z) (retval : option Z) : Srv (option Z) :=
  let is_gmi := String.eqb name "OnGameModeInit" in
  let is_gme := negb is_gmi && String.eqb name "OnGameModeExit" in
  (if is_gmi then STATUS_SET status_server_received_init
   else if is_gme then STATUS_UNSET status_server_received_init
        else ret tt) ;;
  s <- get ;;
  if negb (is_client_connected s)
     || negb (STATUS_ISSET status_client_started s)
     || STATUS_ISSET status_client_reconnecting s
     || STATUS_ISSET status_client_disconnecting s
  then ret retval
  else
    emit (EvSetOn false) ;;
    go_on <- (if is_gmi then STATUS_SET status_client_received_init ;; ret true
              else ret (STATUS_ISSET status_client_received_init s)) ;;
    if negb go_on then ret retval
    else public_call_forward fuel amx name params retval.

(** the receive loop of [tick]; [response] keeps its value from one turn
    to the next: it is not reset after [delete[]], so a block handed back in
    one turn is released again in the next *)
Fixpoint tick_receive (fuel : nat) (resp : reply) : Srv unit :=
  match fuel with
  | O => out_of_fuel
  | S fuel' =>
      ' (stat, resp) <- cmd_receive_one (cmd_receive_unhandled fuel') resp ;;
      (match fst resp with
       | Some p =>
           log_error "Unhandled response in tick." [] ;;
           delete_array p
       | None => ret tt
       end) ;;
      if cmd_status_eqb stat no_cmd || cmd_status_eqb stat conn_dead
      then ret tt
      else tick_receive fuel' resp
  end.

(** the condition under which [tick] considers sending a tick command *)
Definition tick_allowed (s : remote_server) : bool :=
  is_client_connected s
  && STATUS_ISSET (Z.lor status_client_started status_client_received_init) s
  && negb (STATUS_ISSET status_client_reconnecting s)
  && negb (STATUS_ISSET status_client_disconnecting s).

(** the send half of [tick]: take the lock and send the tick command
    unless the client is not ready for it or looks paused *)
Definition tick_send : Srv unit :=
  emit EvLock ;;
  s <- get ;;
  if tick_allowed s then
    emit (EvSetOn false) ;;
    (* only send tick if no paused debugger is detected *)
    dbg <- is_debugging true ;;
    if negb dbg then
      modify (fun s => set_tick (clock s) s) ;;
      send CMD_TICK 0 []
    else ret tt
  else ret tt.

(** called when a server tick occurs; the local [len] starts out
    uninitialised and is never read, it is given as [len0] *)
Definition tick (fuel : nat) (len0 : Z) : Srv unit :=
  tick_send ;;
  (* receive calls from the game mode client *)
  tick_receive fuel (None, len0) ;;
  emit EvUnlock.

(** initializes the server instance; the members the constructor does not
    mention keep their default-constructed or indeterminate values, given
    here as [junk] *)
Definition remote_server_new (junk : remote_server) (communication : commsvr)
    (debug_check : bool) : remote_server :=
  let '(_, c) := comm_setup communication in
  {| status_ := status_none;
     debug_check_ := debug_check;
     is_debug_ := is_debug_ junk;
     tick_ := tick_ junk;
     sol_ := sol_ junk;
     ticks_skipped_ := ticks_skipped_ junk;
     buf_ := buf_ junk;
     buftx_ := buftx_ junk;
     communication_ := c;
     natives_ := natives_ junk;
     callbacks_ := callbacks_ junk;
     clock := clock junk;
     heap_next := heap_next junk;
     heap_live := heap_live junk;
     trace := trace junk ++ [EvSignalStarting; EvCommSetup] |}.

(** *** Vocabulary of the properties *)

(** [s'] is [s] after the common tail of [disconnect]: the transport was
    disconnected and then set up again, these being the last two calls made,
    and the client no longer counts as connected. *)
Definition torn_down_and_rearmed (s s' : remote_server) : Prop :=
  STATUS_ISSET status_client_connected s' = false
  /\ comm_connected (communication_ s') = false
  /\ is_client_connected s' = false
  /\ exists evs, trace s' = trace s ++ evs ++ [EvCommDisconnect; EvCommSetup].

(** the status-flag invariant of the data model *)
Definition received_init_implies_started (s : remote_server) : Prop :=
  STATUS_ISSET status_client_received_init s = true ->
  STATUS_ISSET status_client_started s = true.

(** [m] keeps [I]: a run of [m] that returns from a state in [I] ends in a
    state in [I] *)
Definition keeps {A : Type} (I : remote_server -> Prop) (m : Srv A) : Prop :=
  forall s a s', I s -> m s = Ok a s' -> I s'.

(** [m] leaves the status flags alone *)
Definition status_same {A : Type} (m : Srv A) : Prop :=
  forall s a s', m s = Ok a s' -> status_ s' = status_ s.

(** the status flags once [public_call] has noted the host's own
    OnGameModeInit or OnGameModeExit *)
Definition note_server_init (name : String.string) (st : Z) : Z :=
  if String.eqb name "OnGameModeInit"
  then Z.lor st status_server_received_init
  else if String.eqb name "OnGameModeExit"
       then Z.land st (Z.lnot status_server_received_init)
       else st.

(** the conditions under which [public_call] goes on to forward [name] *)
Definition forwarding_allowed (name : String.string) (s : remote_server)
  : bool :=
  is_client_connected s
  && STATUS_ISSET status_client_started s
  && negb (STATUS_ISSET status_client_reconnecting s)
  && negb (STATUS_ISSET status_client_disconnecting s)
  && (String.eqb name "OnGameModeInit"
      || STATUS_ISSET status_client_received_init s).

(** [m'] does what [m] does, and may go on where [m] ran out of fuel *)
Definition more_fuel {A : Type} (m m' : Srv A) : Prop :=
  forall s, m s = OutOfFuel \/ m s = m' s.

(** [discards fuel s k s']: starting in [s], [k] successive calls of
    [cmd_receive_one] each return [handled] or [no_cmd], as the loop of
    [cmd_receive_unhandled] resets the reply slot before each, and lead to
    [s'] *)
Inductive discards (fuel : nat)
  : remote_server -> nat -> remote_server -> Prop :=
| discards_none (s : remote_server) : discards fuel s O s
| discards_one (s s1 s' : remote_server) (stat : cmd_status) (resp : reply)
    (k : nat) :
    cmd_receive_one (cmd_receive_unhandled fuel) (None, 0) s
    = Ok (stat, resp) s1 ->
    discarded stat = true ->
    discards fuel s1 k s' ->
    discards fuel s (S k) s'.

(** the opcodes of the received-command table that have a handler *)
Definition is_mapped (cmd : Z) : bool :=
  existsb (Z.eqb cmd)
    [CMD_PING; CMD_PRINT; CMD_RECONNECT; CMD_REGISTER_CALL; CMD_FIND_NATIVE;
     CMD_INVOKE_NATIVE; CMD_START; CMD_DISCONNECT; CMD_ALIVE].

(** what a receive call hands back for an unhandled command with payload
    [payload] when the next free block is [p] and [resp] was in the reply
    slot *)
Definition reply_for (payload : bytes) (p : ptr) (resp : reply) : reply :=
  match payload with
  | [] => resp
  | _ :: _ => (Some p, zlength payload)
  end.

(** the reply slot [resp] refers to a live block of the length it gives,
    or to nothing *)
Definition reply_live (resp : reply) (s : remote_server) : Prop :=
  match fst resp with
  | Some p =>
      0 < snd resp
      /\ exists d, block_of p (heap_live s) = Some d /\ zlength d = snd resp
  | None => snd resp = 0
  end.

(** [m] always returns *)
Definition returns {A : Type} (m : Srv A) : Prop :=
  forall s, exists a s', m s = Ok a s'.

(** the return slot after [public_call] has looked at the reply [d]: the
    little-endian 32-bit integer at offset 1, as a cell, when there is a
    slot, the reply has at least 5 bytes and its first byte is not 0 *)
Definition return_value (d : bytes) (retval : option Z) : option Z :=
  match retval with
  | Some old =>
      if (5 <=? zlength d) && negb (nth 0 d 0 =? 0)
      then Some (int32 (le_value (peek d 1 4)))
      else Some old
  | None => None
  end.

(** *** Vocabulary of further properties *)

Definition is_unlock (e : event) : bool :=
  match e with EvUnlock => true | _ => false end.

(** [m] leaves the field [f] alone *)
Definition unchanged {A X : Type} (f : remote_server -> X) (m : Srv A)
  : Prop :=
  forall s a s', m s = Ok a s' -> f s' = f s.

(** [m] only adds to the trace, and only events that satisfy [P] *)
Definition emits {A : Type} (P : event -> bool) (m : Srv A) : Prop :=
  forall s a s',
    m s = Ok a s' ->
    exists evs, trace s' = trace s ++ evs /\ forallb P evs = true.

(** the calls the bridge makes while it receives commands: it logs, sends
    pong, response, public-call and announce commands, drives the transport,
    signals a disconnect, switches the indicator off, uses the registries,
    restarts the game mode and manages reply blocks.  It does not take or
    release the lock, send a tick or a reply command, clear a registry or
    signal an error. *)
Definition receive_event (e : event) : bool :=
  match e with
  | EvLog _ _ _ => true
  | EvSend cmd _ =>
      existsb (Z.eqb cmd)
        [CMD_PONG; CMD_RESPONSE; CMD_PUBLIC_CALL; CMD_ANNOUNCE]
  | EvCommSetup | EvCommConnect | EvCommDisconnect => true
  | EvSignalDisconnect => true
  | EvSetOn on => negb on
  | EvRegisterBuffer _ | EvFillCallBuffer _ | EvGetHandle _
  | EvInvoke _ _ => true
  | EvRcon _ => true
  | EvNew _ _ | EvDelete _ => true
  | EvSignalStarting | EvSignalError | EvCallbacksClear | EvNativesClear
  | EvLock | EvUnlock => false
  end.

(** the calls made by the entry points [public_call] and [tick]: those of
    the receive path, the lock and the tick command *)
Definition entry_event (e : event) : bool :=
  receive_event e || is_lock e || is_unlock e
  || match e with EvSend cmd _ => cmd =? CMD_TICK | _ => false end.

Definition lock_free (evs : list event) : Prop :=
  forallb (fun e => negb (is_lock e || is_unlock e)) evs = true.

(** the lock is taken once and released once, in this order *)
Definition locked_once (evs : list event) : Prop :=
  exists pre mid post,
    evs = pre ++ EvLock :: mid ++ EvUnlock :: post
    /\ lock_free pre /\ lock_free mid /\ lock_free post.

(** the live blocks [after] a receive call that handed back [resp], given
    those [before]: the block handed back is the only new one *)
Definition heap_after (resp : reply) (before after : list (ptr * bytes))
  : Prop :=
  match fst resp with
  | Some p => exists d, after = (p, d) :: before
  | None => after = before
  end.

(** incoming traffic whose next receive call leaves the reply slot as it
    was: nothing, a dead connection, or an unmapped command without
    payload *)
Definition keeps_reply (l : list received) : bool :=
  match l with
  | RecvCmd cmd payload :: _ => negb (is_mapped cmd) && (zlength payload <=? 0)
  | _ => true
  end.

(** the client has been given its OnGameModeInit *)
Definition client_initialised (s : remote_server) : Prop :=
  STATUS_ISSET status_client_received_init s = true.

(** what the pause detector reads besides the time of the last command:
    the time of the last tick sent and whether detection is on *)
Definition tick_stamp (s : remote_server) : Z * bool :=
  (tick_ s, debug_check_ s).

(** the client is classified as paused: the last tick was sent at least
    [DEBUG_PAUSE_TIMEOUT] after the last command was received *)
Definition looks_paused (s : remote_server) : Prop :=
  DEBUG_PAUSE_TIMEOUT <= tick_ s - sol_ s.

(** the last command was received at the current time *)
Definition just_heard (s : remote_server) : Prop :=
  sol_ s = clock s.

End Bridge.

Arguments remote_server N C : clear implicits.
Arguments Srv N C A : clear implicits.

(** ** Stand-ins for the collaborators, used to run the bridge *)

Module Demo.

#[export] Instance config : Config :=
  {| LEN_NETBUF := 32;
     PLUGIN_PROTOCOL_VERSION := 3;
     PLUGIN_VERSION := 0x00070000;
     get_cwd := [47; 115] |}.

(** a native bridge that knows no native: every lookup yields -1, every
    invocation answers with the single cell 1 *)
#[export] Instance natives : NativesMap (list bytes) :=
  {| natives_get_handle := fun n name => (-1, n);
     natives_invoke := fun n args buflen cap => ([1; 0; 0; 0], 4, n);
     natives_clear := fun _ => [] |}.

(** a callback registry that remembers the registered names and serialises
    a call as its parameters *)
#[export] Instance callbacks : CallbacksMap (list bytes) :=
  {| callbacks_register_buffer := fun c buf => c ++ [c_str buf];
     callbacks_fill_call_buffer := fun c amx name params cap => Some params;
     callbacks_clear := fun _ => [] |}.

Definition channel (connected : bool) (incoming : list received) : commsvr :=
  {| comm_connected := connected;
     comm_ready := true;
     comm_setups := [];
     comm_connects := [];
     comm_incoming := incoming |}.

(** a bridge with status [st], empty registries and heap, zeroed buffers of
    eight bytes *)
Definition server (st : Z) (connected : bool) (incoming : list received)
  : remote_server (list bytes) (list bytes) :=
  {| status_ := st;
     debug_check_ := true;
     is_debug_ := false;
     tick_ := 0;
     sol_ := 0;
     ticks_skipped_ := 0;
     buf_ := repeat 0 8;
     buftx_ := repeat 0 8;
     communication_ := channel connected incoming;
     natives_ := [];
     callbacks_ := [];
     clock := 0;
     heap_next := O;
     heap_live := [];
     trace := [] |}.

(** the same bridge with the timers of the debug-pause heuristic set *)
Definition paused_server (st : Z) (dbg : bool) (tick sol now skipped : Z)
  : remote_server (list bytes) (list bytes) :=
  {| status_ := st;
     debug_check_ := true;
     is_debug_ := dbg;
     tick_ := tick;
     sol_ := sol;
     ticks_skipped_ := skipped;
     buf_ := repeat 0 8;
     buftx_ := repeat 0 8;
     communication_ := channel true [];
     natives_ := [];
     callbacks_ := [];
     clock := now;
     heap_next := O;
     heap_live := [];
     trace := [] |}.

(** the status of a connected, started and initialised client *)
Definition running : Z :=
  Z.lor status_client_connected
    (Z.lor status_client_started status_client_received_init).

(** [n] successive ticks on a channel that stays quiet *)
Fixpoint ticks (n : nat) (s : remote_server (list bytes) (list bytes))
  : result (remote_server (list bytes) (list bytes)) unit :=
  match n with
  | O => Ok tt s
  | S n' =>
      match tick 1 0 s with
      | Ok _ s' => ticks n' s'
      | Fault f => Fault f
      | OutOfFuel => OutOfFuel
      end
  end.



(** the status of a connected client on an initialised host *)
Definition hosted : Z :=
  Z.lor status_client_connected status_server_received_init.

End Demo.

(** * Properties *)

Unset Implicit Arguments.

(** ** Status bits *)

Lemma land_pow2_testbit (st k : Z) :
  0 <= k -> (Z.land st (2 ^ k) =? 2 ^ k) = Z.testbit st k.
Proof.
  intros Hk.
  destruct (Z.testbit st k) eqn:Hb.
  - apply Z.eqb_eq. apply Z.bits_inj'. intros n Hn.
    rewrite Z.land_spec, Z.pow2_bits_eqb by assumption.
    destruct (Z.eqb_spec k n) as [->|Hne].
    + rewrite Hb. reflexivity.
    + apply andb_false_r.
  - apply Z.eqb_neq. intros Heq.
    assert (Z.testbit (Z.land st (2 ^ k)) k = true) as Ht.
    { rewrite Heq. apply Z.pow2_bits_true. assumption. }
    rewrite Z.land_spec, Hb in Ht. discriminate.
Qed.

Lemma testbit_unset (st v k : Z) :
  0 <= k ->
  Z.testbit (Z.land st (Z.lnot v)) k = Z.testbit st k && negb (Z.testbit v k).
Proof.
  intros Hk. rewrite Z.land_spec, Z.lnot_spec by assumption. reflexivity.
Qed.

Section Properties.

Context {cfg : Config}.
Context {N : Type} {natives : NativesMap N}.
Context {C : Type} {callbacks : CallbacksMap C}.

Implicit Types s : remote_server N C.

Lemma isset_connected s :
  STATUS_ISSET status_client_connected s = Z.testbit (status_ s) 0.
Proof. apply (land_pow2_testbit (status_ s) 0). lia. Qed.

Lemma isset_started s :
  STATUS_ISSET status_client_started s = Z.testbit (status_ s) 1.
Proof. apply (land_pow2_testbit (status_ s) 1). lia. Qed.

Lemma isset_received_init s :
  STATUS_ISSET status_client_received_init s = Z.testbit (status_ s) 2.
Proof. apply (land_pow2_testbit (status_ s) 2). lia. Qed.

Lemma isset_reconnecting s :
  STATUS_ISSET status_client_reconnecting s = Z.testbit (status_ s) 3.
Proof. apply (land_pow2_testbit (status_ s) 3). lia. Qed.

Lemma isset_disconnecting s :
  STATUS_ISSET status_client_disconnecting s = Z.testbit (status_ s) 4.
Proof. apply (land_pow2_testbit (status_ s) 4). lia. Qed.

Lemma isset_server_received_init s :
  STATUS_ISSET status_server_received_init s = Z.testbit (status_ s) 5.
Proof. apply (land_pow2_testbit (status_ s) 5). lia. Qed.

(** ** Running the monad *)

Ltac unfold_calls :=
  unfold log_print, log_debug, log_info, log_error, send, emit,
    call_setup, call_connect, call_disconnect, call_receive,
    call_get_handle, call_invoke, call_natives_clear, call_callbacks_clear,
    call_register_buffer, call_fill_call_buffer, new_array,
    STATUS_SET, STATUS_UNSET, store_time in *.

Ltac unfold_monad := unfold bind, ret, get, modify, raise, out_of_fuel in *.

(** two states are equal when their fields are *)
Ltac state_eq :=
  match goal with
  | |- Ok _ ?a = Ok _ ?b => f_equal
  | _ => idtac
  end;
  match goal with
  | s : remote_server _ _ |- _ =>
      destruct s; simpl in *;
      repeat match goal with
             | c : commsvr |- _ => destruct c; simpl in *
             end;
      subst; repeat rewrite <- app_assoc; simpl; reflexivity
  end.

(** ** The start command *)

Lemma cmd_start_invalid_mode s (rec : Srv N C (bool * reply)) (buflen : Z) :
  buflen <> 0 ->
  nth 0 (buf_ s) 0 <> 0 -> nth 0 (buf_ s) 0 <> 1 -> nth 0 (buf_ s) 0 <> 2 ->
  cmd_start rec buflen s =
  Ok tt (set_trace (trace s ++ [EvLog Linfo "The gamemode has started." [];
                                EvLog Lerror "Invalid game mode start mode" []])
           (set_status (Z.lor (status_ s) status_client_started) s)).
Proof.
  intros Hlen H0 H1 H2.
  unfold cmd_start. unfold_calls. unfold_monad. simpl.
  apply Z.eqb_neq in Hlen, H0, H1, H2.
  rewrite Hlen, H0, H1, H2. state_eq.
Qed.

Lemma isset_after_set (f k : Z) s (tr : list event) :
  Z.testbit (status_ (set_trace tr (set_status (Z.lor (status_ s) f) s))) k
  = Z.testbit (status_ s) k || Z.testbit f k.
Proof. simpl. apply Z.lor_spec. Qed.

(** C9 (amended): a start command whose mode byte is none of 0, 1, 2 is
    answered [handled]; it logs the start and the invalid mode, sets
    [client_started] as every start command does, and does nothing else: no
    command is sent, no other status flag changes, the host is not
    restarted, no callback is synthesised and the nested receive is not
    entered. *)
Theorem start_invalid_mode_only_sets_started
    s (rec : Srv N C (bool * reply)) (buflen : Z) (resp : reply) :
  buflen <> 0 ->
  nth 0 (buf_ s) 0 <> 0 -> nth 0 (buf_ s) 0 <> 1 -> nth 0 (buf_ s) 0 <> 2 ->
  exists s',
    cmd_process rec CMD_START buflen resp s = Ok (handled, resp) s'
    /\ s' = set_trace
              (trace s ++ [EvLog Linfo "The gamemode has started." [];
                           EvLog Lerror "Invalid game mode start mode" []])
              (set_status (Z.lor (status_ s) status_client_started) s)
    /\ filter is_send (skipn (length (trace s)) (trace s')) = []
    /\ filter is_rcon (skipn (length (trace s)) (trace s')) = []
    /\ STATUS_ISSET status_client_started s' = true
    /\ STATUS_ISSET status_client_connected s'
       = STATUS_ISSET status_client_connected s
    /\ STATUS_ISSET status_client_received_init s'
       = STATUS_ISSET status_client_received_init s
    /\ STATUS_ISSET status_client_reconnecting s'
       = STATUS_ISSET status_client_reconnecting s
    /\ STATUS_ISSET status_client_disconnecting s'
       = STATUS_ISSET status_client_disconnecting s
    /\ STATUS_ISSET status_server_received_init s'
       = STATUS_ISSET status_server_received_init s.
Proof.
  intros Hlen H0 H1 H2.
  eexists. split; [|split; [reflexivity|]].
  - unfold cmd_process. simpl. unfold bind at 1.
    rewrite (cmd_start_invalid_mode s rec buflen Hlen H0 H1 H2). reflexivity.
  - rewrite !isset_connected, !isset_started, !isset_received_init,
      !isset_reconnecting, !isset_disconnecting, !isset_server_received_init.
    rewrite !isset_after_set. simpl trace.
    rewrite skipn_app, skipn_all, Nat.sub_diag. simpl.
    rewrite !orb_false_r, orb_true_r. repeat split; reflexivity.
Qed.

(** ** Receiving one command from a connected client *)

(** with the transport connected, [connect] is a no-op *)
Lemma connect_connected s :
  comm_connected (communication_ s) = true -> connect s = Ok true s.
Proof.
  intros Hc. unfold connect. unfold_monad. rewrite Hc. reflexivity.
Qed.

Lemma cmd_receive_one_command s (rec : Srv N C (bool * reply)) (resp : reply)
    (command : Z) (payload : bytes) (rest : list received) :
  comm_connected (communication_ s) = true ->
  comm_incoming (communication_ s) = RecvCmd command payload :: rest ->
  cmd_receive_one rec resp s
  = cmd_process rec command (zlength payload) resp (delivered payload s).
Proof.
  intros Hc Hin. unfold cmd_receive_one.
  unfold bind at 1. rewrite (connect_connected s Hc). simpl.
  unfold_calls. unfold_monad. unfold delivered. simpl. rewrite Hin.
  reflexivity.
Qed.

Lemma cmd_receive_one_nothing s (rec : Srv N C (bool * reply)) (resp : reply) :
  comm_connected (communication_ s) = true ->
  comm_incoming (communication_ s) = [] ->
  cmd_receive_one rec resp s = Ok (no_cmd, resp) s.
Proof.
  intros Hc Hin. unfold cmd_receive_one.
  unfold bind at 1. rewrite (connect_connected s Hc). simpl.
  unfold_calls. unfold_monad. simpl. rewrite Hin. simpl. state_eq.
Qed.

(** ** The find_native command *)

(** C4: a find_native command with correlation id 0x2A whose name resolves
    to -1 is answered by exactly one command whose payload is the six bytes
    2A 00 FF FF FF FF; the opcode of that command is [CMD_RESPONSE] (0x03),
    not [CMD_REPLY] (0x14). *)
Theorem find_native_not_found_reply
    s (rec : Srv N C (bool * reply)) (resp : reply)
    (name : bytes) (rest : list received) :
  comm_connected (communication_ s) = true ->
  comm_incoming (communication_ s)
  = RecvCmd CMD_FIND_NATIVE (0x2A :: 0x00 :: name) :: rest ->
  fst (natives_get_handle (natives_ s)
         (name ++ skipn (2 + length name) (buf_ s))) = -1 ->
  exists s',
    cmd_receive_one rec resp s = Ok (handled, resp) s'
    /\ filter is_send (skipn (length (trace s)) (trace s'))
       = [EvSend 0x03 [0x2A; 0x00; 0xFF; 0xFF; 0xFF; 0xFF]]
    /\ CMD_RESPONSE = 0x03 /\ CMD_REPLY = 0x14.
Proof.
  intros Hc Hin Hh.
  rewrite (cmd_receive_one_command s rec resp _ _ _ Hc Hin).
  unfold cmd_process. simpl. unfold cmd_find_native.
  unfold_calls. unfold_monad. simpl.
  destruct (natives_get_handle _ _) as [h n'] eqn:Hg. simpl in *. subst h.
  eexists. split; [reflexivity|]. split; [|split; reflexivity].
  simpl. rewrite <- !app_assoc. rewrite skipn_app, skipn_all, Nat.sub_diag.
  reflexivity.
Qed.

(** ** The debug-pause heuristic *)

Lemma is_debugging_disabled s (is_tick : bool) :
  debug_check_ s = false -> is_debugging is_tick s = Ok false s.
Proof.
  intros Hd. unfold is_debugging. unfold_monad. rewrite Hd. reflexivity.
Qed.

(** the classification computed by [is_debugging] *)
Lemma is_debugging_call s :
  debug_check_ s = true ->
  exists s',
    is_debugging false s = Ok (DEBUG_PAUSE_TIMEOUT <=? tick_ s - sol_ s) s'
    /\ is_debug_ s' = (DEBUG_PAUSE_TIMEOUT <=? tick_ s - sol_ s)
    /\ tick_ s' = tick_ s /\ sol_ s' = sol_ s
    /\ debug_check_ s' = true
    /\ trace s'
       = trace s
         ++ (if (DEBUG_PAUSE_TIMEOUT <=? tick_ s - sol_ s)
                && negb (is_debug_ s)
             then [EvLog Linfo "Debugger pause detected." []]
             else if negb (DEBUG_PAUSE_TIMEOUT <=? tick_ s - sol_ s)
                     && is_debug_ s
                  then [EvLog Linfo "Debugger resume detected." []]
                  else []).
Proof.
  intros Hd. unfold is_debugging. unfold_calls. unfold_monad. rewrite Hd.
  simpl.
  destruct (DEBUG_PAUSE_TIMEOUT <=? tick_ s - sol_ s), (is_debug_ s); simpl;
    eexists; (split; [reflexivity|]); simpl; rewrite ?app_nil_r; auto 10.
Qed.

(** the tick path: besides classifying, it counts suppressed ticks and
    lets a keepalive through *)
Lemma is_debugging_tick s :
  debug_check_ s = true ->
  exists r s',
    is_debugging true s = Ok r s'
    /\ is_debug_ s' = (DEBUG_PAUSE_TIMEOUT <=? tick_ s - sol_ s)
    /\ count is_pause_log (skipn (length (trace s)) (trace s'))
       = (if (DEBUG_PAUSE_TIMEOUT <=? tick_ s - sol_ s) && negb (is_debug_ s)
          then 1%nat else 0%nat)
    /\ count is_resume_log (skipn (length (trace s)) (trace s'))
       = (if negb (DEBUG_PAUSE_TIMEOUT <=? tick_ s - sol_ s) && is_debug_ s
          then 1%nat else 0%nat).
Proof.
  intros Hd. unfold is_debugging. unfold_calls. unfold_monad. rewrite Hd.
  simpl.
  destruct (DEBUG_PAUSE_TIMEOUT <=? tick_ s - sol_ s);
    destruct (is_debug_ s) eqn:Hdb; simpl;
    try destruct ((DEBUG_PAUSE_TICK_INTERVAL <=? clock s - tick_ s)
                  && (DEBUG_PAUSE_TICK_MIN_SKIP <? ticks_skipped_ s));
    try destruct (negb (ticks_skipped_ s =? 0));
    simpl; do 2 eexists; (split; [reflexivity|]); simpl;
    rewrite <- ?app_assoc, ?skipn_app, ?skipn_all, ?Nat.sub_diag; simpl;
    auto.
Qed.

(** C6 (amended): with the debug check disabled [is_debugging] always
    answers false.  With it enabled, a call from the public-call path
    classifies the peer as paused exactly when the time of the last sent
    tick, [tick_] (not the current time), is at least 5 time units after the
    time of the last received command, [sol_]: false at [sol_ + 4], true at
    [sol_ + 6].  A call logs one pause line exactly when the classification
    turns from resumed to paused and one resume line exactly when it turns
    back, records the classification, and so logs nothing when repeated. *)
Theorem is_debugging_compares_last_tick_to_last_command s :
  (forall is_tick : bool,
      debug_check_ s = false -> is_debugging is_tick s = Ok false s)
  /\ (debug_check_ s = true ->
      (exists s',
          is_debugging false s
          = Ok (DEBUG_PAUSE_TIMEOUT <=? tick_ s - sol_ s) s'
          /\ is_debug_ s' = (DEBUG_PAUSE_TIMEOUT <=? tick_ s - sol_ s)
          /\ trace s'
             = trace s
               ++ (if (DEBUG_PAUSE_TIMEOUT <=? tick_ s - sol_ s)
                      && negb (is_debug_ s)
                   then [EvLog Linfo "Debugger pause detected." []]
                   else if negb (DEBUG_PAUSE_TIMEOUT <=? tick_ s - sol_ s)
                           && is_debug_ s
                        then [EvLog Linfo "Debugger resume detected." []]
                        else [])
          /\ exists s'',
              is_debugging false s'
              = Ok (DEBUG_PAUSE_TIMEOUT <=? tick_ s - sol_ s) s''
              /\ trace s'' = trace s')
      /\ (tick_ s = sol_ s + 4 ->
          exists s', is_debugging false s = Ok false s')
      /\ (tick_ s = sol_ s + 6 ->
          exists s', is_debugging false s = Ok true s')
      /\ (exists r s',
             is_debugging true s = Ok r s'
             /\ is_debug_ s' = (DEBUG_PAUSE_TIMEOUT <=? tick_ s - sol_ s)
             /\ count is_pause_log (skipn (length (trace s)) (trace s'))
                = (if (DEBUG_PAUSE_TIMEOUT <=? tick_ s - sol_ s)
                      && negb (is_debug_ s)
                   then 1%nat else 0%nat)
             /\ count is_resume_log (skipn (length (trace s)) (trace s'))
                = (if negb (DEBUG_PAUSE_TIMEOUT <=? tick_ s - sol_ s)
                      && is_debug_ s
                   then 1%nat else 0%nat))).
Proof.
  split; [intros is_tick; apply is_debugging_disabled|].
  intros Hd.
  destruct (is_debugging_call s Hd)
    as (s' & Hrun & Hdbg & Htick & Hsol & Hd' & Htr).
  repeat split.
  - exists s'. repeat split; try assumption.
    destruct (is_debugging_call s' Hd')
      as (s'' & Hrun' & _ & _ & _ & _ & Htr').
    rewrite Htick, Hsol in Hrun', Htr'. rewrite Hdbg in Htr'.
    exists s''. split; [assumption|].
    rewrite Htr'.
    destruct (DEBUG_PAUSE_TIMEOUT <=? tick_ s - sol_ s); simpl;
      apply app_nil_r.
  - intros Ht. exists s'. rewrite Hrun. f_equal.
    apply Z.leb_gt. unfold DEBUG_PAUSE_TIMEOUT. lia.
  - intros Ht. exists s'. rewrite Hrun. f_equal.
    apply Z.leb_le. unfold DEBUG_PAUSE_TIMEOUT. lia.
  - apply is_debugging_tick. assumption.
Qed.

(** ** Ticks *)

Lemma tick_allowed_emit s (tr : list event) :
  tick_allowed (set_trace tr s) = tick_allowed s.
Proof. reflexivity. Qed.

Lemma tick_send_not_allowed s :
  tick_allowed s = false ->
  tick_send s = Ok tt (set_trace (trace s ++ [EvLock]) s).
Proof.
  intros Ha. unfold tick_send. unfold_calls. unfold_monad.
  rewrite tick_allowed_emit, Ha. reflexivity.
Qed.

(** C7 (amended): with the debug check enabled and the client ready for
    ticks, a tick that finds the peer classified paused, as it was at the
    previous check, sends no tick command and counts one more suppressed
    tick, except that once more than 50 suppressed ticks have been counted
    and at least 7 time units have passed since the last sent tick, the tick
    command is sent as a keepalive and the counter goes back to 0; the tick
    on which the classification turns to paused is suppressed without being
    counted; a tick that finds the peer not classified paused is sent and
    leaves the counter at 0. *)
Theorem tick_keepalive_after_more_than_min_skip s :
  debug_check_ s = true ->
  tick_allowed s = true ->
  (DEBUG_PAUSE_TIMEOUT <= tick_ s - sol_ s ->
   is_debug_ s = true ->
   DEBUG_PAUSE_TICK_INTERVAL <= clock s - tick_ s ->
   DEBUG_PAUSE_TICK_MIN_SKIP < ticks_skipped_ s ->
   tick_send s
   = Ok tt (set_trace (trace s ++ [EvLock; EvSetOn false;
                                   EvLog Ldebug "Keepalive tick." [];
                                   EvSend CMD_TICK []])
              (set_tick (clock s) (set_ticks_skipped 0 s))))
  /\ (DEBUG_PAUSE_TIMEOUT <= tick_ s - sol_ s ->
      is_debug_ s = true ->
      clock s - tick_ s < DEBUG_PAUSE_TICK_INTERVAL
      \/ ticks_skipped_ s <= DEBUG_PAUSE_TICK_MIN_SKIP ->
      tick_send s
      = Ok tt (set_trace (trace s ++ [EvLock; EvSetOn false])
                 (set_ticks_skipped (ticks_skipped_ s + 1) s)))
  /\ (DEBUG_PAUSE_TIMEOUT <= tick_ s - sol_ s ->
      is_debug_ s = false ->
      tick_send s
      = Ok tt (set_trace
                 (trace s ++ [EvLock; EvSetOn false;
                              EvLog Linfo "Debugger pause detected." []])
                 (set_is_debug true s)))
  /\ (tick_ s - sol_ s < DEBUG_PAUSE_TIMEOUT ->
      exists s',
        tick_send s = Ok tt s'
        /\ ticks_skipped_ s' = 0
        /\ tick_ s' = clock s
        /\ filter is_send (skipn (length (trace s)) (trace s'))
           = [EvSend CMD_TICK []]).
Proof.
  intros Hd Ha.
  assert (forall tr, tick_allowed (set_trace tr s) = true) as Ha'
      by (intros tr; exact Ha).
  repeat split.
  - intros Hp Hdb Hi Hk.
    apply Z.leb_le in Hp, Hi. apply Z.ltb_lt in Hk.
    unfold tick_send, is_debugging. unfold_calls. unfold_monad.
    rewrite Ha'. simpl. rewrite Hd, Hp, Hdb, Hi, Hk. simpl. state_eq.
  - intros Hp Hdb Hno.
    assert ((DEBUG_PAUSE_TICK_INTERVAL <=? clock s - tick_ s)
            && (DEBUG_PAUSE_TICK_MIN_SKIP <? ticks_skipped_ s) = false) as Hk.
    { apply andb_false_iff. destruct Hno as [Hno|Hno];
        [left; apply Z.leb_gt | right; apply Z.ltb_ge]; assumption. }
    apply Z.leb_le in Hp.
    unfold tick_send, is_debugging. unfold_calls. unfold_monad.
    rewrite Ha'. simpl. rewrite Hd, Hp, Hdb, Hk. simpl. state_eq.
  - intros Hp Hdb. apply Z.leb_le in Hp.
    unfold tick_send, is_debugging. unfold_calls. unfold_monad.
    rewrite Ha'. simpl. rewrite Hd, Hp, Hdb. simpl. state_eq.
  - intros Hp. apply Z.leb_gt in Hp.
    unfold tick_send, is_debugging. unfold_calls. unfold_monad.
    rewrite Ha'. simpl. rewrite Hd, Hp. simpl.
    destruct (is_debug_ s); destruct (ticks_skipped_ s =? 0) eqn:Hz; simpl;
      eexists; (split; [reflexivity|]); simpl;
      rewrite <- ?app_assoc, ?skipn_app, ?skipn_all, ?Nat.sub_diag; simpl;
      try apply Z.eqb_eq in Hz; auto.
Qed.

(** ** Disconnecting *)

Lemma disconnect_not_connected s (context : option String.string)
    (expected : bool) :
  is_client_connected s = false -> disconnect context expected s = Ok tt s.
Proof.
  intros Hc. unfold disconnect. unfold_monad. rewrite Hc. reflexivity.
Qed.

Lemma isset_connected_unset (st : Z) s :
  STATUS_ISSET status_client_connected
    (set_status (Z.land st (Z.lnot status_client_connected)) s) = false.
Proof.
  rewrite isset_connected. simpl status_.
  rewrite testbit_unset by lia. apply andb_false_r.
Qed.

Lemma disconnect_expected s (context : option String.string) :
  is_client_connected s = true ->
  exists s',
    disconnect context true s = Ok tt s'
    /\ natives_ s' = natives_ s /\ callbacks_ s' = callbacks_ s
    /\ status_ s' = Z.land (status_ s) (Z.lnot status_client_connected)
    /\ torn_down_and_rearmed s s'.
Proof.
  intros Hc. unfold disconnect. unfold_calls. unfold_monad. rewrite Hc.
  simpl. eexists. split; [reflexivity|]. simpl.
  repeat split; try apply isset_connected_unset.
  exists [EvLog Linfo "Client disconnected." []; EvSignalDisconnect].
    simpl. repeat rewrite <- app_assoc. reflexivity.
Qed.

Lemma disconnect_client_initiated s (context : option String.string) :
  is_client_connected s = true ->
  STATUS_ISSET status_client_disconnecting s = true ->
  exists s',
    disconnect context false s = Ok tt s'
    /\ natives_ s' = natives_clear (natives_ s)
    /\ callbacks_ s' = callbacks_clear (callbacks_ s)
    /\ status_ s'
       = Z.land (Z.land (status_ s)
                   (Z.lnot (Z.lor status_client_started
                                  status_client_disconnecting)))
           (Z.lnot status_client_connected)
    /\ torn_down_and_rearmed s s'.
Proof.
  intros Hc Hd. unfold disconnect. unfold_calls. unfold_monad. rewrite Hc.
  simpl. rewrite Hd. simpl. eexists. split; [reflexivity|]. simpl.
  repeat split; try apply isset_connected_unset.
  exists [EvLog Linfo "Client disconnected." []; EvSignalDisconnect;
            EvNativesClear; EvCallbacksClear].
    simpl. repeat rewrite <- app_assoc. reflexivity.
Qed.

Lemma disconnect_unexpected s (context : option String.string) :
  is_client_connected s = true ->
  STATUS_ISSET status_client_disconnecting s = false ->
  exists s',
    disconnect context false s = Ok tt s'
    /\ natives_ s' = natives_clear (natives_ s)
    /\ callbacks_ s' = callbacks_clear (callbacks_ s)
    /\ status_ s'
       = Z.land (Z.land (status_ s) (Z.lnot status_client_started))
           (Z.lnot status_client_connected)
    /\ torn_down_and_rearmed s s'.
Proof.
  intros Hc Hd. unfold disconnect. unfold_calls. unfold_monad. rewrite Hc.
  simpl. rewrite Hd. simpl. eexists. split; [reflexivity|]. simpl.
  repeat split; try apply isset_connected_unset.
  eexists [EvLog Lerror "Unexpected disconnect of client. %s" [_];
             EvSignalError; EvNativesClear; EvCallbacksClear].
    simpl. repeat rewrite <- app_assoc. reflexivity.
Qed.

Lemma cmd_reconnect_connected s (buflen : Z) :
  is_client_connected s = true ->
  exists s',
    cmd_reconnect buflen s = Ok tt s'
    /\ natives_ s' = natives_ s /\ callbacks_ s' = callbacks_ s
    /\ STATUS_ISSET status_client_reconnecting s' = true
    /\ torn_down_and_rearmed s s'.
Proof.
  intros Hc. unfold cmd_reconnect. unfold_calls. unfold_monad. simpl.
  set (s1 := set_status _ _).
  assert (is_client_connected s1 = true) as Hc1.
  { rewrite <- Hc. subst s1. unfold is_client_connected.
    rewrite !isset_connected.
    cbn [status_ set_status set_trace communication_].
    rewrite Z.lor_spec. apply f_equal, orb_false_r. }
  destruct (disconnect_expected s1 None Hc1)
    as (s' & Hrun & Hn & Hcb & Hst & Hco & Hcc & Hic & evs & Htr).
  exists s'. split; [exact Hrun|]. subst s1. simpl in *.
  repeat split; try assumption.
  - rewrite isset_reconnecting, Hst, testbit_unset, Z.lor_spec by lia.
    apply andb_true_iff. split; [apply orb_true_r | reflexivity].
  - exists (EvLog Linfo "The gamemode is reconnecting." [] :: evs).
    rewrite Htr. rewrite <- !app_assoc. reflexivity.
Qed.

(** C5: for a connected client, the disconnect that a reconnect command
    triggers (an expected teardown) leaves the native cache and the callback
    registry as they are, while a client-initiated disconnect and an
    unexpected one both clear them; in all three cases [client_connected] is
    cleared and the transport is disconnected and set up again. *)
Theorem disconnect_clears_registries_unless_expected
    s (context : option String.string) :
  is_client_connected s = true ->
  (forall (rec : Srv N C (bool * reply)) (buflen : Z) (resp : reply),
      exists s',
        cmd_process rec CMD_RECONNECT buflen resp s = Ok (handled, resp) s'
        /\ natives_ s' = natives_ s /\ callbacks_ s' = callbacks_ s
        /\ torn_down_and_rearmed s s')
  /\ (exists s',
         disconnect context true s = Ok tt s'
         /\ natives_ s' = natives_ s /\ callbacks_ s' = callbacks_ s
         /\ torn_down_and_rearmed s s')
  /\ (STATUS_ISSET status_client_disconnecting s = true ->
      exists s',
        disconnect context false s = Ok tt s'
        /\ natives_ s' = natives_clear (natives_ s)
        /\ callbacks_ s' = callbacks_clear (callbacks_ s)
        /\ torn_down_and_rearmed s s')
  /\ (STATUS_ISSET status_client_disconnecting s = false ->
      exists s',
        terminate context s = Ok tt s'
        /\ natives_ s' = natives_clear (natives_ s)
        /\ callbacks_ s' = callbacks_clear (callbacks_ s)
        /\ torn_down_and_rearmed s s').
Proof.
  intros Hc. split; [|split; [|split]].
  - intros rec buflen resp.
    destruct (cmd_reconnect_connected s buflen Hc)
      as (s' & Hrun & Hn & Hcb & _ & Htorn).
    exists s'. split; [|auto].
    unfold cmd_process. simpl. unfold bind at 1. rewrite Hrun. reflexivity.
  - destruct (disconnect_expected s context Hc)
      as (s' & Hrun & Hn & Hcb & _ & Htorn).
    exists s'. auto.
  - intros Hd.
    destruct (disconnect_client_initiated s context Hc Hd)
      as (s' & Hrun & Hn & Hcb & _ & Htorn).
    exists s'. auto.
  - intros Hd.
    destruct (disconnect_unexpected s context Hc Hd)
      as (s' & Hrun & Hn & Hcb & _ & Htorn).
    exists s'. auto.
Qed.

(** ** Operations that leave the status flags alone *)

Lemma bind_ok {A B : Type} (m : Srv N C A) (k : A -> Srv N C B) s b s'' :
  bind m k s = Ok b s'' ->
  exists a s', m s = Ok a s' /\ k a s' = Ok b s''.
Proof.
  unfold bind. destruct (m s) as [a s'| |]; try discriminate.
  intros H. exists a, s'. auto.
Qed.

Lemma status_same_ret {A : Type} (a : A) : status_same (ret a : Srv N C A).
Proof. intros s a' s' H. inversion H. reflexivity. Qed.

Lemma status_same_bind {A B : Type} (m : Srv N C A) (k : A -> Srv N C B) :
  status_same m -> (forall a, status_same (k a)) -> status_same (bind m k).
Proof.
  intros Hm Hk s b s'' H.
  apply bind_ok in H. destruct H as (a & s' & H1 & H2).
  rewrite (Hk a _ _ _ H2). apply (Hm _ _ _ H1).
Qed.

Lemma status_same_get_bind {B : Type} (k : remote_server N C -> Srv N C B) :
  (forall s0, status_same (k s0)) -> status_same (bind get k).
Proof. intros Hk s b s'' H. apply (Hk s _ _ _ H). Qed.

Lemma status_same_raise {A : Type} (f : fault) :
  status_same (raise f : Srv N C A).
Proof. intros s a s' H. discriminate. Qed.

Lemma status_same_modify (f : remote_server N C -> remote_server N C) :
  (forall s, status_ (f s) = status_ s) -> status_same (modify f).
Proof. intros Hf s a s' H. inversion H. apply Hf. Qed.

Lemma status_same_emit (e : event) : status_same (emit e : Srv N C unit).
Proof. apply status_same_modify. reflexivity. Qed.

Ltac status_same_step :=
  match goal with
  | |- status_same (bind get _) => apply status_same_get_bind; intros ?
  | |- status_same (bind _ _) => apply status_same_bind; [|intros ?]
  | |- status_same (ret _) => apply status_same_ret
  | |- status_same (raise _) => apply status_same_raise
  | |- status_same (emit _) => apply status_same_emit
  | |- status_same (modify _) => apply status_same_modify; reflexivity
  | |- status_same (if ?b then _ else _) => destruct b
  | |- status_same (match ?x with _ => _ end) => destruct x
  | |- status_same (let _ := _ in _) => cbv zeta
  end.

Ltac status_same_auto := cbv zeta; repeat status_same_step.

Lemma status_same_log (lvl : log_level) (fmt : String.string)
    (args : list log_arg) :
  status_same (emit (EvLog lvl fmt args) : Srv N C unit).
Proof. apply status_same_emit. Qed.

Lemma status_same_send (cmd len : Z) (buf : bytes) :
  status_same (send cmd len buf : Srv N C unit).
Proof. apply status_same_emit. Qed.

Lemma status_same_call_setup : status_same (call_setup : Srv N C bool).
Proof. unfold call_setup. status_same_auto. Qed.

Lemma status_same_call_connect : status_same (call_connect : Srv N C bool).
Proof. unfold call_connect. status_same_auto. Qed.

Lemma status_same_call_disconnect :
  status_same (call_disconnect : Srv N C unit).
Proof. unfold call_disconnect. status_same_auto. Qed.

Lemma status_same_call_receive : status_same (call_receive : Srv N C received).
Proof. unfold call_receive. status_same_auto. Qed.

Lemma status_same_call_get_handle (name : bytes) :
  status_same (call_get_handle name : Srv N C Z).
Proof. unfold call_get_handle. status_same_auto. Qed.

Lemma status_same_call_invoke (args : bytes) (buflen cap : Z) :
  status_same (call_invoke args buflen cap : Srv N C (bytes * Z)).
Proof. unfold call_invoke. status_same_auto. Qed.

Lemma status_same_call_register_buffer (buf : bytes) :
  status_same (call_register_buffer buf : Srv N C unit).
Proof. unfold call_register_buffer. status_same_auto. Qed.

Lemma status_same_call_fill_call_buffer (amx : option Z)
    (name : String.string) (params : list Z) (cap : Z) :
  status_same (call_fill_call_buffer amx name params cap
               : Srv N C (option Z)).
Proof. unfold call_fill_call_buffer. status_same_auto. Qed.

Lemma status_same_call_natives_clear :
  status_same (call_natives_clear : Srv N C unit).
Proof. unfold call_natives_clear. status_same_auto. Qed.

Lemma status_same_call_callbacks_clear :
  status_same (call_callbacks_clear : Srv N C unit).
Proof. unfold call_callbacks_clear. status_same_auto. Qed.

Lemma status_same_new_array (data : bytes) :
  status_same (new_array data : Srv N C ptr).
Proof. unfold new_array. status_same_auto. Qed.

Lemma status_same_delete_array (p : ptr) :
  status_same (delete_array p : Srv N C unit).
Proof. unfold delete_array. status_same_auto. Qed.

Lemma status_same_read_byte (p : ptr) (off : nat) :
  status_same (read_byte p off : Srv N C byte).
Proof. unfold read_byte. status_same_auto. Qed.

Lemma status_same_read_u32 (p : ptr) (off : nat) :
  status_same (read_u32 p off : Srv N C Z).
Proof.
  unfold read_u32.
  repeat (apply status_same_bind; [apply status_same_read_byte | intros ?]).
  apply status_same_ret.
Qed.

Lemma status_same_store_time : status_same (store_time : Srv N C unit).
Proof. unfold store_time. status_same_auto. Qed.

Lemma status_same_is_debugging (is_tick : bool) :
  status_same (is_debugging is_tick : Srv N C bool).
Proof.
  unfold is_debugging, log_info, log_debug. status_same_auto.
Qed.

Lemma status_same_cmd_send_announce :
  status_same (cmd_send_announce : Srv N C unit).
Proof.
  unfold cmd_send_announce, log_info, send. status_same_auto.
Qed.

(** ** The status-flag invariant *)

Lemma invariant_status s s' :
  status_ s' = status_ s ->
  received_init_implies_started s -> received_init_implies_started s'.
Proof.
  unfold received_init_implies_started, STATUS_ISSET. intros ->. auto.
Qed.

Lemma invariant_bits s :
  received_init_implies_started s
  <-> (Z.testbit (status_ s) 2 = true -> Z.testbit (status_ s) 1 = true).
Proof.
  unfold received_init_implies_started.
  rewrite isset_received_init, isset_started. reflexivity.
Qed.

Lemma keeps_ret {A : Type} (I : remote_server N C -> Prop) (a : A) :
  keeps I (ret a).
Proof. intros s a' s' HI H. inversion H. subst. assumption. Qed.

Lemma keeps_bind {A B : Type} (I : remote_server N C -> Prop)
    (m : Srv N C A) (k : A -> Srv N C B) :
  keeps I m -> (forall a, keeps I (k a)) -> keeps I (bind m k).
Proof.
  intros Hm Hk s b s'' HI H.
  apply bind_ok in H. destruct H as (a & s' & H1 & H2).
  apply (Hk a _ _ _ (Hm _ _ _ HI H1) H2).
Qed.

Lemma keeps_get_bind {B : Type} (I : remote_server N C -> Prop)
    (k : remote_server N C -> Srv N C B) :
  (forall s0, keeps I (k s0)) -> keeps I (bind get k).
Proof. intros Hk s b s'' HI H. apply (Hk s _ _ _ HI H). Qed.

Lemma keeps_status_same {A : Type} (m : Srv N C A) :
  status_same m -> keeps received_init_implies_started m.
Proof.
  intros Hm s a s' HI H.
  eapply invariant_status; [eapply Hm; eassumption | assumption].
Qed.

(** setting flags other than [client_received_init] keeps the invariant *)
Lemma keeps_status_set (v : Z) :
  Z.testbit v 2 = false ->
  keeps received_init_implies_started (STATUS_SET v : Srv N C unit).
Proof.
  intros Hv s a s' HI H. unfold STATUS_SET, modify in H.
  inversion H. subst. clear H.
  pose proof (proj1 (invariant_bits s) HI) as HI'. clear HI.
  apply invariant_bits. cbn [status_ set_status].
  rewrite !Z.lor_spec, Hv, orb_false_r. intros H2.
  rewrite (HI' H2). reflexivity.
Qed.

(** clearing flags other than [client_started] keeps the invariant *)
Lemma keeps_status_unset (v : Z) :
  Z.testbit v 1 = false ->
  keeps received_init_implies_started (STATUS_UNSET v : Srv N C unit).
Proof.
  intros Hv s a s' HI H. unfold STATUS_UNSET, modify in H.
  inversion H. subst. clear H.
  pose proof (proj1 (invariant_bits s) HI) as HI'. clear HI.
  apply invariant_bits. cbn [status_ set_status].
  rewrite !testbit_unset, Hv by lia. simpl negb. rewrite andb_true_r.
  intros H2. apply andb_true_iff in H2. destruct H2 as [H2 _].
  apply (HI' H2).
Qed.

Lemma keeps_connect :
  keeps received_init_implies_started (connect : Srv N C bool).
Proof.
  unfold connect.
  apply keeps_get_bind. intros s0.
  destruct (comm_connected (communication_ s0)); [apply keeps_ret|].
  apply keeps_bind.
  { destruct (comm_ready (communication_ s0)); [apply keeps_ret|].
    apply keeps_status_same, status_same_call_setup. }
  intros ready. destruct ready; simpl; [|apply keeps_ret].
  apply keeps_bind;
    [apply keeps_status_same, status_same_call_connect | intros ok].
  destruct ok; simpl; [|apply keeps_ret].
  apply keeps_bind; [apply keeps_status_same, status_same_emit | intros _].
  apply keeps_bind; [apply keeps_status_set; reflexivity | intros _].
  apply keeps_get_bind. intros s1.
  apply keeps_bind.
  { destruct (STATUS_ISSET status_client_reconnecting s1);
      apply keeps_status_same, status_same_emit. }
  intros _.
  apply keeps_bind; [apply keeps_status_unset; reflexivity | intros _].
  apply keeps_bind;
    [apply keeps_status_same, status_same_cmd_send_announce | intros _].
  apply keeps_ret.
Qed.

Lemma keeps_disconnect_expected (context : option String.string) :
  keeps received_init_implies_started (disconnect context true : Srv N C unit).
Proof.
  unfold disconnect.
  apply keeps_get_bind. intros s0.
  destruct (negb (is_client_connected s0)); [apply keeps_ret|].
  apply keeps_bind.
  { apply keeps_bind; [|intros _]; apply keeps_status_same, status_same_emit. }
  intros _.
  apply keeps_bind;
    [apply keeps_status_same, status_same_call_disconnect | intros _].
  apply keeps_bind;
    [apply keeps_status_same, status_same_call_setup | intros _].
  apply keeps_status_unset. reflexivity.
Qed.

Lemma keeps_cmd_reconnect (buflen : Z) :
  keeps received_init_implies_started (cmd_reconnect buflen : Srv N C unit).
Proof.
  unfold cmd_reconnect.
  apply keeps_bind; [apply keeps_status_same, status_same_emit | intros _].
  apply keeps_bind; [apply keeps_status_set; reflexivity | intros _].
  apply keeps_disconnect_expected.
Qed.

Lemma keeps_cmd_disconnect (buflen : Z) :
  keeps received_init_implies_started (cmd_disconnect buflen : Srv N C unit).
Proof.
  unfold cmd_disconnect.
  apply keeps_bind; [apply keeps_status_same, status_same_emit | intros _].
  apply keeps_status_set. reflexivity.
Qed.

Lemma status_same_cmd_ping (buflen : Z) :
  status_same (cmd_ping buflen : Srv N C unit).
Proof. apply status_same_emit. Qed.

Lemma status_same_cmd_print (buflen : Z) :
  status_same (cmd_print buflen : Srv N C unit).
Proof. unfold cmd_print, log_print. status_same_auto. Qed.

Lemma status_same_cmd_alive (buflen : Z) :
  status_same (cmd_alive buflen : Srv N C unit).
Proof. apply status_same_ret. Qed.

Lemma status_same_cmd_register_call (buflen : Z) :
  status_same (cmd_register_call buflen : Srv N C unit).
Proof.
  unfold cmd_register_call, log_debug.
  apply status_same_get_bind. intros s0.
  apply status_same_bind; [apply status_same_emit | intros _].
  apply status_same_call_register_buffer.
Qed.

Lemma status_same_cmd_find_native (buflen : Z) :
  status_same (cmd_find_native buflen : Srv N C unit).
Proof.
  unfold cmd_find_native, log_debug, send.
  apply status_same_get_bind. intros s0.
  apply status_same_bind; [apply status_same_modify; reflexivity | intros _].
  apply status_same_bind; [apply status_same_emit | intros _].
  apply status_same_bind; [apply status_same_call_get_handle | intros h].
  status_same_auto.
Qed.

Lemma status_same_cmd_invoke_native (buflen : Z) :
  status_same (cmd_invoke_native buflen : Srv N C unit).
Proof.
  unfold cmd_invoke_native, log_debug, send. cbv zeta.
  apply status_same_get_bind. intros s0.
  apply status_same_bind; [apply status_same_modify; reflexivity | intros _].
  apply status_same_bind; [apply status_same_call_invoke | intros [out txlen]].
  status_same_auto.
Qed.

Create HintDb status discriminated.

#[local] Hint Resolve status_same_ret status_same_raise status_same_emit
  status_same_log status_same_send status_same_call_setup
  status_same_call_connect status_same_call_disconnect
  status_same_call_receive status_same_call_get_handle
  status_same_call_invoke status_same_call_register_buffer
  status_same_call_fill_call_buffer status_same_call_natives_clear
  status_same_call_callbacks_clear status_same_new_array
  status_same_delete_array status_same_read_byte status_same_read_u32
  status_same_store_time status_same_is_debugging
  status_same_cmd_send_announce status_same_cmd_ping status_same_cmd_print
  status_same_cmd_alive status_same_cmd_register_call
  status_same_cmd_find_native status_same_cmd_invoke_native : status.

Ltac keeps_step :=
  match goal with
  | H : keeps ?I ?m |- keeps ?I ?m => exact H
  | |- keeps _ (bind get _) => apply keeps_get_bind; intros ?
  | |- keeps _ (bind _ _) => apply keeps_bind; [|intros ?]
  | |- keeps _ (ret _) => apply keeps_ret
  | |- keeps _ (if ?b then _ else _) => destruct b
  | |- keeps _ (match ?x with _ => _ end) => destruct x
  | |- keeps _ (modify _) =>
      apply keeps_status_same, status_same_modify; reflexivity
  | |- keeps _ _ =>
      apply keeps_status_same;
      unfold log_print, log_debug, log_info, log_error; auto with status
  end.

Ltac keeps_auto := cbv zeta; repeat keeps_step.

Lemma invariant_after_started s (st v : Z) :
  Z.testbit st 1 = true ->
  received_init_implies_started (set_status (Z.lor st v) s).
Proof.
  intros H1. apply invariant_bits. cbn [status_ set_status].
  rewrite !Z.lor_spec, H1. reflexivity.
Qed.

(** conclude the invariant at the end of the run [H] of [m] from [HI], the
    invariant at its start, leaving [keeps _ m] to prove *)
Ltac by_keeps HI H :=
  match type of H with
  | ?m _ = Ok _ _ =>
      let K := fresh "K" in
      assert (K : keeps received_init_implies_started m);
      [ | exact (K _ _ _ HI H)]
  end.

Lemma keeps_cmd_start (rec : Srv N C (bool * reply)) (buflen : Z) :
  keeps received_init_implies_started rec ->
  keeps received_init_implies_started (cmd_start rec buflen).
Proof.
  intros Hrec s a s' HI H. unfold cmd_start in H.
  apply bind_ok in H. destruct H as (u1 & s1 & E1 & H).
  apply bind_ok in H. destruct H as (u2 & s2 & E2 & H).
  apply bind_ok in H. destruct H as (s0 & s2' & E0 & H).
  unfold log_info, emit, STATUS_SET, modify in E1, E2. unfold get in E0.
  injection E1 as _ <-. injection E2 as _ <-. injection E0 as <- <-.
  set (s2 := set_status _ _) in *.
  assert (Z.testbit (status_ s2) 1 = true) as Hst.
  { subst s2. cbn [status_ set_status set_trace]. rewrite Z.lor_spec.
    apply orb_true_r. }
  assert (received_init_implies_started s2) as HI2.
  { apply invariant_bits. intros _. exact Hst. }
  clear HI. clearbody s2.
  destruct (_ =? 0); [by_keeps HI2 H; keeps_auto|].
  destruct (_ =? 1); [by_keeps HI2 H; keeps_auto|].
  destruct (_ =? 2); [|by_keeps HI2 H; keeps_auto].
  apply bind_ok in H. destruct H as (u3 & s3 & E3 & H).
  unfold log_debug, emit, modify in E3. injection E3 as _ <-.
  destruct (STATUS_ISSET status_server_received_init s2);
    [|injection H as _ <-; exact HI2].
  apply bind_ok in H. destruct H as (u4 & s4 & E4 & H).
  unfold STATUS_SET, modify in E4. injection E4 as _ <-.
  match type of H with
  | _ ?s4 = _ => assert (received_init_implies_started s4) as HI4
  end.
  { apply invariant_after_started. exact Hst. }
  by_keeps HI4 H. keeps_auto.
Qed.

(** ** Public calls *)

(** turn tests of status flags into tests of bits and evaluate those of the
    flag constants *)
Ltac constant_bits :=
  repeat match goal with
         | |- context [Z.testbit (Zpos ?p) ?k] =>
             let b := eval vm_compute in (Z.testbit (Zpos p) k) in
             change (Z.testbit (Zpos p) k) with b
         end.

Ltac status_bits :=
  unfold is_client_connected;
  rewrite ?isset_connected, ?isset_started, ?isset_received_init,
    ?isset_reconnecting, ?isset_disconnecting, ?isset_server_received_init;
  cbn [status_ communication_ set_status set_trace set_buf set_is_debug
       set_communication set_natives set_callbacks set_heap set_sol
       set_tick set_ticks_skipped];
  rewrite ?Z.lor_spec, ?testbit_unset by lia;
  unfold status_client_connected, status_client_started,
    status_client_received_init, status_client_reconnecting,
    status_client_disconnecting, status_server_received_init;
  constant_bits;
  cbn [negb orb andb];
  rewrite ?orb_false_r, ?andb_true_r, ?orb_true_r, ?andb_false_r.

(** the two exits and the two entries into forwarding of [public_call] *)
Lemma public_call_paths (fuel : nat) (amx : option Z) (name : String.string)
    (params : list Z) (retval : option Z) s :
  public_call fuel amx name params retval s
  = let s1 := set_status (note_server_init name (status_ s)) s in
    if negb (is_client_connected s)
       || negb (STATUS_ISSET status_client_started s)
       || STATUS_ISSET status_client_reconnecting s
       || STATUS_ISSET status_client_disconnecting s
    then Ok retval s1
    else if String.eqb name "OnGameModeInit"
         then public_call_forward fuel amx name params retval
                (set_status (Z.lor (status_ s1) status_client_received_init)
                   (set_trace (trace s ++ [EvSetOn false]) s1))
         else if STATUS_ISSET status_client_received_init s
              then public_call_forward fuel amx name params retval
                     (set_trace (trace s ++ [EvSetOn false]) s1)
              else Ok retval (set_trace (trace s ++ [EvSetOn false]) s1).
Proof.
  unfold public_call, note_server_init. cbv zeta.
  destruct (String.eqb name "OnGameModeInit") eqn:Hgmi;
    [|destruct (String.eqb name "OnGameModeExit") eqn:Hgme];
    cbn [negb andb];
    unfold STATUS_SET, STATUS_UNSET, emit; unfold_monad;
    status_bits;
    destruct (comm_connected (communication_ s));
    destruct (Z.testbit (status_ s) 0); destruct (Z.testbit (status_ s) 1);
    destruct (Z.testbit (status_ s) 2); destruct (Z.testbit (status_ s) 3);
    destruct (Z.testbit (status_ s) 4); cbn [negb orb andb];
    try reflexivity; destruct s; reflexivity.
Qed.

Lemma skipn_trace_app (tr evs : list event) :
  skipn (length tr) (tr ++ evs) = evs.
Proof.
  rewrite skipn_app, skipn_all, Nat.sub_diag. reflexivity.
Qed.

Lemma public_call_not_allowed (fuel : nat) (amx : option Z)
    (name : String.string) (params : list Z) (retval : option Z) s :
  forwarding_allowed name s = false ->
  exists s',
    public_call fuel amx name params retval s = Ok retval s'
    /\ status_ s' = note_server_init name (status_ s)
    /\ (trace s' = trace s \/ trace s' = trace s ++ [EvSetOn false]).
Proof.
  intros Hgate. rewrite public_call_paths. cbv zeta.
  unfold forwarding_allowed in Hgate.
  destruct (is_client_connected s); cbn [negb orb andb] in *;
    [|eexists; split; [reflexivity|]; split; [reflexivity | left; reflexivity]].
  destruct (STATUS_ISSET status_client_started s); cbn [negb orb andb] in *;
    [|eexists; split; [reflexivity|]; split; [reflexivity | left; reflexivity]].
  destruct (STATUS_ISSET status_client_reconnecting s);
    cbn [negb orb andb] in *;
    [eexists; split; [reflexivity|]; split; [reflexivity | left; reflexivity]|].
  destruct (STATUS_ISSET status_client_disconnecting s);
    cbn [negb orb andb] in *;
    [eexists; split; [reflexivity|]; split; [reflexivity | left; reflexivity]|].
  apply orb_false_iff in Hgate. destruct Hgate as [Hgmi Hinit].
  rewrite Hgmi, Hinit.
  eexists; split; [reflexivity|]; split; [reflexivity | right; reflexivity].
Qed.

Lemma public_call_allowed (fuel : nat) (amx : option Z)
    (name : String.string) (params : list Z) (retval : option Z) s :
  forwarding_allowed name s = true ->
  exists s1,
    public_call fuel amx name params retval s
    = public_call_forward fuel amx name params retval s1
    /\ trace s1 = trace s ++ [EvSetOn false]
    /\ status_ s1
       = (if String.eqb name "OnGameModeInit"
          then Z.lor (note_server_init name (status_ s))
                 status_client_received_init
          else note_server_init name (status_ s))
    /\ debug_check_ s1 = debug_check_ s /\ is_debug_ s1 = is_debug_ s
    /\ tick_ s1 = tick_ s /\ sol_ s1 = sol_ s
    /\ buf_ s1 = buf_ s /\ callbacks_ s1 = callbacks_ s
    /\ communication_ s1 = communication_ s
    /\ heap_live s1 = heap_live s /\ heap_next s1 = heap_next s.
Proof.
  intros Hgate. rewrite public_call_paths. cbv zeta.
  unfold forwarding_allowed in Hgate.
  do 4 (apply andb_true_iff in Hgate; destruct Hgate as [Hgate ?]).
  rewrite Hgate.
  destruct (STATUS_ISSET status_client_started s); [|discriminate].
  destruct (STATUS_ISSET status_client_reconnecting s); [discriminate|].
  destruct (STATUS_ISSET status_client_disconnecting s); [discriminate|].
  cbn [negb orb andb].
  destruct (String.eqb name "OnGameModeInit").
  - eexists. split; [reflexivity|]. cbn. auto 15.
  - cbn [orb] in *.
    destruct (STATUS_ISSET status_client_received_init s); [|discriminate].
    eexists. split; [reflexivity|]. cbn. auto 15.
Qed.

(** C8: [public_call] goes on to forward the callback only when the client
    is connected and started, has had its OnGameModeInit (unless the
    callback is OnGameModeInit itself) and is neither reconnecting nor
    disconnecting.  Otherwise it returns the return slot as it was without
    sending a command or taking the lock; OnGameModeInit for a client that
    has not started only notes the host's initialisation and returns. *)
Theorem public_call_forwards_only_when_allowed
    (fuel : nat) (amx : option Z) (name : String.string) (params : list Z)
    (retval : option Z) s :
  (forwarding_allowed name s = false ->
   exists s',
     public_call fuel amx name params retval s = Ok retval s'
     /\ filter is_send (skipn (length (trace s)) (trace s')) = []
     /\ filter is_lock (skipn (length (trace s)) (trace s')) = [])
  /\ (forall (r : option Z) s',
         public_call fuel amx name params retval s = Ok r s' ->
         (exists payload,
             In (EvSend CMD_PUBLIC_CALL payload)
                (skipn (length (trace s)) (trace s'))) ->
         forwarding_allowed name s = true)
  /\ (forwarding_allowed name s = true ->
      exists s1,
        public_call fuel amx name params retval s
        = public_call_forward fuel amx name params retval s1
        /\ trace s1 = trace s ++ [EvSetOn false])
  /\ (name = "OnGameModeInit" ->
      STATUS_ISSET status_client_started s = false ->
      public_call fuel amx name params retval s
      = Ok retval
          (set_status (Z.lor (status_ s) status_server_received_init) s)).
Proof.
  assert (forwarding_allowed name s = false ->
          exists s',
            public_call fuel amx name params retval s = Ok retval s'
            /\ filter is_send (skipn (length (trace s)) (trace s')) = []
            /\ filter is_lock (skipn (length (trace s)) (trace s')) = [])
    as Hclosed.
  { intros Hgate.
    destruct (public_call_not_allowed fuel amx name params retval s Hgate)
      as (s' & Hrun & _ & [Htr|Htr]).
    - exists s'. rewrite Htr, skipn_all. auto.
    - exists s'. rewrite Htr, skipn_trace_app. auto. }
  split; [exact Hclosed|]. split; [|split].
  - intros r s' Hrun (payload & Hin).
    destruct (forwarding_allowed name s) eqn:Hgate; [reflexivity|].
    destruct (Hclosed eq_refl) as (s'' & Hrun' & Hsend & _).
    rewrite Hrun in Hrun'. injection Hrun' as _ <-.
    assert (In (EvSend CMD_PUBLIC_CALL payload)
               (filter is_send (skipn (length (trace s)) (trace s'))))
      as Hf by (apply filter_In; split; [exact Hin | reflexivity]).
    rewrite Hsend in Hf. destruct Hf.
  - intros Hgate.
    destruct (public_call_allowed fuel amx name params retval s Hgate)
      as (s1 & Hrun & Htr & _).
    exists s1. auto.
  - intros -> Hst. rewrite public_call_paths. cbv zeta.
    rewrite Hst. cbn [negb orb].
    rewrite orb_true_r. reflexivity.
Qed.

(** ** The invariant along the receive paths *)

Lemma keeps_cmd_process (rec : Srv N C (bool * reply)) (cmd buflen : Z)
    (resp : reply) :
  keeps received_init_implies_started rec ->
  keeps received_init_implies_started (cmd_process rec cmd buflen resp).
Proof.
  intros Hrec. unfold cmd_process.
  pose proof (keeps_cmd_start rec buflen Hrec).
  pose proof (keeps_cmd_reconnect buflen).
  pose proof (keeps_cmd_disconnect buflen).
  unfold CMD_PING, CMD_PRINT, CMD_REGISTER_CALL, CMD_FIND_NATIVE,
    CMD_INVOKE_NATIVE, CMD_RECONNECT, CMD_DISCONNECT, CMD_START, CMD_ALIVE.
  keeps_auto.
Qed.

Lemma keeps_cmd_receive_one (rec : Srv N C (bool * reply)) (resp : reply) :
  keeps received_init_implies_started rec ->
  keeps received_init_implies_started (cmd_receive_one rec resp).
Proof.
  intros Hrec. unfold cmd_receive_one.
  apply keeps_bind; [apply keeps_connect | intros ok].
  destruct ok; cbn [negb]; [|apply keeps_ret].
  apply keeps_bind;
    [apply keeps_status_same, status_same_call_receive | intros r].
  destruct r as [| |command payload]; try apply keeps_ret.
  apply keeps_get_bind. intros s0.
  apply keeps_bind;
    [apply keeps_status_same, status_same_modify; reflexivity | intros _].
  apply keeps_bind;
    [apply keeps_status_same, status_same_store_time | intros _].
  apply keeps_cmd_process. exact Hrec.
Qed.

Lemma keeps_cmd_receive_unhandled (fuel : nat) :
  keeps received_init_implies_started
    (cmd_receive_unhandled fuel : Srv N C (bool * reply)).
Proof.
  induction fuel as [|fuel IH]; cbn [cmd_receive_unhandled].
  - intros s a s' _ H. discriminate.
  - apply keeps_bind.
    + apply keeps_cmd_receive_one. exact IH.
    + intros [stat resp]. destruct (discarded stat);
        [exact IH | apply keeps_ret].
Qed.

Lemma keeps_public_call_receive (fuel : nat) (name : String.string)
    (retval : option Z) :
  keeps received_init_implies_started
    (public_call_receive fuel name retval : Srv N C (option Z)).
Proof.
  unfold public_call_receive.
  pose proof (keeps_cmd_receive_unhandled fuel).
  keeps_auto.
Qed.

Lemma keeps_public_call_forward (fuel : nat) (amx : option Z)
    (name : String.string) (params : list Z) (retval : option Z) :
  keeps received_init_implies_started
    (public_call_forward fuel amx name params retval : Srv N C (option Z)).
Proof.
  unfold public_call_forward.
  pose proof (keeps_public_call_receive fuel name retval).
  keeps_auto.
Qed.

Lemma note_server_init_bit (name : String.string) (st k : Z) :
  0 <= k -> k <> 5 ->
  Z.testbit (note_server_init name st) k = Z.testbit st k.
Proof.
  intros Hk H5. unfold note_server_init, status_server_received_init.
  change 32 with (2 ^ 5).
  destruct (String.eqb name "OnGameModeInit");
    [|destruct (String.eqb name "OnGameModeExit")];
    rewrite ?Z.lor_spec, ?testbit_unset, ?Z.pow2_bits_eqb by lia;
    try reflexivity;
    destruct (Z.eqb_spec 5 k); try lia; cbn [negb];
    rewrite ?orb_false_r, ?andb_true_r; reflexivity.
Qed.

Lemma keeps_public_call (fuel : nat) (amx : option Z) (name : String.string)
    (params : list Z) (retval : option Z) :
  keeps received_init_implies_started
    (public_call fuel amx name params retval : Srv N C (option Z)).
Proof.
  intros s r s' HI H.
  pose proof (proj1 (invariant_bits s) HI) as Hb.
  destruct (forwarding_allowed name s) eqn:Hgate.
  - destruct (public_call_allowed fuel amx name params retval s Hgate)
      as (s1 & Hrun & _ & Hst & _).
    rewrite Hrun in H.
    apply (keeps_public_call_forward fuel amx name params retval s1 r s');
      [|exact H].
    apply invariant_bits. rewrite Hst.
    unfold forwarding_allowed in Hgate.
    do 4 (apply andb_true_iff in Hgate; destruct Hgate as [Hgate ?]).
    rewrite isset_started in *.
    destruct (String.eqb name "OnGameModeInit");
      rewrite ?Z.lor_spec, !note_server_init_bit by lia; auto.
    intros _. rewrite H3. reflexivity.
  - destruct (public_call_not_allowed fuel amx name params retval s Hgate)
      as (s'' & Hrun & Hst & _).
    rewrite Hrun in H. injection H as _ <-.
    apply invariant_bits. rewrite Hst, !note_server_init_bit by lia.
    exact Hb.
Qed.

Lemma status_same_tick_send : status_same (tick_send : Srv N C unit).
Proof.
  unfold tick_send, send.
  apply status_same_bind; [apply status_same_emit | intros _].
  apply status_same_get_bind. intros s0.
  destruct (tick_allowed s0); [|apply status_same_ret].
  apply status_same_bind; [apply status_same_emit | intros _].
  apply status_same_bind; [apply status_same_is_debugging | intros dbg].
  destruct dbg; cbn [negb]; [apply status_same_ret|].
  apply status_same_bind; [apply status_same_modify; reflexivity | intros _].
  apply status_same_emit.
Qed.

Lemma keeps_tick_receive (fuel : nat) (resp : reply) :
  keeps received_init_implies_started
    (tick_receive fuel resp : Srv N C unit).
Proof.
  revert resp. induction fuel as [|fuel IH]; intros resp;
    cbn [tick_receive].
  - intros s a s' _ H. discriminate.
  - pose proof (keeps_cmd_receive_one _ resp
                  (keeps_cmd_receive_unhandled fuel)).
    apply keeps_bind; [assumption | intros [stat resp']].
    apply keeps_bind.
    + destruct (fst resp'); keeps_auto.
    + intros _. destruct (_ || _); [apply keeps_ret | apply IH].
Qed.

Lemma keeps_tick (fuel : nat) (len0 : Z) :
  keeps received_init_implies_started (tick fuel len0 : Srv N C unit).
Proof.
  unfold tick.
  apply keeps_bind; [apply keeps_status_same, status_same_tick_send|].
  intros _.
  apply keeps_bind; [apply keeps_tick_receive | intros _].
  apply keeps_status_same, status_same_emit.
Qed.

Lemma invariant_initially (junk : remote_server N C) (communication : commsvr)
    (debug_check : bool) :
  received_init_implies_started
    (remote_server_new junk communication debug_check).
Proof.
  unfold remote_server_new. destruct (comm_setup communication) as [ok c].
  intros H. discriminate.
Qed.

Lemma terminate_clears_started_only s (context : option String.string) :
  is_client_connected s = true ->
  exists s',
    terminate context s = Ok tt s'
    /\ STATUS_ISSET status_client_started s' = false
    /\ STATUS_ISSET status_client_received_init s'
       = STATUS_ISSET status_client_received_init s.
Proof.
  intros Hc. unfold terminate.
  destruct (STATUS_ISSET status_client_disconnecting s) eqn:Hd.
  - destruct (disconnect_client_initiated s context Hc Hd)
      as (s' & Hrun & _ & _ & Hst & _).
    exists s'. split; [exact Hrun|].
    rewrite !isset_started, !isset_received_init, Hst.
    rewrite !testbit_unset by lia.
    unfold status_client_started, status_client_disconnecting,
      status_client_connected.
    constant_bits. cbn [negb]. rewrite !andb_true_r, andb_false_r. auto.
  - destruct (disconnect_unexpected s context Hc Hd)
      as (s' & Hrun & _ & _ & Hst & _).
    exists s'. split; [exact Hrun|].
    rewrite !isset_started, !isset_received_init, Hst.
    rewrite !testbit_unset by lia.
    unfold status_client_started, status_client_connected.
    constant_bits. cbn [negb]. rewrite !andb_true_r, andb_false_r. auto.
Qed.

(** C3 (amended): the invariant "[client_received_init] implies
    [client_started]" holds in the initial state and is kept by [connect],
    by every command handler, by the receive operations, by an expected
    disconnect, by [public_call] and by [tick].  A client-initiated or
    unexpected disconnect ([terminate]) of a connected client clears
    [client_started] and leaves [client_received_init] as it was; on a
    client that is not connected it does nothing. *)
Theorem invariant_kept_except_by_terminate :
  (forall (junk : remote_server N C) (communication : commsvr)
          (debug_check : bool),
      received_init_implies_started
        (remote_server_new junk communication debug_check))
  /\ keeps received_init_implies_started (connect : Srv N C bool)
  /\ (forall (fuel : nat) (cmd buflen : Z) (resp : reply),
         keeps received_init_implies_started
           (cmd_process (cmd_receive_unhandled fuel) cmd buflen resp
            : Srv N C (cmd_status * reply)))
  /\ (forall (fuel : nat) (resp : reply),
         keeps received_init_implies_started
           (cmd_receive_one (cmd_receive_unhandled fuel) resp
            : Srv N C (cmd_status * reply)))
  /\ (forall fuel : nat,
         keeps received_init_implies_started
           (cmd_receive_unhandled fuel : Srv N C (bool * reply)))
  /\ (forall context : option String.string,
         keeps received_init_implies_started
           (disconnect context true : Srv N C unit))
  /\ (forall (fuel : nat) (amx : option Z) (name : String.string)
             (params : list Z) (retval : option Z),
         keeps received_init_implies_started
           (public_call fuel amx name params retval : Srv N C (option Z)))
  /\ (forall (fuel : nat) (len0 : Z),
         keeps received_init_implies_started (tick fuel len0 : Srv N C unit))
  /\ (forall s (context : option String.string),
         is_client_connected s = true ->
         exists s',
           terminate context s = Ok tt s'
           /\ STATUS_ISSET status_client_started s' = false
           /\ STATUS_ISSET status_client_received_init s'
              = STATUS_ISSET status_client_received_init s)
  /\ (forall s (context : option String.string),
         is_client_connected s = false -> terminate context s = Ok tt s).
Proof.
  split; [exact invariant_initially|].
  split; [exact keeps_connect|].
  split.
  { intros fuel cmd buflen resp.
    apply keeps_cmd_process, keeps_cmd_receive_unhandled. }
  split.
  { intros fuel resp.
    apply keeps_cmd_receive_one, keeps_cmd_receive_unhandled. }
  split; [exact keeps_cmd_receive_unhandled|].
  split; [exact keeps_disconnect_expected|].
  split; [exact keeps_public_call|].
  split; [exact keeps_tick|].
  split; [exact terminate_clears_started_only|].
  intros s context Hc. apply disconnect_not_connected. exact Hc.
Qed.

(** ** More fuel *)

Lemma more_fuel_refl {A : Type} (m : Srv N C A) : more_fuel m m.
Proof. intros s. right. reflexivity. Qed.

Lemma more_fuel_bind {A B : Type} (m m' : Srv N C A)
    (k k' : A -> Srv N C B) :
  more_fuel m m' -> (forall a, more_fuel (k a) (k' a)) ->
  more_fuel (bind m k) (bind m' k').
Proof.
  intros Hm Hk s. unfold bind.
  destruct (Hm s) as [H|H]; rewrite H; [left; reflexivity|].
  destruct (m' s) as [a s'| |]; [apply Hk | right; reflexivity
                                 | right; reflexivity].
Qed.

Lemma more_fuel_ok {A : Type} (m m' : Srv N C A) s (a : A) s' :
  more_fuel m m' -> m s = Ok a s' -> m' s = Ok a s'.
Proof.
  intros Hm H. destruct (Hm s) as [H'|H']; congruence.
Qed.

Ltac more_fuel_step :=
  match goal with
  | H : more_fuel ?m ?m' |- more_fuel ?m ?m' => exact H
  | |- more_fuel ?m ?m => apply more_fuel_refl
  | |- more_fuel (bind _ _) (bind _ _) => apply more_fuel_bind; [|intros ?]
  | |- more_fuel (if ?b then _ else _) (if ?b then _ else _) => destruct b
  | |- more_fuel (match ?x with _ => _ end) (match ?x with _ => _ end) =>
      destruct x
  end.

Lemma more_fuel_cmd_start (rec rec' : Srv N C (bool * reply)) (buflen : Z) :
  more_fuel rec rec' ->
  more_fuel (cmd_start rec buflen) (cmd_start rec' buflen).
Proof.
  intros Hrec. unfold cmd_start. repeat more_fuel_step.
Qed.

Lemma more_fuel_cmd_process (rec rec' : Srv N C (bool * reply))
    (cmd buflen : Z) (resp : reply) :
  more_fuel rec rec' ->
  more_fuel (cmd_process rec cmd buflen resp)
            (cmd_process rec' cmd buflen resp).
Proof.
  intros Hrec. unfold cmd_process.
  pose proof (more_fuel_cmd_start rec rec' buflen Hrec).
  repeat more_fuel_step.
Qed.

Lemma more_fuel_cmd_receive_one (rec rec' : Srv N C (bool * reply))
    (resp : reply) :
  more_fuel rec rec' ->
  more_fuel (cmd_receive_one rec resp) (cmd_receive_one rec' resp).
Proof.
  intros Hrec. unfold cmd_receive_one.
  apply more_fuel_bind; [apply more_fuel_refl | intros ok].
  destruct (negb ok); [apply more_fuel_refl|].
  apply more_fuel_bind; [apply more_fuel_refl | intros r].
  destruct r; try apply more_fuel_refl.
  apply more_fuel_bind; [apply more_fuel_refl | intros s0].
  apply more_fuel_bind; [apply more_fuel_refl | intros _].
  apply more_fuel_bind; [apply more_fuel_refl | intros _].
  apply more_fuel_cmd_process. exact Hrec.
Qed.

Lemma more_fuel_succ (fuel : nat) :
  more_fuel (cmd_receive_unhandled fuel : Srv N C (bool * reply))
            (cmd_receive_unhandled (S fuel)).
Proof.
  induction fuel as [|fuel IH].
  - intros s. left. reflexivity.
  - change (cmd_receive_unhandled (S (S fuel)) : Srv N C (bool * reply))
      with (' (stat, resp) <- cmd_receive_one (cmd_receive_unhandled (S fuel))
                                              (None, 0) ;;
            if discarded stat then cmd_receive_unhandled (S fuel)
            else ret (cmd_status_eqb stat unhandled, resp) : Srv N C _).
    cbn [cmd_receive_unhandled].
    apply more_fuel_bind.
    + apply more_fuel_cmd_receive_one. exact IH.
    + intros [stat resp]. destruct (discarded stat);
        [exact IH | apply more_fuel_refl].
Qed.

Lemma more_fuel_le (fuel fuel' : nat) :
  (fuel <= fuel')%nat ->
  more_fuel (cmd_receive_unhandled fuel : Srv N C (bool * reply))
            (cmd_receive_unhandled fuel').
Proof.
  induction 1 as [|fuel' Hle IH]; [apply more_fuel_refl|].
  intros s. destruct (IH s) as [H|H]; [left; exact H|].
  rewrite H. apply more_fuel_succ.
Qed.

Lemma cmd_receive_one_more_fuel (fuel fuel' : nat) (resp : reply) s
    (a : cmd_status * reply) s' :
  (fuel <= fuel')%nat ->
  cmd_receive_one (cmd_receive_unhandled fuel) resp s = Ok a s' ->
  cmd_receive_one (cmd_receive_unhandled fuel') resp s = Ok a s'.
Proof.
  intros Hle. apply more_fuel_ok, more_fuel_cmd_receive_one, more_fuel_le.
  exact Hle.
Qed.

(** ** The loop of [cmd_receive_unhandled] *)

Lemma discards_more_fuel (fuel fuel' : nat) s (k : nat) s' :
  (fuel <= fuel')%nat -> discards fuel s k s' -> discards fuel' s k s'.
Proof.
  intros Hle Hd. induction Hd as [s|s s1 s' stat resp k Hone Hdis _ IH].
  - constructor.
  - eapply discards_one; [|eassumption|eassumption].
    apply (cmd_receive_one_more_fuel fuel fuel'); eassumption.
Qed.

Lemma discarded_false (stat : cmd_status) :
  discarded stat = false <-> stat = unhandled \/ stat = conn_dead.
Proof.
  destruct stat; cbn; split; intros H; try discriminate; auto;
    destruct H; discriminate.
Qed.

(** a result of the loop is the first result of [cmd_receive_one] that is
    not discarded *)
Lemma cmd_receive_unhandled_stops (fuel : nat) s (b : bool) (resp : reply) s' :
  cmd_receive_unhandled fuel s = Ok (b, resp) s' ->
  exists (k : nat) sk (stat : cmd_status),
    discards fuel s k sk
    /\ cmd_receive_one (cmd_receive_unhandled fuel) (None, 0) sk
       = Ok (stat, resp) s'
    /\ (stat = unhandled \/ stat = conn_dead)
    /\ b = cmd_status_eqb stat unhandled.
Proof.
  revert s. induction fuel as [|fuel IH]; intros s H; [discriminate|].
  cbn [cmd_receive_unhandled] in H.
  apply bind_ok in H. destruct H as ([stat r] & s1 & Hone & H).
  pose proof (cmd_receive_one_more_fuel fuel (S fuel) (None, 0) s
                (stat, r) s1 (Nat.le_succ_diag_r fuel) Hone) as Hone'.
  destruct (discarded stat) eqn:Hdis.
  - destruct (IH s1 H) as (k & sk & stat' & Hd & Hlast & Hstop & Hb).
    exists (S k), sk, stat'. split; [|split; [|split]]; try assumption.
    + eapply discards_one; [eassumption|eassumption|].
      apply (discards_more_fuel fuel (S fuel)); [lia | assumption].
    + apply (cmd_receive_one_more_fuel fuel (S fuel)); [lia | assumption].
  - injection H as <- <- <-.
    exists O, s, stat. split; [constructor|].
    split; [exact Hone'|]. split; [|reflexivity].
    apply discarded_false. exact Hdis.
Qed.

(** the loop returns as soon as [cmd_receive_one] returns a result that is
    not discarded, given fuel for the turns taken *)
Lemma cmd_receive_unhandled_returns (fuel : nat) s (k : nat) sk
    (stat : cmd_status) (resp : reply) s' :
  discards fuel s k sk ->
  cmd_receive_one (cmd_receive_unhandled fuel) (None, 0) sk
  = Ok (stat, resp) s' ->
  stat = unhandled \/ stat = conn_dead ->
  forall fuel' : nat,
    (fuel + k < fuel')%nat ->
    cmd_receive_unhandled fuel' s = Ok (cmd_status_eqb stat unhandled, resp) s'.
Proof.
  intros Hd Hlast Hstop. apply discarded_false in Hstop.
  induction Hd as [s|s s1 sk stat1 resp1 k Hone Hdis _ IH];
    intros fuel' Hfuel; (destruct fuel' as [|fuel']; [lia|]);
    cbn [cmd_receive_unhandled]; unfold bind at 1.
  - rewrite (cmd_receive_one_more_fuel fuel fuel' (None, 0) s
               (stat, resp) s'); [|lia|exact Hlast].
    rewrite Hstop. reflexivity.
  - rewrite (cmd_receive_one_more_fuel fuel fuel' (None, 0) s
               (stat1, resp1) s1); [|lia|exact Hone].
    rewrite Hdis. apply IH; [exact Hlast | lia].
Qed.

(** ** Handlers, step by step *)

Lemma cmd_process_register_call (rec : Srv N C (bool * reply)) (buflen : Z)
    (resp : reply) s :
  cmd_process rec CMD_REGISTER_CALL buflen resp s
  = Ok (handled, resp)
      (set_trace (trace s ++ [EvLog Ldebug "Register call %s"
                                [ArgStr (c_str (buf_ s))];
                              EvRegisterBuffer (buf_ s)])
         (set_callbacks (callbacks_register_buffer (callbacks_ s) (buf_ s))
            s)).
Proof.
  unfold cmd_process. cbn [Z.eqb CMD_REGISTER_CALL CMD_PING CMD_PRINT Pos.eqb].
  unfold cmd_register_call. unfold_calls. unfold_monad. cbn. state_eq.
Qed.

Lemma cmd_process_invoke_native (rec : Srv N C (bool * reply)) (buflen : Z)
    (resp : reply) s :
  cmd_process rec CMD_INVOKE_NATIVE buflen resp s
  = let '(out, txlen, n) :=
      natives_invoke (natives_ s) (skipn 2 (buf_ s)) (uint32 (buflen - 2))
        (uint32 (uint32 LEN_NETBUF - 2)) in
    let tx := poke (poke (buftx_ s) 0 (peek (buf_ s) 0 2)) 2 out in
    Ok (handled, resp)
      (set_trace
         (trace s
          ++ [EvInvoke (skipn 2 (buf_ s)) (uint32 (buflen - 2));
              EvLog Ldebug
                "Native invoked with %d buflen, response has %d buflen"
                [ArgInt (uint32 (buflen - 2)); ArgInt txlen];
              EvSend CMD_RESPONSE (firstn (Z.to_nat (uint32 (txlen + 2))) tx)])
         (set_buftx tx (set_natives n s))).
Proof.
  unfold cmd_process.
  cbn [Z.eqb CMD_INVOKE_NATIVE CMD_REGISTER_CALL CMD_FIND_NATIVE CMD_PING
       CMD_PRINT Pos.eqb].
  unfold cmd_invoke_native. unfold_calls. unfold_monad. cbv zeta.
  cbn [natives_ buf_ buftx_ trace set_buftx set_natives set_trace].
  destruct (natives_invoke _ _ _ _) as [[out txlen] n]. cbn. state_eq.
Qed.

Lemma cmd_process_unmapped (rec : Srv N C (bool * reply)) (cmd buflen : Z)
    (resp : reply) s :
  is_mapped cmd = false ->
  cmd_process rec cmd buflen resp s
  = if 0 <? buflen
    then Ok (unhandled, (Some (heap_next s), buflen))
           (set_trace
              (trace s ++ [EvNew (heap_next s)
                             (firstn (Z.to_nat buflen) (buf_ s))])
              (set_heap (S (heap_next s))
                 ((heap_next s, firstn (Z.to_nat buflen) (buf_ s))
                  :: heap_live s) s))
    else Ok (unhandled, resp) s.
Proof.
  unfold is_mapped. cbn [existsb]. intros H.
  repeat (apply orb_false_iff in H; destruct H as [? H]).
  unfold cmd_process.
  repeat match goal with
         | E : (cmd =? ?c) = false |- context [cmd =? ?c] => rewrite E
         end.
  destruct (0 <? buflen); [|reflexivity].
  unfold_calls. unfold_monad. cbn. state_eq.
Qed.

Lemma firstn_poke_payload (buf payload : bytes) :
  firstn (Z.to_nat (zlength payload)) (poke buf 0 payload) = payload.
Proof.
  unfold poke, zlength. cbn [firstn app]. rewrite Nat2Z.id.
  rewrite firstn_app, firstn_all, Nat.sub_diag. cbn [firstn].
  apply app_nil_r.
Qed.

(** an unmapped command, received: the reply handed back *)
Lemma cmd_receive_one_unmapped (rec : Srv N C (bool * reply)) (resp : reply)
    s (command : Z) (payload : bytes) (rest : list received) :
  comm_connected (communication_ s) = true ->
  comm_incoming (communication_ s) = RecvCmd command payload :: rest ->
  is_mapped command = false ->
  cmd_receive_one rec resp s
  = Ok (unhandled, reply_for payload (heap_next s) resp)
      (match payload with
       | [] => delivered payload s
       | _ :: _ =>
           set_trace (trace s ++ [EvNew (heap_next s) payload])
             (set_heap (S (heap_next s))
                ((heap_next s, payload) :: heap_live s)
                (delivered payload s))
       end).
Proof.
  intros Hc Hin Hm.
  rewrite (cmd_receive_one_command s rec resp command payload rest Hc Hin).
  rewrite (cmd_process_unmapped rec command _ resp _ Hm).
  destruct payload as [|b payload]; [reflexivity|].
  assert ((0 <? zlength (b :: payload)) = true) as ->
      by (apply Z.ltb_lt; unfold zlength; cbn [length]; lia).
  change (buf_ (delivered (b :: payload) s))
    with (poke (buf_ s) 0 (b :: payload)).
  rewrite firstn_poke_payload. reflexivity.
Qed.

(** the scripted exchange: a registration, a native invocation, then the
    reply *)
Lemma cmd_receive_unhandled_script (fuel : nat) s (p1 p2 p3 : bytes)
    (rest : list received) :
  comm_connected (communication_ s) = true ->
  comm_incoming (communication_ s)
  = RecvCmd CMD_REGISTER_CALL p1 :: RecvCmd CMD_INVOKE_NATIVE p2
    :: RecvCmd CMD_RESPONSE p3 :: rest ->
  (3 <= fuel)%nat ->
  exists s' (args out : bytes) (buflen : Z) (logged : list log_arg),
    cmd_receive_unhandled fuel s
    = Ok (true, reply_for p3 (heap_next s) (None, 0)) s'
    /\ trace s'
       = trace s
         ++ [EvLog Ldebug "Register call %s"
               [ArgStr (c_str (poke (buf_ s) 0 p1))];
             EvRegisterBuffer (poke (buf_ s) 0 p1);
             EvInvoke args buflen;
             EvLog Ldebug
               "Native invoked with %d buflen, response has %d buflen" logged;
             EvSend CMD_RESPONSE out]
         ++ match p3 with
            | [] => []
            | _ :: _ => [EvNew (heap_next s) p3]
            end
    /\ args = skipn 2 (poke (poke (buf_ s) 0 p1) 0 p2)
    /\ heap_live s'
       = match p3 with
         | [] => heap_live s
         | _ :: _ => (heap_next s, p3) :: heap_live s
         end
    /\ callbacks_ s'
       = callbacks_register_buffer (callbacks_ s) (poke (buf_ s) 0 p1)
    /\ comm_incoming (communication_ s') = rest.
Proof.
  intros Hc Hin Hfuel.
  destruct fuel as [|[|[|fuel]]]; try lia. clear Hfuel.
  (* first turn: the registration *)
  cbn [cmd_receive_unhandled]. unfold bind at 1.
  rewrite (cmd_receive_one_command s _ (None, 0) _ _ _ Hc Hin).
  rewrite cmd_process_register_call.
  cbn [discarded cmd_status_eqb orb].
  set (s1 := set_trace _ _).
  assert (comm_connected (communication_ s1) = true) as Hc1 by exact Hc.
  assert (comm_incoming (communication_ s1)
          = RecvCmd CMD_INVOKE_NATIVE p2 :: RecvCmd CMD_RESPONSE p3 :: rest)
    as Hin1 by (subst s1; cbn; rewrite Hin; reflexivity).
  (* second turn: the invocation *)
  unfold bind at 1.
  rewrite (cmd_receive_one_command s1 _ (None, 0) _ _ _ Hc1 Hin1).
  rewrite cmd_process_invoke_native.
  destruct (natives_invoke _ _ _ _) as [[out txlen] n] eqn:Hinv.
  cbv zeta. cbn [discarded cmd_status_eqb orb].
  set (s2 := set_trace _ _).
  assert (comm_connected (communication_ s2) = true) as Hc2 by exact Hc.
  assert (comm_incoming (communication_ s2) = RecvCmd CMD_RESPONSE p3 :: rest)
    as Hin2 by (subst s2 s1; cbn; rewrite Hin; reflexivity).
  (* third turn: the reply *)
  unfold bind at 1.
  rewrite (cmd_receive_one_unmapped _ (None, 0) s2 _ _ _ Hc2 Hin2 eq_refl).
  cbn [discarded cmd_status_eqb orb].
  eexists. exists (skipn 2 (poke (poke (buf_ s) 0 p1) 0 p2)).
  do 3 eexists.
  split; [reflexivity|].
  subst s2 s1. destruct p3 as [|b p3]; cbn; rewrite Hin;
    repeat rewrite <- app_assoc; cbn; auto 10.
Qed.

(** C1: [cmd_receive_unhandled] calls [cmd_receive_one] again and again
    with an empty reply slot, discards the results [handled] and [no_cmd]
    and returns at the first result [unhandled] or [conn_dead], with true
    exactly for [unhandled]; and it does return once such a result comes.
    For the script register_call, invoke_native, response it returns true
    with the payload of the response as the one reply, after the
    registration and then the invocation each took place once. *)
Theorem cmd_receive_unhandled_returns_first_unhandled :
  (forall (fuel : nat) s (b : bool) (resp : reply) s',
      cmd_receive_unhandled fuel s = Ok (b, resp) s' ->
      exists (k : nat) sk (stat : cmd_status),
        discards fuel s k sk
        /\ cmd_receive_one (cmd_receive_unhandled fuel) (None, 0) sk
           = Ok (stat, resp) s'
        /\ (stat = unhandled \/ stat = conn_dead)
        /\ b = cmd_status_eqb stat unhandled)
  /\ (forall (fuel : nat) s (k : nat) sk (stat : cmd_status) (resp : reply) s',
         discards fuel s k sk ->
         cmd_receive_one (cmd_receive_unhandled fuel) (None, 0) sk
         = Ok (stat, resp) s' ->
         stat = unhandled \/ stat = conn_dead ->
         forall fuel' : nat,
           (fuel + k < fuel')%nat ->
           cmd_receive_unhandled fuel' s
           = Ok (cmd_status_eqb stat unhandled, resp) s')
  /\ (forall (fuel : nat) s (p1 p2 p3 : bytes) (rest : list received),
         comm_connected (communication_ s) = true ->
         comm_incoming (communication_ s)
         = RecvCmd CMD_REGISTER_CALL p1 :: RecvCmd CMD_INVOKE_NATIVE p2
           :: RecvCmd CMD_RESPONSE p3 :: rest ->
         (3 <= fuel)%nat ->
         exists s' (args out : bytes) (buflen : Z) (logged : list log_arg),
           cmd_receive_unhandled fuel s
           = Ok (true, reply_for p3 (heap_next s) (None, 0)) s'
           /\ trace s'
              = trace s
                ++ [EvLog Ldebug "Register call %s"
                      [ArgStr (c_str (poke (buf_ s) 0 p1))];
                    EvRegisterBuffer (poke (buf_ s) 0 p1);
                    EvInvoke args buflen;
                    EvLog Ldebug
                      "Native invoked with %d buflen, response has %d buflen"
                      logged;
                    EvSend CMD_RESPONSE out]
                ++ match p3 with
                   | [] => []
                   | _ :: _ => [EvNew (heap_next s) p3]
                   end
           /\ args = skipn 2 (poke (poke (buf_ s) 0 p1) 0 p2)
           /\ heap_live s'
              = match p3 with
                | [] => heap_live s
                | _ :: _ => (heap_next s, p3) :: heap_live s
                end
           /\ callbacks_ s'
              = callbacks_register_buffer (callbacks_ s) (poke (buf_ s) 0 p1)
           /\ comm_incoming (communication_ s') = rest).
Proof.
  split; [exact cmd_receive_unhandled_stops|].
  split; [exact cmd_receive_unhandled_returns|].
  exact cmd_receive_unhandled_script.
Qed.

(** ** Handlers that always return *)

Lemma returns_ret {A : Type} (a : A) : returns (ret a : Srv N C A).
Proof. intros s. exists a, s. reflexivity. Qed.

Lemma returns_bind {A B : Type} (m : Srv N C A) (k : A -> Srv N C B) :
  returns m -> (forall a, returns (k a)) -> returns (bind m k).
Proof.
  intros Hm Hk s. destruct (Hm s) as (a & s' & H).
  destruct (Hk a s') as (b & s'' & H').
  exists b, s''. unfold bind. rewrite H. exact H'.
Qed.

Lemma returns_get_bind {B : Type} (k : remote_server N C -> Srv N C B) :
  (forall s0, returns (k s0)) -> returns (bind get k).
Proof. intros Hk s. apply (Hk s s). Qed.

Lemma returns_modify (f : remote_server N C -> remote_server N C) :
  returns (modify f).
Proof. intros s. exists tt, (f s). reflexivity. Qed.

Ltac returns_step :=
  match goal with
  | H : returns ?m |- returns ?m => exact H
  | |- returns (bind get _) => apply returns_get_bind; intros ?
  | |- returns (bind _ _) => apply returns_bind; [|intros ?]
  | |- returns (ret _) => apply returns_ret
  | |- returns (modify _) => apply returns_modify
  | |- returns (emit _) => apply returns_modify
  | |- returns (if ?b then _ else _) => destruct b
  | |- returns (match ?x with _ => _ end) => destruct x
  end.

Ltac returns_auto := unfold_calls; cbv zeta; repeat returns_step.

Lemma returns_disconnect (context : option String.string) (expected : bool) :
  returns (disconnect context expected : Srv N C unit).
Proof. unfold disconnect. returns_auto. Qed.

Lemma returns_cmd_reconnect (buflen : Z) :
  returns (cmd_reconnect buflen : Srv N C unit).
Proof.
  unfold cmd_reconnect.
  pose proof (returns_disconnect None true). returns_auto.
Qed.

Lemma returns_cmd_find_native (buflen : Z) :
  returns (cmd_find_native buflen : Srv N C unit).
Proof. unfold cmd_find_native. returns_auto. Qed.

Lemma returns_cmd_invoke_native (buflen : Z) :
  returns (cmd_invoke_native buflen : Srv N C unit).
Proof. unfold cmd_invoke_native. returns_auto. Qed.

(** a mapped command is answered [handled] and the reply slot is left as
    it was *)
Lemma cmd_process_mapped_result (rec : Srv N C (bool * reply))
    (cmd buflen : Z) (resp : reply) s (a : cmd_status * reply) s' :
  is_mapped cmd = true ->
  cmd_process rec cmd buflen resp s = Ok a s' ->
  a = (handled, resp).
Proof.
  intros Hm H. unfold cmd_process in H.
  repeat match type of H with
         | (if ?c then _ else _) _ = _ =>
             destruct c eqn:?;
             [apply bind_ok in H; destruct H as (u & s1 & _ & H);
              injection H as <- _; reflexivity|]
         end.
  unfold is_mapped in Hm. cbn [existsb] in Hm.
  repeat match goal with
         | E : (cmd =? ?c) = false |- _ => rewrite E in Hm; clear E
         end.
  discriminate.
Qed.

(** every handler but that of start returns *)
Lemma cmd_process_mapped_returns (rec : Srv N C (bool * reply))
    (cmd buflen : Z) (resp : reply) s :
  is_mapped cmd = true ->
  cmd <> CMD_START ->
  exists s', cmd_process rec cmd buflen resp s = Ok (handled, resp) s'.
Proof.
  intros Hm Hne.
  assert (returns (cmd_process rec cmd buflen resp)) as Hret.
  { unfold cmd_process.
    apply Z.eqb_neq in Hne. rewrite Hne.
    pose proof (returns_cmd_reconnect buflen).
    pose proof (returns_cmd_find_native buflen).
    pose proof (returns_cmd_invoke_native buflen).
    unfold cmd_ping, cmd_print, cmd_register_call, cmd_disconnect,
      cmd_alive.
    returns_auto. }
  destruct (Hret s) as (a & s' & H).
  rewrite (cmd_process_mapped_result rec cmd buflen resp s a s' Hm H) in H.
  exists s'. exact H.
Qed.

(** the start command returns when it does not have to wait for the
    client: the mode is not 2 or the host has not had its OnGameModeInit *)
Lemma cmd_process_start_returns (rec : Srv N C (bool * reply))
    (buflen : Z) (resp : reply) s :
  (if buflen =? 0 then 0 else nth 0 (buf_ s) 0) <> 2
  \/ STATUS_ISSET status_server_received_init s = false ->
  exists s', cmd_process rec CMD_START buflen resp s = Ok (handled, resp) s'.
Proof.
  intros Hmode.
  assert (exists a s', cmd_process rec CMD_START buflen resp s = Ok a s')
    as (a & s' & H).
  { unfold cmd_process.
    cbn [Z.eqb CMD_START CMD_PING CMD_PRINT CMD_REGISTER_CALL CMD_FIND_NATIVE
         CMD_INVOKE_NATIVE CMD_RECONNECT CMD_DISCONNECT Pos.eqb].
    unfold cmd_start. unfold_calls. unfold_monad.
    cbn [status_ buf_ set_status set_trace trace].
    assert (STATUS_ISSET status_server_received_init
              (set_status (Z.lor (status_ s) status_client_started)
                 (set_trace
                    (trace s ++ [EvLog Linfo "The gamemode has started." []])
                    s))
            = STATUS_ISSET status_server_received_init s) as ->.
    { rewrite !isset_server_received_init. cbn [status_ set_status].
      rewrite Z.lor_spec. apply orb_false_r. }
    set (mode := if buflen =? 0 then 0 else nth 0 (buf_ s) 0) in *.
    clearbody mode.
    destruct (mode =? 0); [eauto|]. destruct (mode =? 1).
    { destruct (STATUS_ISSET status_server_received_init s); eauto. }
    destruct (mode =? 2) eqn:Htwo; [|eauto].
    destruct Hmode as [Hmode|Hmode];
      [apply Z.eqb_eq in Htwo; contradiction|].
    rewrite Hmode. eauto. }
  rewrite (cmd_process_mapped_result rec CMD_START buflen resp s a s'
             eq_refl H) in H.
  exists s'. exact H.
Qed.

(** ** One received command *)

(** C2 (amended): a freshly received command whose opcode has a handler is
    answered [handled] with the caller's reply slot left as it was, whenever
    its handler returns; every handler returns, that of start provided it
    need not wait for the client (mode other than 2, or host not yet
    initialised).  The response opcode and every opcode without a handler
    are answered [unhandled]; a non-empty payload is handed back as a newly
    allocated block holding exactly the payload, with its length; for an
    empty payload nothing is allocated and the reply slot is left as it
    was. *)
Theorem cmd_receive_one_status (fuel : nat) s (resp : reply) (command : Z)
    (payload : bytes) (rest : list received) :
  comm_connected (communication_ s) = true ->
  comm_incoming (communication_ s) = RecvCmd command payload :: rest ->
  (is_mapped command = true ->
   (forall (a : cmd_status * reply) s',
       cmd_receive_one (cmd_receive_unhandled fuel) resp s = Ok a s' ->
       a = (handled, resp))
   /\ (command <> CMD_START
       \/ nth 0 payload 0 <> 2
       \/ STATUS_ISSET status_server_received_init s = false ->
       exists s',
         cmd_receive_one (cmd_receive_unhandled fuel) resp s
         = Ok (handled, resp) s'))
  /\ (is_mapped command = false ->
      exists s',
        cmd_receive_one (cmd_receive_unhandled fuel) resp s
        = Ok (unhandled, reply_for payload (heap_next s) resp) s'
        /\ (payload = [] ->
            heap_live s' = heap_live s /\ heap_next s' = heap_next s
            /\ trace s' = trace s)
        /\ (payload <> [] ->
            heap_live s' = (heap_next s, payload) :: heap_live s
            /\ block_of (heap_next s) (heap_live s') = Some payload
            /\ trace s' = trace s ++ [EvNew (heap_next s) payload])).
Proof.
  intros Hc Hin. split.
  - intros Hm.
    rewrite (cmd_receive_one_command s _ resp command payload rest Hc Hin).
    split.
    + intros a s' H.
      apply (cmd_process_mapped_result _ _ _ _ _ _ _ Hm H).
    + intros [Hne|Hmode].
      * apply cmd_process_mapped_returns; assumption.
      * destruct (Z.eq_dec command CMD_START) as [->|Hne];
          [|apply cmd_process_mapped_returns; assumption].
        apply cmd_process_start_returns.
        destruct Hmode as [Hmode|Hinit]; [left | right; exact Hinit].
        destruct payload as [|b payload]; [cbn; lia|].
        assert ((zlength (b :: payload) =? 0) = false) as ->
            by (apply Z.eqb_neq; unfold zlength; cbn [length]; lia).
        exact Hmode.
  - intros Hm.
    rewrite (cmd_receive_one_unmapped _ resp s command payload rest
               Hc Hin Hm).
    eexists. split; [reflexivity|].
    destruct payload as [|b payload].
    + split; [intros _ | intros H; contradiction].
      repeat split; reflexivity.
    + split; [intros H; discriminate | intros _].
      cbn [heap_live set_heap set_trace block_of trace delivered set_sol
           set_buf set_communication].
      rewrite Nat.eqb_refl. repeat split; reflexivity.
Qed.

(** ** The reply of a public call *)

Lemma reply_live_none s : reply_live (None, 0) s.
Proof. reflexivity. Qed.

Lemma cmd_receive_one_reply (rec : Srv N C (bool * reply)) s
    (stat : cmd_status) (resp : reply) s' :
  cmd_receive_one rec (None, 0) s = Ok (stat, resp) s' ->
  reply_live resp s' /\ (fst resp <> None -> stat = unhandled).
Proof.
  intros H. unfold cmd_receive_one in H.
  apply bind_ok in H. destruct H as (ok & s1 & _ & H).
  destruct ok; cbn [negb] in H;
    [|injection H as <- <- <-; split; [reflexivity | intros []; reflexivity]].
  apply bind_ok in H. destruct H as (r & s2 & _ & H).
  destruct r as [| |command payload];
    try (injection H as <- <- <-; split;
         [reflexivity | intros []; reflexivity]).
  apply bind_ok in H. destruct H as (s0 & s3 & E0 & H).
  injection E0 as <- <-.
  apply bind_ok in H. destruct H as (u1 & s4 & E1 & H).
  unfold modify in E1. injection E1 as _ <-.
  apply bind_ok in H. destruct H as (u2 & s5 & E2 & H).
  unfold store_time, modify in E2. injection E2 as _ <-.
  destruct (is_mapped command) eqn:Hm.
  - apply (cmd_process_mapped_result _ _ _ _ _ _ _ Hm) in H.
    injection H as -> ->. split; [reflexivity | intros []; reflexivity].
  - rewrite (cmd_process_unmapped _ _ _ _ _ Hm) in H.
    destruct (0 <? zlength payload) eqn:Hlen;
      [|injection H as <- <- <-; split;
        [reflexivity | intros []; reflexivity]].
    injection H as <- <- <-. split; [|reflexivity].
    apply Z.ltb_lt in Hlen.
    cbn [buf_ set_sol set_buf]. rewrite firstn_poke_payload.
    split; [exact Hlen|]. exists payload.
    cbn. rewrite Nat.eqb_refl. split; reflexivity.
Qed.

(** what [cmd_receive_unhandled] hands back is a live block of the length
    given, and only with the result true *)
Lemma cmd_receive_unhandled_reply (fuel : nat) s (b : bool) (resp : reply) s' :
  cmd_receive_unhandled fuel s = Ok (b, resp) s' ->
  reply_live resp s' /\ (fst resp <> None -> b = true).
Proof.
  intros H.
  destruct (cmd_receive_unhandled_stops fuel s b resp s' H)
    as (k & sk & stat & _ & Hlast & _ & ->).
  destruct (cmd_receive_one_reply _ sk stat resp s' Hlast) as [Hlive Hstat].
  split; [exact Hlive|]. intros Hsome. rewrite (Hstat Hsome). reflexivity.
Qed.

Lemma zlength_at_least_5 (d : bytes) :
  5 <= zlength d ->
  exists b0 b1 b2 b3 b4 rest, d = b0 :: b1 :: b2 :: b3 :: b4 :: rest.
Proof.
  unfold zlength. intros H.
  destruct d as [|b0 [|b1 [|b2 [|b3 [|b4 rest]]]]]; cbn [length] in H;
    try lia.
  eauto 7.
Qed.

Lemma bind_eq {A B : Type} (m : Srv N C A) (k : A -> Srv N C B) s (a : A) s' :
  m s = Ok a s' -> bind m k s = k a s'.
Proof. intros H. unfold bind. rewrite H. reflexivity. Qed.

Lemma bind_emit {B : Type} (e : event) (k : unit -> Srv N C B) s :
  bind (emit e) k s = k tt (set_trace (trace s ++ [e]) s).
Proof. reflexivity. Qed.

Lemma read_byte_live (p : ptr) (off : nat) s (d : bytes) (b : byte) :
  block_of p (heap_live s) = Some d -> nth_error d off = Some b ->
  read_byte p off s = Ok b s.
Proof.
  intros Hblock Hnth. unfold read_byte. unfold_monad.
  rewrite Hblock, Hnth. reflexivity.
Qed.

Lemma read_u32_live (p : ptr) (off : nat) s (d : bytes) (b0 b1 b2 b3 : byte) :
  block_of p (heap_live s) = Some d ->
  nth_error d off = Some b0 -> nth_error d (off + 1) = Some b1 ->
  nth_error d (off + 2) = Some b2 -> nth_error d (off + 3) = Some b3 ->
  read_u32 p off s = Ok (le_value [b0; b1; b2; b3]) s.
Proof.
  intros Hblock H0 H1 H2 H3. unfold read_u32.
  rewrite (bind_eq _ _ _ _ _ (read_byte_live p off s d b0 Hblock H0)).
  rewrite (bind_eq _ _ _ _ _ (read_byte_live p (off + 1) s d b1 Hblock H1)).
  rewrite (bind_eq _ _ _ _ _ (read_byte_live p (off + 2) s d b2 Hblock H2)).
  rewrite (bind_eq _ _ _ _ _ (read_byte_live p (off + 3) s d b3 Hblock H3)).
  reflexivity.
Qed.

Lemma delete_array_live (p : ptr) s (d : bytes) :
  block_of p (heap_live s) = Some d ->
  delete_array p s
  = Ok tt (set_trace (trace s ++ [EvDelete p])
             (set_heap (heap_next s) (remove_block p (heap_live s)) s)).
Proof.
  intros Hblock. unfold delete_array. unfold_calls. unfold_monad.
  rewrite Hblock. reflexivity.
Qed.

(** C10: in [public_call] the reply is looked at only when one was
    received, non-null and of non-zero length; the return value is taken
    from its bytes 1..4 only when the caller gave a return slot, the reply
    has at least 5 bytes and its first byte is not 0, and otherwise the slot
    is left as it was; no read leaves the reply block and the block is
    released exactly once; when no reply block was received nothing is
    released. *)
Theorem public_call_reads_reply_in_bounds
    (fuel : nat) (name : String.string) (retval : option Z) s :
  match cmd_receive_unhandled fuel s with
  | Ok (ok, (Some p, len)) s1 =>
      ok = true /\ 0 < len
      /\ exists d,
          block_of p (heap_live s1) = Some d /\ zlength d = len
          /\ public_call_receive fuel name retval s
             = Ok (return_value d retval)
                 (set_trace (trace s1 ++ [EvUnlock; EvDelete p])
                    (set_heap (heap_next s1)
                       (remove_block p (heap_live s1)) s1))
  | Ok (ok, (None, len)) s1 =>
      public_call_receive fuel name retval s
      = Ok retval
          (set_trace
             (trace s1
              ++ [EvLog Lerror "Received no response to callback %s."
                    [ArgText name];
                  EvUnlock]) s1)
  | Fault f => public_call_receive fuel name retval s = Fault f
  | OutOfFuel => public_call_receive fuel name retval s = OutOfFuel
  end.
Proof.
  destruct (cmd_receive_unhandled fuel s) as [[ok [response len]] s1|f|]
    eqn:Hrun;
    try (unfold public_call_receive, bind; rewrite Hrun; reflexivity).
  destruct (cmd_receive_unhandled_reply fuel s ok (response, len) s1 Hrun)
    as [Hlive Hok].
  unfold public_call_receive. rewrite (bind_eq _ _ _ _ _ Hrun).
  destruct response as [p|];
    [|destruct ok; unfold_calls; unfold_monad; clear; state_eq].
  unfold reply_live in Hlive. cbn [fst snd] in Hlive, Hok.
  destruct Hlive as (Hlen & d & Hblock & Hd).
  rewrite (Hok ltac:(discriminate)).
  split; [reflexivity|]. split; [exact Hlen|].
  exists d. split; [exact Hblock|]. split; [exact Hd|].
  assert ((len =? 0) = false) as -> by (apply Z.eqb_neq; lia).
  rewrite bind_emit.
  set (s2 := set_trace (trace s1 ++ [EvUnlock]) s1).
  assert (block_of p (heap_live s2) = Some d) as Hblock2 by exact Hblock.
  assert (forall r : option Z,
             (delete_array p ;; ret r) s2
             = Ok r (set_trace (trace s1 ++ [EvUnlock; EvDelete p])
                       (set_heap (heap_next s1)
                          (remove_block p (heap_live s1)) s1))) as Hdel.
  { intros r. rewrite (bind_eq _ _ _ _ _ (delete_array_live p s2 d Hblock2)).
    unfold ret. subst s2. clear. state_eq. }
  unfold return_value. rewrite Hd.
  destruct (5 <=? len) eqn:H5; cbn [andb].
  - apply Z.leb_le in H5. rewrite <- Hd in H5.
    destruct (zlength_at_least_5 d H5)
      as (b0 & b1 & b2 & b3 & b4 & rest & ->).
    unfold bind at 1.
    rewrite (bind_eq _ _ _ _ _
               (read_byte_live p 0 s2 _ b0 Hblock2 eq_refl)).
    cbn [nth]. destruct (b0 =? 0); cbn [negb].
    + unfold ret at 1. rewrite Hdel. destruct retval; reflexivity.
    + destruct retval as [old|].
      * rewrite (bind_eq _ _ _ _ _
                   (read_u32_live p 1 s2 _ b1 b2 b3 b4 Hblock2
                      eq_refl eq_refl eq_refl eq_refl)).
        unfold ret at 1. rewrite Hdel. reflexivity.
      * unfold ret at 1. rewrite Hdel. reflexivity.
  - unfold bind at 1. unfold ret at 1. rewrite Hdel.
    destruct retval; reflexivity.
Qed.

(** ** Connecting *)





(** X2: when the transport cannot be set up, or no client is waiting,
    [connect] returns false without touching the status flags or sending
    anything; a receive attempt then reports [conn_dead] without polling
    the transport, stamping the interaction time or touching the reply
    slot, and [cmd_receive_unhandled] returns false at once with an empty
    reply. *)
Theorem receive_on_dead_channel s (rec : Srv N C (bool * reply))
    (resp : reply) :
  comm_connected (communication_ s) = false ->
  (comm_ready (communication_ s) = false
   /\ fst (comm_setup (communication_ s)) = false)
  \/ (comm_ready (communication_ s) = false
      /\ fst (comm_setup (communication_ s)) = true
      /\ fst (comm_connect (snd (comm_setup (communication_ s)))) = false)
  \/ (comm_ready (communication_ s) = true
      /\ fst (comm_connect (communication_ s)) = false) ->
  exists s',
    connect s = Ok false s'
    /\ cmd_receive_one rec resp s = Ok (conn_dead, resp) s'
    /\ (forall fuel : nat,
           cmd_receive_unhandled (S fuel) s = Ok (false, (None, 0)) s')
    /\ status_ s' = status_ s
    /\ sol_ s' = sol_ s
    /\ comm_incoming (communication_ s') = comm_incoming (communication_ s)
    /\ comm_connected (communication_ s') = false
    /\ filter is_send (skipn (length (trace s)) (trace s')) = [].
Proof.
  intros Hc Hdead.
  assert (exists s',
             connect s = Ok false s'
             /\ status_ s' = status_ s
             /\ sol_ s' = sol_ s
             /\ comm_incoming (communication_ s')
                = comm_incoming (communication_ s)
             /\ comm_connected (communication_ s') = false
             /\ filter is_send (skipn (length (trace s)) (trace s')) = [])
    as (s' & Hrun & Hrest).
  { unfold connect. unfold_calls. unfold_monad. rewrite Hc.
    destruct Hdead as [[Hr Hset]|[(Hr & Hset & Hcon)|[Hr Hcon]]];
      rewrite Hr.
    - unfold comm_setup in *. cbn [fst] in Hset. rewrite Hset. cbn [negb].
      eexists. split; [reflexivity|].
      cbn. rewrite skipn_trace_app. auto 6.
    - unfold comm_setup, comm_connect in *. cbn [fst snd] in Hset, Hcon.
      cbn [comm_connects] in Hcon.
      rewrite Hset. cbn [negb]. cbn. rewrite Hcon. cbn [negb].
      eexists. split; [reflexivity|].
      cbn. rewrite <- app_assoc, skipn_trace_app. auto 6.
    - unfold comm_connect in *. cbn [fst] in Hcon. cbn [negb].
      rewrite Hcon. cbn [negb].
      eexists. split; [reflexivity|].
      cbn. rewrite skipn_trace_app. auto 6. }
  exists s'. split; [exact Hrun|].
  assert (forall (r : Srv N C (bool * reply)) (rp : reply),
             cmd_receive_one r rp s = Ok (conn_dead, rp) s') as Hone.
  { intros r rp. unfold cmd_receive_one.
    rewrite (bind_eq _ _ _ _ _ Hrun). reflexivity. }
  split; [apply Hone|]. split; [|exact Hrest].
  intros fuel. cbn [cmd_receive_unhandled].
  rewrite (bind_eq _ _ _ _ _ (Hone _ _)). reflexivity.
Qed.

(** ** Native lookups and invocations *)

Lemma le_value_le_bytes (n : nat) (z : Z) :
  le_value (le_bytes n z) = z mod 256 ^ Z.of_nat n.
Proof.
  revert z. induction n as [|n IH]; intros z.
  - cbn [le_bytes le_value]. rewrite Z.mod_1_r. reflexivity.
  - cbn [le_bytes le_value]. rewrite IH.
    rewrite Nat2Z.inj_succ, Z.pow_succ_r by lia.
    rewrite Z.rem_mul_r by lia. reflexivity.
Qed.

(** a 32-bit signed integer survives being stored little-endian and read
    back *)
Lemma int32_le_bytes (h : Z) :
  - 2 ^ 31 <= h < 2 ^ 31 -> int32 (le_value (le_bytes 4 h)) = h.
Proof.
  intros Hh. rewrite le_value_le_bytes. unfold int32.
  change (256 ^ Z.of_nat 4) with (2 ^ 32).
  rewrite Z.add_mod_idemp_l by lia.
  rewrite Z.mod_small by lia. lia.
Qed.

(** X3: a find_native command is answered by exactly one command of six
    bytes: the two bytes of the caller's correlation id, unchanged, then
    the handle the native bridge returned, which a reader gets back by
    decoding bytes 2..5 as a little-endian signed 32-bit integer; the
    native bridge is left in the state its lookup produced. *)
Theorem find_native_echoes_id_and_handle
    s (rec : Srv N C (bool * reply)) (resp : reply)
    (a b : byte) (name : bytes) (rest : list received) :
  comm_connected (communication_ s) = true ->
  comm_incoming (communication_ s)
  = RecvCmd CMD_FIND_NATIVE (a :: b :: name) :: rest ->
  - 2 ^ 31
  <= fst (natives_get_handle (natives_ s)
            (name ++ skipn (2 + length name) (buf_ s))) < 2 ^ 31 ->
  exists s' (payload : bytes),
    cmd_receive_one rec resp s = Ok (handled, resp) s'
    /\ filter is_send (skipn (length (trace s)) (trace s'))
       = [EvSend CMD_RESPONSE payload]
    /\ length payload = 6%nat
    /\ firstn 2 payload = [a; b]
    /\ int32 (le_value (skipn 2 payload))
       = fst (natives_get_handle (natives_ s)
                (name ++ skipn (2 + length name) (buf_ s)))
    /\ natives_ s'
       = snd (natives_get_handle (natives_ s)
                (name ++ skipn (2 + length name) (buf_ s))).
Proof.
  intros Hc Hin Hh.
  rewrite (cmd_receive_one_command s rec resp _ _ _ Hc Hin).
  unfold cmd_process. simpl. unfold cmd_find_native.
  unfold_calls. unfold_monad. simpl.
  destruct (natives_get_handle _ _) as [h n'] eqn:Hg. simpl in *.
  eexists. exists ([a; b] ++ le_bytes 4 h).
  split; [reflexivity|]. simpl.
  rewrite <- !app_assoc, skipn_trace_app.
  split; [reflexivity|]. split; [reflexivity|]. split; [reflexivity|].
  split; [|reflexivity].
  apply (int32_le_bytes h Hh).
Qed.

Lemma firstn_id_out (a b : byte) (out tx : bytes) :
  firstn (2 + length out) (poke (poke tx 0 [a; b]) 2 out) = [a; b] ++ out.
Proof.
  unfold poke. cbn [firstn app length Nat.add skipn].
  f_equal. f_equal. rewrite firstn_app, firstn_all, Nat.sub_diag.
  cbn [firstn]. apply app_nil_r.
Qed.

(** X4: an invoke_native command of at least two bytes invokes the native
    bridge once, on the bytes after the correlation id and with their
    count, and is answered by exactly one command: the two bytes of the
    correlation id, unchanged, followed by what the native bridge wrote,
    provided the bridge reports the length of what it wrote. *)
Theorem invoke_native_echoes_id
    s (rec : Srv N C (bool * reply)) (resp : reply)
    (a b : byte) (args : bytes) (rest : list received)
    (out : bytes) (txlen : Z) (n' : N) :
  comm_connected (communication_ s) = true ->
  comm_incoming (communication_ s)
  = RecvCmd CMD_INVOKE_NATIVE (a :: b :: args) :: rest ->
  zlength args + 2 < 2 ^ 32 ->
  natives_invoke (natives_ s)
    (args ++ skipn (2 + length args) (buf_ s)) (zlength args)
    (uint32 (uint32 LEN_NETBUF - 2))
  = (out, txlen, n') ->
  zlength out = txlen -> txlen + 2 < 2 ^ 32 ->
  exists s',
    cmd_receive_one rec resp s = Ok (handled, resp) s'
    /\ filter is_invoke (skipn (length (trace s)) (trace s'))
       = [EvInvoke (args ++ skipn (2 + length args) (buf_ s)) (zlength args)]
    /\ filter is_send (skipn (length (trace s)) (trace s'))
       = [EvSend CMD_RESPONSE ([a; b] ++ out)]
    /\ natives_ s' = n'.
Proof.
  intros Hc Hin Hargs Hinv Hout Htx.
  rewrite (cmd_receive_one_command s rec resp _ _ _ Hc Hin).
  rewrite cmd_process_invoke_native.
  assert (uint32 (zlength (a :: b :: args) - 2) = zlength args) as Hlen.
  { unfold uint32, zlength in *. cbn [length].
    rewrite Z.mod_small; lia. }
  change (buf_ (delivered (a :: b :: args) s))
    with (a :: b :: args ++ skipn (2 + length args) (buf_ s)).
  change (natives_ (delivered (a :: b :: args) s)) with (natives_ s).
  cbn [skipn]. rewrite Hlen, Hinv. cbv zeta.
  eexists. split; [reflexivity|].
  cbn [trace natives_ set_trace set_buftx set_natives].
  rewrite skipn_trace_app. cbn [filter is_invoke is_send].
  split; [reflexivity|]. split; [|reflexivity].
  f_equal. f_equal.
  assert (Z.to_nat (uint32 (txlen + 2)) = (2 + length out)%nat) as ->.
  { unfold uint32, zlength in *. rewrite Z.mod_small; lia. }
  cbn [peek skipn firstn]. apply firstn_id_out.
Qed.

(** X5: the handler of invoke_native does not check that the payload holds
    a correlation id: for a payload of fewer than two bytes the length it
    passes to the native bridge wraps around to 2^32 - 2 plus the payload
    length. *)
Theorem invoke_native_short_payload_wraps
    s (rec : Srv N C (bool * reply)) (resp : reply)
    (payload : bytes) (rest : list received) :
  comm_connected (communication_ s) = true ->
  comm_incoming (communication_ s)
  = RecvCmd CMD_INVOKE_NATIVE payload :: rest ->
  zlength payload < 2 ->
  exists s' (args : bytes),
    cmd_receive_one rec resp s = Ok (handled, resp) s'
    /\ filter is_invoke (skipn (length (trace s)) (trace s'))
       = [EvInvoke args (2 ^ 32 - 2 + zlength payload)].
Proof.
  intros Hc Hin Hshort.
  rewrite (cmd_receive_one_command s rec resp _ _ _ Hc Hin).
  rewrite cmd_process_invoke_native.
  assert (uint32 (zlength payload - 2) = 2 ^ 32 - 2 + zlength payload)
    as Hlen.
  { unfold uint32, zlength in *.
    rewrite <- (Z.mod_add _ 1) by lia.
    rewrite Z.mod_small; lia. }
  rewrite Hlen.
  destruct (natives_invoke _ _ _ _) as [[out txlen] n'].
  cbv zeta. do 2 eexists. split; [reflexivity|].
  cbn [trace set_trace set_buftx set_natives].
  rewrite skipn_trace_app. reflexivity.
Qed.

(** ** What the bridge calls, and what it never calls *)

Lemma emits_ret {A : Type} (P : event -> bool) (a : A) :
  emits P (ret a : Srv N C A).
Proof.
  intros s a' s' H. injection H as _ <-. exists [].
  split; [symmetry; apply app_nil_r | reflexivity].
Qed.

Lemma emits_bind {A B : Type} (P : event -> bool) (m : Srv N C A)
    (k : A -> Srv N C B) :
  emits P m -> (forall a, emits P (k a)) -> emits P (bind m k).
Proof.
  intros Hm Hk s b s'' H.
  apply bind_ok in H. destruct H as (a & s' & H1 & H2).
  destruct (Hm _ _ _ H1) as (e1 & Ht1 & Hp1).
  destruct (Hk a _ _ _ H2) as (e2 & Ht2 & Hp2).
  exists (e1 ++ e2). rewrite Ht2, Ht1, app_assoc. split; [reflexivity|].
  rewrite forallb_app, Hp1, Hp2. reflexivity.
Qed.

Lemma emits_get_bind {B : Type} (P : event -> bool)
    (k : remote_server N C -> Srv N C B) :
  (forall s0, emits P (k s0)) -> emits P (bind get k).
Proof. intros Hk s b s'' H. apply (Hk s _ _ _ H). Qed.

Lemma emits_modify (P : event -> bool)
    (f : remote_server N C -> remote_server N C) :
  (forall s, trace (f s) = trace s) -> emits P (modify f).
Proof.
  intros Hf s a s' H. injection H as _ <-. exists [].
  rewrite Hf, app_nil_r. auto.
Qed.

Lemma emits_emit (P : event -> bool) (e : event) :
  P e = true -> emits P (emit e : Srv N C unit).
Proof.
  intros Hp s a s' H. injection H as _ <-. exists [e].
  split; [reflexivity|]. cbn. rewrite Hp. reflexivity.
Qed.

Lemma emits_raise {A : Type} (P : event -> bool) (f : fault) :
  emits P (raise f : Srv N C A).
Proof. intros s a s' H. discriminate. Qed.

Lemma emits_weaken {A : Type} (P Q : event -> bool) (m : Srv N C A) :
  (forall e, P e = true -> Q e = true) -> emits P m -> emits Q m.
Proof.
  intros Hpq Hm s a s' H. destruct (Hm _ _ _ H) as (evs & Ht & Hp).
  exists evs. split; [exact Ht|].
  rewrite forallb_forall in *. auto.
Qed.

Ltac emits_step :=
  match goal with
  | H : emits ?P ?m |- emits ?P ?m => exact H
  | |- emits _ (bind get _) => apply emits_get_bind; intros ?
  | |- emits _ (bind _ _) => apply emits_bind; [|intros ?]
  | |- emits _ (ret _) => apply emits_ret
  | |- emits _ (raise _) => apply emits_raise
  | |- emits _ (modify _) => apply emits_modify; reflexivity
  | |- emits _ (emit _) => apply emits_emit; reflexivity
  | |- emits _ (if ?b then _ else _) => destruct b
  | |- emits _ (match ?x with _ => _ end) => destruct x
  end.

Ltac unfold_calls_goal :=
  unfold log_print, log_debug, log_info, log_error, send,
    call_setup, call_connect, call_disconnect, call_receive,
    call_get_handle, call_invoke, call_natives_clear, call_callbacks_clear,
    call_register_buffer, call_fill_call_buffer, new_array, delete_array,
    read_u32, read_byte, STATUS_SET, STATUS_UNSET, store_time.

Ltac emits_auto := unfold_calls_goal; cbv zeta; repeat emits_step.

Lemma emits_connect : emits receive_event (connect : Srv N C bool).
Proof. unfold connect, cmd_send_announce. emits_auto. Qed.

Lemma emits_disconnect_expected (context : option String.string) :
  emits receive_event (disconnect context true : Srv N C unit).
Proof. unfold disconnect. emits_auto. Qed.

Lemma emits_is_debugging (is_tick : bool) :
  emits receive_event (is_debugging is_tick : Srv N C bool).
Proof. unfold is_debugging. emits_auto. Qed.

Lemma emits_cmd_start (rec : Srv N C (bool * reply)) (buflen : Z) :
  emits receive_event rec -> emits receive_event (cmd_start rec buflen).
Proof. intros Hrec. unfold cmd_start. emits_auto. Qed.

Lemma emits_cmd_process (rec : Srv N C (bool * reply)) (cmd buflen : Z)
    (resp : reply) :
  emits receive_event rec ->
  emits receive_event (cmd_process rec cmd buflen resp).
Proof.
  intros Hrec.
  pose proof (emits_cmd_start rec buflen Hrec).
  pose proof (emits_disconnect_expected None).
  unfold cmd_process, cmd_ping, cmd_print, cmd_register_call,
    cmd_find_native, cmd_invoke_native, cmd_reconnect, cmd_disconnect,
    cmd_alive.
  emits_auto.
Qed.

Lemma emits_cmd_receive_one (rec : Srv N C (bool * reply)) (resp : reply) :
  emits receive_event rec -> emits receive_event (cmd_receive_one rec resp).
Proof.
  intros Hrec. unfold cmd_receive_one.
  apply emits_bind; [apply emits_connect | intros ok].
  destruct (negb ok); [apply emits_ret|].
  apply emits_bind; [unfold call_receive; emits_auto | intros r].
  destruct r; try apply emits_ret.
  apply emits_get_bind. intros s0.
  apply emits_bind; [apply emits_modify; reflexivity | intros _].
  apply emits_bind; [unfold store_time; emits_auto | intros _].
  apply emits_cmd_process. exact Hrec.
Qed.

Lemma emits_cmd_receive_unhandled (fuel : nat) :
  emits receive_event (cmd_receive_unhandled fuel : Srv N C (bool * reply)).
Proof.
  induction fuel as [|fuel IH]; cbn [cmd_receive_unhandled].
  - intros s a s' H. discriminate.
  - apply emits_bind; [apply emits_cmd_receive_one; exact IH|].
    intros [stat resp]. destruct (discarded stat);
      [exact IH | apply emits_ret].
Qed.

Lemma receive_event_entry (e : event) :
  receive_event e = true -> entry_event e = true.
Proof. intros H. unfold entry_event. rewrite H. reflexivity. Qed.

Lemma emits_entry_of_receive {A : Type} (m : Srv N C A) :
  emits receive_event m -> emits entry_event m.
Proof. apply emits_weaken, receive_event_entry. Qed.

Lemma emits_public_call_receive (fuel : nat) (name : String.string)
    (retval : option Z) :
  emits entry_event
    (public_call_receive fuel name retval : Srv N C (option Z)).
Proof.
  pose proof (emits_entry_of_receive _ (emits_cmd_receive_unhandled fuel)).
  unfold public_call_receive. emits_auto.
Qed.

Lemma emits_public_call_forward (fuel : nat) (amx : option Z)
    (name : String.string) (params : list Z) (retval : option Z) :
  emits entry_event
    (public_call_forward fuel amx name params retval : Srv N C (option Z)).
Proof.
  pose proof (emits_public_call_receive fuel name retval).
  pose proof (emits_entry_of_receive _ (emits_is_debugging false)).
  unfold public_call_forward. emits_auto.
Qed.

Lemma emits_public_call (fuel : nat) (amx : option Z) (name : String.string)
    (params : list Z) (retval : option Z) :
  emits entry_event
    (public_call fuel amx name params retval : Srv N C (option Z)).
Proof.
  pose proof (emits_public_call_forward fuel amx name params retval).
  unfold public_call. emits_auto.
Qed.

Lemma emits_tick_send : emits entry_event (tick_send : Srv N C unit).
Proof.
  pose proof (emits_entry_of_receive _ (emits_is_debugging true)).
  unfold tick_send. emits_auto.
Qed.

Lemma emits_tick_receive (fuel : nat) (resp : reply) :
  emits receive_event (tick_receive fuel resp : Srv N C unit).
Proof.
  revert resp. induction fuel as [|fuel IH]; intros resp;
    cbn [tick_receive].
  - intros s a s' H. discriminate.
  - pose proof (emits_cmd_receive_one _ resp
                  (emits_cmd_receive_unhandled fuel)).
    apply emits_bind; [assumption | intros [stat resp']].
    apply emits_bind; [destruct (fst resp'); emits_auto | intros _].
    destruct (_ || _); [apply emits_ret | apply IH].
Qed.

Lemma emits_tick (fuel : nat) (len0 : Z) :
  emits entry_event (tick fuel len0 : Srv N C unit).
Proof.
  pose proof emits_tick_send.
  pose proof (emits_entry_of_receive _ (emits_tick_receive fuel (None, len0))).
  unfold tick. emits_auto.
Qed.

Lemma receive_event_not (e : event) :
  receive_event e = true ->
  is_lock e = false /\ is_unlock e = false
  /\ e <> EvNativesClear /\ e <> EvCallbacksClear /\ e <> EvSignalError
  /\ (forall (cmd : Z) (payload : bytes),
         e = EvSend cmd payload -> cmd <> CMD_TICK /\ cmd <> CMD_REPLY).
Proof.
  intros H.
  destruct e; try discriminate H;
    (split; [reflexivity|]); (split; [reflexivity|]);
    (split; [discriminate|]); (split; [discriminate|]);
    (split; [discriminate|]);
    intros cmd' payload' E; try discriminate E.
  injection E as -> ->. split; intros ->; discriminate H.
Qed.

(** X6: while it receives commands, whatever they are, the bridge does not
    take or release the lock, does not clear the native cache or the
    callback registry, does not signal an error to the indicator and sends
    neither a tick nor a reply command. *)
Theorem receiving_never_locks_or_clears (fuel : nat) s :
  (forall (resp : reply) (a : cmd_status * reply) s' (e : event),
      cmd_receive_one (cmd_receive_unhandled fuel) resp s = Ok a s' ->
      In e (skipn (length (trace s)) (trace s')) ->
      is_lock e = false /\ is_unlock e = false
      /\ e <> EvNativesClear /\ e <> EvCallbacksClear /\ e <> EvSignalError
      /\ (forall (cmd : Z) (payload : bytes),
             e = EvSend cmd payload -> cmd <> CMD_TICK /\ cmd <> CMD_REPLY))
  /\ (forall (a : bool * reply) s' (e : event),
         cmd_receive_unhandled fuel s = Ok a s' ->
         In e (skipn (length (trace s)) (trace s')) ->
         is_lock e = false /\ is_unlock e = false
         /\ e <> EvNativesClear /\ e <> EvCallbacksClear
         /\ e <> EvSignalError
         /\ (forall (cmd : Z) (payload : bytes),
                e = EvSend cmd payload ->
                cmd <> CMD_TICK /\ cmd <> CMD_REPLY)).
Proof.
  split.
  - intros resp a s' e Hrun Hin.
    destruct (emits_cmd_receive_one _ resp
                (emits_cmd_receive_unhandled fuel) _ _ _ Hrun)
      as (evs & Htr & Hall).
    rewrite Htr, skipn_trace_app in Hin.
    apply receive_event_not. rewrite forallb_forall in Hall. auto.
  - intros a s' e Hrun Hin.
    destruct (emits_cmd_receive_unhandled fuel _ _ _ Hrun)
      as (evs & Htr & Hall).
    rewrite Htr, skipn_trace_app in Hin.
    apply receive_event_not. rewrite forallb_forall in Hall. auto.
Qed.

Lemma entry_event_opcode (cmd : Z) (payload : bytes) :
  entry_event (EvSend cmd payload) = true ->
  In cmd [CMD_TICK; CMD_PONG; CMD_PUBLIC_CALL; CMD_RESPONSE; CMD_ANNOUNCE].
Proof.
  unfold entry_event. cbn [receive_event is_lock is_unlock existsb].
  rewrite !orb_false_r. intros H.
  repeat (apply orb_true_iff in H; destruct H as [H|H]);
    apply Z.eqb_eq in H; subst; cbn; auto 6.
Qed.

(** X7: every command that [public_call] or [tick] sends, directly or in a
    handler run while it waits, carries one of the opcodes tick, pong,
    public_call, response and announce; the reply opcode 0x14 is never
    sent. *)
Theorem sent_opcodes (fuel : nat) s (cmd : Z) (payload : bytes) :
  (forall (amx : option Z) (name : String.string) (params : list Z)
          (retval r : option Z) s',
      public_call fuel amx name params retval s = Ok r s' ->
      In (EvSend cmd payload) (skipn (length (trace s)) (trace s')) ->
      In cmd [CMD_TICK; CMD_PONG; CMD_PUBLIC_CALL; CMD_RESPONSE; CMD_ANNOUNCE]
      /\ cmd <> CMD_REPLY)
  /\ (forall (len0 : Z) s',
         tick fuel len0 s = Ok tt s' ->
         In (EvSend cmd payload) (skipn (length (trace s)) (trace s')) ->
         In cmd [CMD_TICK; CMD_PONG; CMD_PUBLIC_CALL; CMD_RESPONSE;
                 CMD_ANNOUNCE]
         /\ cmd <> CMD_REPLY).
Proof.
  assert (In cmd [CMD_TICK; CMD_PONG; CMD_PUBLIC_CALL; CMD_RESPONSE;
                  CMD_ANNOUNCE] -> cmd <> CMD_REPLY) as Hnot.
  { cbn. intros [H|[H|[H|[H|[H|[]]]]]]; subst; discriminate. }
  split.
  - intros amx name params retval r s' Hrun Hin.
    destruct (emits_public_call fuel amx name params retval _ _ _ Hrun)
      as (evs & Htr & Hall).
    rewrite Htr, skipn_trace_app in Hin. rewrite forallb_forall in Hall.
    pose proof (entry_event_opcode _ _ (Hall _ Hin)). auto.
  - intros len0 s' Hrun Hin.
    destruct (emits_tick fuel len0 _ _ _ Hrun) as (evs & Htr & Hall).
    rewrite Htr, skipn_trace_app in Hin. rewrite forallb_forall in Hall.
    pose proof (entry_event_opcode _ _ (Hall _ Hin)). auto.
Qed.

(** ** The lock *)

Lemma receive_event_no_lock (e : event) :
  receive_event e = true -> negb (is_lock e || is_unlock e) = true.
Proof. intros H. destruct e; try discriminate H; reflexivity. Qed.

Lemma emits_no_lock_of_receive {A : Type} (m : Srv N C A) :
  emits receive_event m ->
  emits (fun e => negb (is_lock e || is_unlock e)) m.
Proof. apply emits_weaken, receive_event_no_lock. Qed.

Lemma lock_free_app (l1 l2 : list event) :
  lock_free l1 -> lock_free l2 -> lock_free (l1 ++ l2).
Proof.
  unfold lock_free. intros H1 H2. rewrite forallb_app, H1, H2. reflexivity.
Qed.

Lemma emit_ok (e : event) s (a : unit) s' :
  emit e s = Ok a s' -> s' = set_trace (trace s ++ [e]) s.
Proof. intros H. injection H as _ <-. reflexivity. Qed.

Lemma tick_locks_once (fuel : nat) (len0 : Z) s s' :
  tick fuel len0 s = Ok tt s' ->
  exists mid,
    trace s' = trace s ++ EvLock :: mid ++ [EvUnlock] /\ lock_free mid.
Proof.
  intros H. unfold tick in H.
  apply bind_ok in H. destruct H as (u1 & s1 & Hsend & H).
  apply bind_ok in H. destruct H as (u2 & s2 & Hrecv & H).
  apply emit_ok in H. subst s'.
  unfold tick_send in Hsend.
  apply bind_ok in Hsend. destruct Hsend as (u0 & s0 & Hlock & Hsend).
  apply emit_ok in Hlock. subst s0.
  assert (emits (fun e => negb (is_lock e || is_unlock e))
            (s <- get ;;
             (if tick_allowed s
              then
                emit (EvSetOn false) ;;
                dbg <- is_debugging true ;;
                (if negb dbg
                 then modify (fun s0 => set_tick (clock s0) s0) ;;
                      send CMD_TICK 0 []
                 else ret tt)
              else ret tt) : Srv N C unit)) as Hbody.
  { pose proof (emits_no_lock_of_receive _ (emits_is_debugging true)).
    emits_auto. }
  destruct (Hbody _ _ _ Hsend) as (e1 & Ht1 & Hf1).
  destruct (emits_no_lock_of_receive _ (emits_tick_receive fuel (None, len0))
              _ _ _ Hrecv) as (e2 & Ht2 & Hf2).
  exists (e1 ++ e2). split; [|apply lock_free_app; assumption].
  cbn [trace set_trace] in *. rewrite Ht2, Ht1.
  repeat rewrite <- app_assoc. reflexivity.
Qed.

Lemma public_call_receive_unlocks (fuel : nat) (name : String.string)
    (retval r : option Z) s s' :
  public_call_receive fuel name retval s = Ok r s' ->
  exists mid post,
    trace s' = trace s ++ mid ++ EvUnlock :: post
    /\ lock_free mid /\ lock_free post.
Proof.
  intros H. unfold public_call_receive in H.
  apply bind_ok in H. destruct H as ([ok [response len]] & s1 & Hrecv & H).
  destruct (emits_no_lock_of_receive _ (emits_cmd_receive_unhandled fuel)
              _ _ _ Hrecv) as (e1 & Ht1 & Hf1).
  assert (forall s2 r2 s3,
             (log_error "Received no response to callback %s."
                [ArgText name] ;; emit EvUnlock ;; ret retval) s2
             = Ok r2 s3 ->
             trace s3
             = trace s2
               ++ [EvLog Lerror "Received no response to callback %s."
                     [ArgText name]] ++ EvUnlock :: []) as Hno.
  { intros s2 r2 s3 E. injection E as _ <-. cbn.
    rewrite <- app_assoc. reflexivity. }
  assert (exists pre post,
             trace s' = trace s1 ++ pre ++ EvUnlock :: post
             /\ lock_free pre /\ lock_free post) as (pre & post & Ht & Hp).
  { destruct ok; [destruct response as [p|]|];
      try (exists [EvLog Lerror "Received no response to callback %s."
                     [ArgText name]], [];
           split; [apply (Hno _ _ _ H) | split; reflexivity]).
    destruct (len =? 0);
      [exists [EvLog Lerror "Received no response to callback %s."
                 [ArgText name]], [];
       split; [apply (Hno _ _ _ H) | split; reflexivity]|].
    apply bind_ok in H. destruct H as (u & s2 & Hun & H).
    apply emit_ok in Hun. subst s2.
    assert (emits (fun e => negb (is_lock e || is_unlock e))
              (r <- (if 5 <=? len then
                       b <- read_byte p 0 ;;
                       if negb (b =? 0) then
                         match retval with
                         | Some _ =>
                             v <- read_u32 p 1 ;;
                             ret (Some (int32 v))
                         | None => ret retval
                         end
                       else ret retval
                     else ret retval) ;;
               delete_array p ;; ret r : Srv N C (option Z))) as Hrest
        by emits_auto.
    destruct (Hrest _ _ _ H) as (e2 & Ht2 & Hf2).
    exists [], e2. split; [|split; [reflexivity | exact Hf2]].
    rewrite Ht2. cbn [trace set_trace]. rewrite <- app_assoc. reflexivity. }
  exists (e1 ++ pre), post.
  split; [|split; [apply lock_free_app; [exact Hf1 | apply Hp] | apply Hp]].
  rewrite Ht, Ht1. repeat rewrite <- app_assoc. reflexivity.
Qed.

Lemma public_call_forward_locks (fuel : nat) (amx : option Z)
    (name : String.string) (params : list Z) (retval r : option Z) s s' :
  public_call_forward fuel amx name params retval s = Ok r s' ->
  exists evs,
    trace s' = trace s ++ evs /\ (lock_free evs \/ locked_once evs).
Proof.
  intros H. unfold public_call_forward in H.
  apply bind_ok in H. destruct H as (dbg & s1 & Hdbg & H).
  destruct (emits_no_lock_of_receive _ (emits_is_debugging false)
              _ _ _ Hdbg) as (e1 & Ht1 & Hf1).
  destruct dbg.
  { injection H as _ <-. exists e1. auto. }
  apply bind_ok in H. destruct H as (filled & s2 & Hfill & H).
  assert (emits (fun e => negb (is_lock e || is_unlock e))
            (call_fill_call_buffer amx name params (uint32 LEN_NETBUF)
             : Srv N C (option Z))) as Hfe by emits_auto.
  destruct (Hfe _ _ _ Hfill) as (e2 & Ht2 & Hf2).
  destruct filled as [len|].
  2:{ injection H as _ <-. exists (e1 ++ e2).
      rewrite Ht2, Ht1, app_assoc.
      split; [reflexivity | left; apply lock_free_app; assumption]. }
  apply bind_ok in H. destruct H as (u & s3 & Hlock & H).
  apply emit_ok in Hlock. subst s3.
  apply bind_ok in H. destruct H as (s4 & s4' & Hget & H).
  injection Hget as <- <-.
  apply bind_ok in H. destruct H as (u' & s5 & Hsent & H).
  apply emit_ok in Hsent. subst s5.
  destruct (public_call_receive_unlocks _ _ _ _ _ _ H)
    as (mid & post & Ht & Hmid & Hpost).
  exists ((e1 ++ e2) ++ EvLock
          :: (EvSend CMD_PUBLIC_CALL
                (firstn (Z.to_nat len)
                   (buf_ (set_trace (trace s2 ++ [EvLock]) s2))) :: mid)
          ++ EvUnlock :: post).
  split.
  - rewrite Ht. cbn [trace set_trace]. rewrite Ht2, Ht1.
    repeat rewrite <- app_assoc. reflexivity.
  - right. exists (e1 ++ e2), (EvSend CMD_PUBLIC_CALL
                (firstn (Z.to_nat len)
                   (buf_ (set_trace (trace s2 ++ [EvLock]) s2))) :: mid),
      post.
    split; [reflexivity|].
    split; [apply lock_free_app; assumption|].
    split; [exact Hmid | exact Hpost].
Qed.

(** X8: whenever [tick] returns it has taken the lock first and released
    it last, and not touched it in between; whenever [public_call] returns
    it has either not touched the lock, or taken it once and released it
    once, in this order: no returning path leaves the lock held. *)
Theorem lock_released_on_return (fuel : nat) s :
  (forall (len0 : Z) s',
      tick fuel len0 s = Ok tt s' ->
      exists mid,
        trace s' = trace s ++ EvLock :: mid ++ [EvUnlock] /\ lock_free mid)
  /\ (forall (amx : option Z) (name : String.string) (params : list Z)
             (retval r : option Z) s',
         public_call fuel amx name params retval s = Ok r s' ->
         exists evs,
           trace s' = trace s ++ evs /\ (lock_free evs \/ locked_once evs)).
Proof.
  split; [intros len0 s'; apply tick_locks_once|].
  intros amx name params retval r s' H.
  destruct (forwarding_allowed name s) eqn:Hgate.
  - destruct (public_call_allowed fuel amx name params retval s Hgate)
      as (s1 & Hrun & Htr & _).
    rewrite Hrun in H.
    destruct (public_call_forward_locks _ _ _ _ _ _ _ _ H)
      as (evs & Ht & Hshape).
    exists (EvSetOn false :: evs). rewrite Ht, Htr, <- app_assoc.
    split; [reflexivity|].
    destruct Hshape as [Hfree|(pre & mid & post & -> & Hpre & Hmid & Hpost)].
    + left. exact Hfree.
    + right. exists (EvSetOn false :: pre), mid, post. auto.
  - destruct (public_call_not_allowed fuel amx name params retval s Hgate)
      as (s'' & Hrun & _ & [Htr|Htr]);
      rewrite Hrun in H; injection H as _ <-.
    + exists []. rewrite Htr, app_nil_r. split; [reflexivity | left].
      reflexivity.
    + exists [EvSetOn false]. split; [exact Htr | left; reflexivity].
Qed.

(** ** Fields an operation leaves alone *)

Lemma unchanged_ret {A X : Type} (f : remote_server N C -> X) (a : A) :
  unchanged f (ret a : Srv N C A).
Proof. intros s a' s' H. injection H as _ <-. reflexivity. Qed.

Lemma unchanged_bind {A B X : Type} (f : remote_server N C -> X)
    (m : Srv N C A) (k : A -> Srv N C B) :
  unchanged f m -> (forall a, unchanged f (k a)) -> unchanged f (bind m k).
Proof.
  intros Hm Hk s b s'' H.
  apply bind_ok in H. destruct H as (a & s' & H1 & H2).
  rewrite (Hk a _ _ _ H2). apply (Hm _ _ _ H1).
Qed.

Lemma unchanged_get_bind {B X : Type} (f : remote_server N C -> X)
    (k : remote_server N C -> Srv N C B) :
  (forall s0, unchanged f (k s0)) -> unchanged f (bind get k).
Proof. intros Hk s b s'' H. apply (Hk s _ _ _ H). Qed.

Lemma unchanged_modify {X : Type} (f : remote_server N C -> X)
    (g : remote_server N C -> remote_server N C) :
  (forall s, f (g s) = f s) -> unchanged f (modify g).
Proof. intros Hg s a s' H. injection H as _ <-. apply Hg. Qed.

Lemma unchanged_raise {A X : Type} (f : remote_server N C -> X)
    (e : fault) :
  unchanged f (raise e : Srv N C A).
Proof. intros s a s' H. discriminate. Qed.

Ltac unchanged_step :=
  match goal with
  | H : unchanged ?f ?m |- unchanged ?f ?m => exact H
  | |- unchanged _ (bind get _) => apply unchanged_get_bind; intros ?
  | |- unchanged _ (bind _ _) => apply unchanged_bind; [|intros ?]
  | |- unchanged _ (ret _) => apply unchanged_ret
  | |- unchanged _ (raise _) => apply unchanged_raise
  | |- unchanged _ (modify _) => apply unchanged_modify; reflexivity
  | |- unchanged _ (emit _) => apply unchanged_modify; reflexivity
  | |- unchanged _ (if ?b then _ else _) => destruct b
  | |- unchanged _ (match ?x with _ => _ end) => destruct x
  end.

Ltac unfold_calls_light :=
  unfold log_print, log_debug, log_info, log_error, send,
    call_setup, call_connect, call_disconnect, call_receive,
    call_get_handle, call_invoke, call_natives_clear, call_callbacks_clear,
    call_register_buffer, call_fill_call_buffer,
    STATUS_SET, STATUS_UNSET, store_time.

Ltac unchanged_auto := unfold_calls_light; cbv zeta; repeat unchanged_step.

(** *** The heap *)

Lemma heap_unchanged_connect : unchanged heap_live (connect : Srv N C bool).
Proof. unfold connect, cmd_send_announce. unchanged_auto. Qed.

Lemma heap_unchanged_disconnect (context : option String.string)
    (expected : bool) :
  unchanged heap_live (disconnect context expected : Srv N C unit).
Proof. unfold disconnect. unchanged_auto. Qed.

Lemma heap_unchanged_is_debugging (is_tick : bool) :
  unchanged heap_live (is_debugging is_tick : Srv N C bool).
Proof. unfold is_debugging. unchanged_auto. Qed.

Lemma heap_unchanged_fill (amx : option Z) (name : String.string)
    (params : list Z) (cap : Z) :
  unchanged heap_live
    (call_fill_call_buffer amx name params cap : Srv N C (option Z)).
Proof. unchanged_auto. Qed.

Lemma remove_block_head (p : ptr) (d : bytes) (l : list (ptr * bytes)) :
  remove_block p ((p, d) :: l) = l.
Proof. cbn [remove_block]. rewrite Nat.eqb_refl. reflexivity. Qed.

Lemma block_of_head (p : ptr) (d : bytes) (l : list (ptr * bytes)) :
  block_of p ((p, d) :: l) = Some d.
Proof. cbn [block_of]. rewrite Nat.eqb_refl. reflexivity. Qed.

(** the start handler releases the reply it waited for *)
Lemma heap_unchanged_cmd_start (fuel : nat) (buflen : Z) :
  (forall s (b : bool) (resp : reply) s',
      cmd_receive_unhandled fuel s = Ok (b, resp) s' ->
      heap_after resp (heap_live s) (heap_live s')) ->
  unchanged heap_live (cmd_start (cmd_receive_unhandled fuel) buflen
                       : Srv N C unit).
Proof.
  intros IH s a s' H. unfold cmd_start in H.
  apply bind_ok in H. destruct H as (u1 & s1 & E1 & H).
  apply bind_ok in H. destruct H as (u2 & s2 & E2 & H).
  apply bind_ok in H. destruct H as (s0 & s2' & E0 & H).
  unfold log_info, emit, STATUS_SET, modify in E1, E2. unfold get in E0.
  injection E1 as _ <-. injection E2 as _ <-. injection E0 as <- <-.
  set (s2 := set_status _ _) in *.
  assert (heap_live s2 = heap_live s) as H2 by reflexivity.
  rewrite <- H2. clearbody s2. clear H2.
  assert (forall (m : Srv N C unit), unchanged heap_live m ->
             m s2 = Ok a s' -> heap_live s' = heap_live s2) as Huse
      by (intros m Hm E; apply (Hm _ _ _ E)).
  destruct (_ =? 0); [refine (Huse _ _ H); unchanged_auto|].
  destruct (_ =? 1); [refine (Huse _ _ H); unchanged_auto|].
  destruct (_ =? 2); [|refine (Huse _ _ H); unchanged_auto].
  clear Huse.
  apply bind_ok in H. destruct H as (u3 & s3 & E3 & H).
  apply emit_ok in E3.
  destruct (STATUS_ISSET status_server_received_init s2);
    [|injection H as _ <-; subst s3; reflexivity].
  apply bind_ok in H. destruct H as (u4 & s4 & E4 & H).
  unfold STATUS_SET, modify in E4. injection E4 as _ <-.
  apply bind_ok in H. destruct H as (filled & s5 & E5 & H).
  pose proof (heap_unchanged_fill _ _ _ _ _ _ _ E5) as H5.
  cbn [heap_live set_status] in H5. subst s3. cbn [heap_live set_trace] in H5.
  destruct filled as [len|]; [|injection H as _ <-; exact H5].
  apply bind_ok in H. destruct H as (s6 & s6' & E6 & H).
  injection E6 as <- <-.
  apply bind_ok in H. destruct H as (u7 & s7 & E7 & H).
  apply emit_ok in E7.
  apply bind_ok in H. destruct H as ([ok [response rlen]] & s8 & E8 & H).
  pose proof (IH _ _ _ _ E8) as Hheap.
  destruct (cmd_receive_unhandled_reply _ _ _ _ _ E8) as [Hlive Hok].
  subst s7. cbn [heap_live set_trace] in Hheap. rewrite H5 in Hheap.
  unfold heap_after in Hheap. unfold reply_live in Hlive.
  cbn [fst snd] in *.
  destruct response as [p|].
  - rewrite (Hok ltac:(discriminate)) in H.
    destruct Hlive as [Hpos _].
    assert ((rlen =? 0) = false) as Hz by (apply Z.eqb_neq; lia).
    rewrite Hz in H. destruct Hheap as (d & Hd).
    assert (block_of p (heap_live s8) = Some d) as Hb
        by (rewrite Hd; apply block_of_head).
    rewrite (delete_array_live p s8 d Hb) in H. injection H as _ <-.
    cbn [heap_live set_trace set_heap]. rewrite Hd.
    apply remove_block_head.
  - assert (heap_live s' = heap_live s8) as ->.
    { destruct ok; apply emit_ok in H; subst s'; reflexivity. }
    exact Hheap.
Qed.

Lemma heap_after_none (resp : reply) (l : list (ptr * bytes)) :
  fst resp = None -> heap_after resp l l.
Proof. unfold heap_after. intros ->. reflexivity. Qed.

Lemma heap_cmd_process (fuel : nat) (cmd buflen : Z) (resp : reply) s
    (a : cmd_status * reply) s' :
  (forall s (b : bool) (resp : reply) s',
      cmd_receive_unhandled fuel s = Ok (b, resp) s' ->
      heap_after resp (heap_live s) (heap_live s')) ->
  fst resp = None ->
  cmd_process (cmd_receive_unhandled fuel) cmd buflen resp s = Ok a s' ->
  heap_after (snd a) (heap_live s) (heap_live s').
Proof.
  intros IH Hnone H.
  assert (forall (h : Srv N C unit), unchanged heap_live h ->
            (h ;; ret (handled, resp)) s = Ok a s' ->
            heap_after (snd a) (heap_live s) (heap_live s')) as Hh.
  { intros h Hu E. apply bind_ok in E. destruct E as (u & s1 & E1 & E).
    injection E as <- <-. rewrite (Hu _ _ _ E1).
    apply heap_after_none, Hnone. }
  unfold cmd_process in H.
  repeat match type of H with
         | (if ?c then _ else _) _ = _ =>
             destruct c;
             [refine (Hh _ _ H);
              first [ apply heap_unchanged_cmd_start; exact IH
                    | unfold cmd_ping, cmd_print, cmd_register_call,
                        cmd_find_native, cmd_invoke_native, cmd_reconnect,
                        cmd_disconnect, cmd_alive, disconnect;
                      unchanged_auto ]|]
         end.
  destruct (0 <? buflen).
  - unfold new_array, emit in H. unfold_monad. injection H as <- <-.
    cbn. eexists. reflexivity.
  - injection H as <- <-. apply heap_after_none, Hnone.
Qed.

Lemma heap_cmd_receive_one (fuel : nat) s (stat : cmd_status) (resp : reply)
    s' :
  (forall s (b : bool) (resp : reply) s',
      cmd_receive_unhandled fuel s = Ok (b, resp) s' ->
      heap_after resp (heap_live s) (heap_live s')) ->
  cmd_receive_one (cmd_receive_unhandled fuel) (None, 0) s
  = Ok (stat, resp) s' ->
  heap_after resp (heap_live s) (heap_live s').
Proof.
  intros IH H. unfold cmd_receive_one in H.
  apply bind_ok in H. destruct H as (ok & s1 & E1 & H).
  rewrite <- (heap_unchanged_connect _ _ _ E1).
  destruct ok; cbn [negb] in H; [|injection H as _ <- <-; reflexivity].
  apply bind_ok in H. destruct H as (r & s2 & E2 & H).
  assert (heap_live s2 = heap_live s1) as <-.
  { revert E2. generalize s1 r s2. change (unchanged heap_live
      (call_receive : Srv N C received)). unchanged_auto. }
  destruct r as [| |command payload];
    try (injection H as _ <- <-; reflexivity).
  apply bind_ok in H. destruct H as (s0 & s3 & E0 & H).
  injection E0 as <- <-.
  apply bind_ok in H. destruct H as (u1 & s4 & E4 & H).
  unfold modify in E4. injection E4 as _ <-.
  apply bind_ok in H. destruct H as (u2 & s5 & E5 & H).
  unfold store_time, modify in E5. injection E5 as _ <-.
  apply (heap_cmd_process _ _ _ (None, 0) _ _ _ IH eq_refl H).
Qed.

(** the receive loop allocates nothing but the block it hands back *)
Lemma heap_cmd_receive_unhandled (fuel : nat) :
  forall s (b : bool) (resp : reply) s',
    cmd_receive_unhandled fuel s = Ok (b, resp) s' ->
    heap_after resp (heap_live s) (heap_live s').
Proof.
  induction fuel as [|fuel IH]; intros s b resp s' H; [discriminate|].
  cbn [cmd_receive_unhandled] in H.
  apply bind_ok in H. destruct H as ([stat resp1] & s1 & E1 & H).
  pose proof (heap_cmd_receive_one _ _ _ _ _ IH E1) as H1.
  destruct (discarded stat) eqn:Hd.
  - destruct (cmd_receive_one_reply _ _ _ _ _ E1) as [_ Hstat].
    assert (fst resp1 = None) as Hnone.
    { destruct (fst resp1); [|reflexivity].
      rewrite (Hstat ltac:(discriminate)) in Hd. discriminate. }
    unfold heap_after in H1. rewrite Hnone in H1.
    rewrite <- H1. apply (IH _ _ _ _ H).
  - injection H as _ <- <-. exact H1.
Qed.

Lemma heap_unchanged_public_call_receive (fuel : nat) (name : String.string)
    (retval : option Z) :
  unchanged heap_live (public_call_receive fuel name retval).
Proof.
  intros s r s' H. unfold public_call_receive in H.
  apply bind_ok in H. destruct H as ([ok [response len]] & s1 & E1 & H).
  pose proof (heap_cmd_receive_unhandled _ _ _ _ _ E1) as Hheap.
  destruct (cmd_receive_unhandled_reply _ _ _ _ _ E1) as [Hlive Hok].
  unfold heap_after in Hheap. unfold reply_live in Hlive.
  cbn [fst snd] in *.
  assert (forall (m : Srv N C (option Z)), unchanged heap_live m ->
            m s1 = Ok r s' -> heap_live s' = heap_live s1) as Huse
      by (intros m Hm E; apply (Hm _ _ _ E)).
  destruct response as [p|].
  - rewrite (Hok ltac:(discriminate)) in H.
    destruct Hlive as [Hpos (d & Hblock & Hlen)].
    assert ((len =? 0) = false) as Hz by (apply Z.eqb_neq; lia).
    rewrite Hz in H.
    apply bind_ok in H. destruct H as (u2 & s2 & E2 & H).
    apply emit_ok in E2.
    apply bind_ok in H. destruct H as (r3 & s3 & E3 & H).
    assert (s3 = s2) as ->.
    { revert E3. generalize s2 r3 s3.
      match goal with
      | |- forall s a s', ?m s = Ok a s' -> s' = s =>
          change (unchanged (fun s : remote_server N C => s) m)
      end.
      unfold read_u32, read_byte. unchanged_auto. }
    apply bind_ok in H. destruct H as (u4 & s4 & E4 & H).
    injection H as _ <-.
    destruct Hheap as (d' & Hd').
    assert (block_of p (heap_live s2) = Some d') as Hb
        by (subst s2; cbn [heap_live set_trace]; rewrite Hd';
            apply block_of_head).
    rewrite (delete_array_live p s2 d' Hb) in E4. injection E4 as _ <-.
    subst s2. cbn [heap_live set_trace set_heap]. rewrite Hd'.
    apply remove_block_head.
  - rewrite <- Hheap.
    destruct ok; refine (Huse _ _ H); unchanged_auto.
Qed.

(** X9: the receive loop allocates nothing but the block it hands back, and
    [public_call] -- like the start handler nested in either -- releases
    the block it was handed: when [public_call] returns, the live blocks
    are those it started with. *)
Theorem public_call_releases_reply (fuel : nat) :
  (forall s (b : bool) (resp : reply) s',
     cmd_receive_unhandled fuel s = Ok (b, resp) s' ->
     heap_after resp (heap_live s) (heap_live s'))
  /\ (forall amx name params (retval r : option Z) s s',
        public_call fuel amx name params retval s = Ok r s' ->
        heap_live s' = heap_live s).
Proof.
  split; [apply heap_cmd_receive_unhandled|].
  intros amx name params retval r s s' H. revert s r s' H.
  change (unchanged heap_live (public_call fuel amx name params retval)).
  pose proof (heap_unchanged_public_call_receive fuel name retval).
  pose proof (heap_unchanged_is_debugging false).
  unfold public_call, public_call_forward. unchanged_auto.
Qed.

(** ** The reply slot of [tick] *)

Lemma delete_array_dead (p : ptr) s :
  block_of p (heap_live s) = None -> delete_array p s = Fault (BadDelete p).
Proof.
  intros Hblock. unfold delete_array. unfold_monad. rewrite Hblock.
  reflexivity.
Qed.

Lemma tick_send_frame s :
  exists s1, tick_send s = Ok tt s1
    /\ communication_ s1 = communication_ s
    /\ heap_live s1 = heap_live s /\ heap_next s1 = heap_next s.
Proof.
  unfold tick_send, is_debugging. unfold_calls. unfold_monad.
  repeat match goal with
         | |- context [if ?c then _ else _] => destruct c
         end;
    eexists; (split; [reflexivity|]); repeat split.
Qed.

Lemma cmd_receive_one_keeps_reply (rec : Srv N C (bool * reply))
    (resp : reply) s :
  comm_connected (communication_ s) = true ->
  keeps_reply (comm_incoming (communication_ s)) = true ->
  exists stat s', cmd_receive_one rec resp s = Ok (stat, resp) s'
                  /\ heap_live s' = heap_live s.
Proof.
  intros Hc Hk.
  destruct (comm_incoming (communication_ s)) as [|[| |cmd payload] rest]
    eqn:Hin.
  - rewrite (cmd_receive_one_nothing s rec resp Hc Hin). eauto.
  - unfold cmd_receive_one.
    unfold bind at 1. rewrite (connect_connected s Hc). cbn [negb].
    unfold_calls. unfold_monad. cbn. rewrite Hin. eauto.
  - unfold cmd_receive_one.
    unfold bind at 1. rewrite (connect_connected s Hc). cbn [negb].
    unfold_calls. unfold_monad. cbn. rewrite Hin. eauto.
  - cbn [keeps_reply] in Hk. apply andb_true_iff in Hk.
    destruct Hk as [Hm Hlen]. apply negb_true_iff in Hm.
    rewrite (cmd_receive_one_command s rec resp cmd payload rest Hc Hin).
    rewrite (cmd_process_unmapped _ _ _ _ _ Hm).
    assert ((0 <? zlength payload) = false) as ->
        by (apply Z.ltb_ge, Z.leb_le, Hlen).
    eauto.
Qed.

(** a turn of the loop of [tick] entered with a released block in the
    reply slot releases it again *)
Lemma tick_receive_stale (fuel : nat) (p : ptr) (len : Z) s :
  comm_connected (communication_ s) = true ->
  keeps_reply (comm_incoming (communication_ s)) = true ->
  block_of p (heap_live s) = None ->
  tick_receive (S fuel) (Some p, len) s = Fault (BadDelete p).
Proof.
  intros Hc Hk Hdead. cbn [tick_receive].
  destruct (cmd_receive_one_keeps_reply (cmd_receive_unhandled fuel)
              (Some p, len) s Hc Hk) as (stat & s' & E & Hheap).
  rewrite (bind_eq _ _ _ _ _ E). cbn [fst].
  unfold log_error, emit. unfold_monad.
  rewrite delete_array_dead; [reflexivity|].
  cbn [heap_live set_trace]. rewrite Hheap. exact Hdead.
Qed.

(** X10: [tick] does not reset its reply slot after releasing the block in
    it.  When the connected client sends a command no handler is mapped
    to, with a payload, and the next receive call leaves the slot alone
    (nothing more has arrived, the connection is gone, or an unmapped
    command without payload follows), the next turn of the loop releases
    the same block a second time: [tick] ends in a fault on the block it
    allocated for that payload. *)
Theorem tick_releases_stray_reply_twice (fuel : nat) (len0 cmd : Z)
    (payload : bytes) (rest : list received) s :
  comm_connected (communication_ s) = true ->
  comm_incoming (communication_ s) = RecvCmd cmd payload :: rest ->
  is_mapped cmd = false ->
  0 < zlength payload ->
  keeps_reply rest = true ->
  block_of (heap_next s) (heap_live s) = None ->
  tick (S (S fuel)) len0 s = Fault (BadDelete (heap_next s)).
Proof.
  intros Hc Hin Hm Hlen Hk Hfresh. unfold tick.
  destruct (tick_send_frame s) as (s1 & E1 & Hcomm & Hlive & Hnext).
  rewrite (bind_eq _ _ _ _ _ E1).
  rewrite <- Hcomm in Hc, Hin. rewrite <- Hlive, <- Hnext in Hfresh.
  rewrite <- Hnext. clear E1 Hcomm Hlive Hnext.
  set (p := heap_next s1) in *.
  set (d := firstn (Z.to_nat (zlength payload))
              (buf_ (delivered payload s1))).
  assert (tick_receive (S (S fuel)) (None, len0) s1 = Fault (BadDelete p))
    as E; [|unfold bind; rewrite E; reflexivity].
  assert (exists s2,
             cmd_receive_one (cmd_receive_unhandled (S fuel)) (None, len0) s1
             = Ok (unhandled, (Some p, zlength payload)) s2
             /\ communication_ s2 = communication_ (delivered payload s1)
             /\ heap_live s2 = (p, d) :: heap_live s1)
    as (s2 & E2 & Hcomm2 & Hlive2).
  { rewrite (cmd_receive_one_command _ _ _ _ _ _ Hc Hin).
    rewrite (cmd_process_unmapped _ _ _ _ _ Hm).
    assert ((0 <? zlength payload) = true) as -> by (apply Z.ltb_lt, Hlen).
    eexists. split; [reflexivity|]. split; reflexivity. }
  assert (exists s3,
             (log_error "Unhandled response in tick." [] ;; delete_array p) s2
             = Ok tt s3
             /\ communication_ s3 = communication_ s2
             /\ heap_live s3 = heap_live s1)
    as (s3 & E3 & Hcomm3 & Hlive3).
  { unfold log_error. rewrite bind_emit.
    rewrite (delete_array_live p _ d);
      [|cbn [heap_live set_trace]; rewrite Hlive2; apply block_of_head].
    eexists. split; [reflexivity|]. split; [reflexivity|].
    cbn [heap_live set_trace set_heap]. rewrite Hlive2.
    apply remove_block_head. }
  cbn [tick_receive].
  rewrite (bind_eq _ _ _ _ _ E2). cbn [fst].
  rewrite (bind_eq _ _ _ _ _ E3). cbn [cmd_status_eqb orb].
  apply tick_receive_stale.
  - rewrite Hcomm3, Hcomm2. cbn. exact Hc.
  - rewrite Hcomm3, Hcomm2. cbn. rewrite Hin. exact Hk.
  - rewrite Hlive3. exact Hfresh.
Qed.

(** ** The flag [status_client_received_init] is never cleared *)

Lemma keeps_raise {A : Type} (I : remote_server N C -> Prop) (e : fault) :
  keeps I (raise e : Srv N C A).
Proof. intros s a s' _ H. discriminate. Qed.

Lemma keeps_out_of_fuel {A : Type} (I : remote_server N C -> Prop) :
  keeps I (out_of_fuel : Srv N C A).
Proof. intros s a s' _ H. discriminate. Qed.

Lemma keeps_modify (I : remote_server N C -> Prop)
    (g : remote_server N C -> remote_server N C) :
  (forall s, I s -> I (g s)) -> keeps I (modify g).
Proof. intros Hg s a s' HI H. injection H as _ <-. apply Hg, HI. Qed.

Ltac initialised_leaf :=
  let s := fresh "s" in
  let Hs := fresh "Hs" in
  intros s Hs; unfold client_initialised in *;
  rewrite isset_received_init in *;
  cbn -[Z.testbit Z.lor Z.land Z.lnot];
  first [ exact Hs
        | rewrite Z.lor_spec, Hs; reflexivity
        | rewrite testbit_unset by lia; rewrite Hs; reflexivity ].

Ltac initialised_step :=
  match goal with
  | H : keeps ?I ?m |- keeps ?I ?m => exact H
  | H : forall x, keeps ?I (@?m x) |- keeps ?I _ => apply H
  | H : forall x y, keeps ?I (@?m x y) |- keeps ?I _ => apply H
  | |- keeps _ (bind get _) => apply keeps_get_bind; intros ?
  | |- keeps _ (bind _ _) => apply keeps_bind; [|intros ?]
  | |- keeps _ (ret _) => apply keeps_ret
  | |- keeps _ (raise _) => apply keeps_raise
  | |- keeps _ out_of_fuel => apply keeps_out_of_fuel
  | |- keeps _ (modify _) => apply keeps_modify; initialised_leaf
  | |- keeps _ (emit _) => apply keeps_modify; initialised_leaf
  | |- keeps _ (if ?b then _ else _) => destruct b
  | |- keeps _ (match ?x with _ => _ end) => destruct x
  end.

Ltac initialised_auto :=
  unfold_calls_goal; cbv zeta; repeat initialised_step.

Lemma initialised_connect :
  keeps client_initialised (connect : Srv N C bool).
Proof. unfold connect, cmd_send_announce. initialised_auto. Qed.

Lemma initialised_disconnect (context : option String.string)
    (expected : bool) :
  keeps client_initialised (disconnect context expected : Srv N C unit).
Proof. unfold disconnect. initialised_auto. Qed.

Lemma initialised_is_debugging (is_tick : bool) :
  keeps client_initialised (is_debugging is_tick : Srv N C bool).
Proof. unfold is_debugging. initialised_auto. Qed.

Lemma initialised_cmd_start (rec : Srv N C (bool * reply)) (buflen : Z) :
  keeps client_initialised rec ->
  keeps client_initialised (cmd_start rec buflen).
Proof. intros Hrec. unfold cmd_start. initialised_auto. Qed.

Lemma initialised_cmd_process (rec : Srv N C (bool * reply))
    (cmd buflen : Z) (resp : reply) :
  keeps client_initialised rec ->
  keeps client_initialised (cmd_process rec cmd buflen resp).
Proof.
  intros Hrec. pose proof (initialised_cmd_start rec buflen Hrec).
  pose proof (initialised_disconnect None true).
  unfold cmd_process, cmd_ping, cmd_print, cmd_register_call,
    cmd_find_native, cmd_invoke_native, cmd_reconnect, cmd_disconnect,
    cmd_alive.
  initialised_auto.
Qed.

Lemma initialised_cmd_receive_one (rec : Srv N C (bool * reply))
    (resp : reply) :
  keeps client_initialised rec ->
  keeps client_initialised (cmd_receive_one rec resp).
Proof.
  intros Hrec. pose proof initialised_connect.
  pose proof (fun cmd buflen =>
                initialised_cmd_process rec cmd buflen resp Hrec).
  unfold cmd_receive_one. initialised_auto.
Qed.

Lemma initialised_cmd_receive_unhandled (fuel : nat) :
  keeps client_initialised
    (cmd_receive_unhandled fuel : Srv N C (bool * reply)).
Proof.
  induction fuel as [|fuel IH]; cbn [cmd_receive_unhandled];
    [apply keeps_out_of_fuel|].
  pose proof (initialised_cmd_receive_one _ (None, 0) IH).
  initialised_auto.
Qed.

Lemma initialised_tick_receive (fuel : nat) (resp : reply) :
  keeps client_initialised (tick_receive fuel resp : Srv N C unit).
Proof.
  revert resp. induction fuel as [|fuel IH]; intros resp;
    cbn [tick_receive]; [apply keeps_out_of_fuel|].
  pose proof (initialised_cmd_receive_one _ resp
                (initialised_cmd_receive_unhandled fuel)).
  initialised_auto.
Qed.

(** X11: no operation of the server clears [status_client_received_init]:
    once the client has been given its OnGameModeInit, the flag stays set
    through connecting, every kind of disconnect -- [terminate] included
    --, every received command, [public_call] and [tick]. *)
Theorem client_received_init_never_cleared :
  keeps client_initialised (connect : Srv N C bool)
  /\ (forall context expected,
        keeps client_initialised
          (disconnect context expected : Srv N C unit))
  /\ (forall context,
        keeps client_initialised (terminate context : Srv N C unit))
  /\ (forall fuel,
        keeps client_initialised
          (cmd_receive_unhandled fuel : Srv N C (bool * reply)))
  /\ (forall fuel amx name params retval,
        keeps client_initialised
          (public_call fuel amx name params retval : Srv N C (option Z)))
  /\ (forall fuel len0,
        keeps client_initialised (tick fuel len0 : Srv N C unit)).
Proof.
  repeat split.
  - apply initialised_connect.
  - apply initialised_disconnect.
  - intros context. apply initialised_disconnect.
  - apply initialised_cmd_receive_unhandled.
  - intros fuel amx name params retval.
    pose proof (initialised_cmd_receive_unhandled fuel).
    pose proof (initialised_is_debugging false).
    unfold public_call, public_call_forward, public_call_receive.
    initialised_auto.
  - intros fuel len0.
    pose proof (initialised_tick_receive fuel (None, len0)).
    pose proof (initialised_is_debugging true).
    unfold tick, tick_send. initialised_auto.
Qed.

(** ** Reconnecting *)



(** ** Callbacks dropped after the status check *)

Lemma callbacks_unchanged_is_debugging (is_tick : bool) :
  unchanged callbacks_ (is_debugging is_tick : Srv N C bool).
Proof. unfold is_debugging. unchanged_auto. Qed.

Lemma is_debugging_call_quiet s :
  exists s',
    is_debugging false s
    = Ok (debug_check_ s && (DEBUG_PAUSE_TIMEOUT <=? tick_ s - sol_ s)) s'
    /\ status_ s' = status_ s /\ callbacks_ s' = callbacks_ s
    /\ exists evs, trace s' = trace s ++ evs
                   /\ filter is_send evs = [] /\ filter is_lock evs = [].
Proof.
  destruct (debug_check_ s) eqn:Hd.
  - destruct (is_debugging_call s Hd) as (s' & E & _ & _ & _ & _ & Htr).
    exists s'. split; [exact E|].
    split; [apply (status_same_is_debugging _ _ _ _ E)|].
    split; [apply (callbacks_unchanged_is_debugging _ _ _ _ E)|].
    eexists. split; [exact Htr|].
    destruct (DEBUG_PAUSE_TIMEOUT <=? tick_ s - sol_ s), (is_debug_ s);
      split; reflexivity.
  - rewrite (is_debugging_disabled s false Hd). exists s.
    repeat split. exists []. rewrite app_nil_r. repeat split.
Qed.

(** X13: a callback that passes the status check can still be dropped: when
    the client looks paused by a debugger, or when the call cannot be
    serialised, [public_call] returns the return slot as it was, having
    sent nothing and never taken the lock.  The flags were already updated
    by then: for OnGameModeInit the client is marked as having received
    its initialisation although the callback never reached it. *)
Theorem public_call_dropped_after_status_check
    (fuel : nat) (amx : option Z) (name : String.string) (params : list Z)
    (retval : option Z) s :
  forwarding_allowed name s = true ->
  (debug_check_ s = true /\ DEBUG_PAUSE_TIMEOUT <= tick_ s - sol_ s)
  \/ callbacks_fill_call_buffer (callbacks_ s) amx name params
       (uint32 LEN_NETBUF) = None ->
  exists s',
    public_call fuel amx name params retval s = Ok retval s'
    /\ filter is_send (skipn (length (trace s)) (trace s')) = []
    /\ filter is_lock (skipn (length (trace s)) (trace s')) = []
    /\ status_ s'
       = (if String.eqb name "OnGameModeInit"
          then Z.lor (note_server_init name (status_ s))
                 status_client_received_init
          else note_server_init name (status_ s))
    /\ (name = "OnGameModeInit" -> client_initialised s').
Proof.
  intros Hgate Hdrop.
  destruct (public_call_allowed fuel amx name params retval s Hgate)
    as (s1 & Hrun & Htr1 & Hst1 & Hdc & _ & Htick & Hsol & _ & Hcb & _).
  rewrite Hrun. unfold public_call_forward.
  destruct (is_debugging_call_quiet s1)
    as (s2 & E2 & Hst2 & Hcb2 & evs & Htr2 & Hsend & Hlock).
  rewrite (bind_eq _ _ _ _ _ E2).
  rewrite Hdc, Htick, Hsol in *.
  assert (forall s', status_ s' = status_ s2 ->
            (status_ s'
             = (if String.eqb name "OnGameModeInit"
                then Z.lor (note_server_init name (status_ s))
                       status_client_received_init
                else note_server_init name (status_ s)))
            /\ (name = "OnGameModeInit" -> client_initialised s'))
    as Hstatus.
  { intros s' Hs'. rewrite Hs', Hst2, Hst1. split; [reflexivity|].
    intros ->. unfold client_initialised.
    rewrite isset_received_init, Hs', Hst2, Hst1.
    rewrite String.eqb_refl, Z.lor_spec. apply orb_true_r. }
  destruct (debug_check_ s && (DEBUG_PAUSE_TIMEOUT <=? tick_ s - sol_ s))
    eqn:Hpaused.
  - exists s2. split; [reflexivity|].
    rewrite Htr2, Htr1, <- app_assoc, skipn_trace_app.
    cbn [app filter is_send is_lock].
    split; [exact Hsend|]. split; [exact Hlock|].
    apply Hstatus. reflexivity.
  - destruct Hdrop as [[Hon Hlate]|Hfill].
    { rewrite Hon in Hpaused. apply Z.leb_le in Hlate.
      rewrite Hlate in Hpaused. discriminate. }
    unfold call_fill_call_buffer, emit. unfold_monad.
    cbn [callbacks_ set_trace]. rewrite Hcb2, Hcb, Hfill.
    eexists. split; [reflexivity|].
    split; [|split; [|apply Hstatus; reflexivity]];
      cbn [trace set_trace];
      rewrite Htr2, Htr1, <- !app_assoc, skipn_trace_app;
      cbn [app filter is_send is_lock];
      rewrite !filter_app;
      [rewrite Hsend | rewrite Hlock]; reflexivity.
Qed.

(** ** The start command *)

Lemma isset_server_init_after_set (f : Z) s s' :
  status_ s' = Z.lor (status_ s) f ->
  Z.testbit f 5 = false ->
  STATUS_ISSET status_server_received_init s'
  = STATUS_ISSET status_server_received_init s.
Proof.
  intros Hs Hf. rewrite !isset_server_received_init.
  rewrite Hs, Z.lor_spec, Hf. apply orb_false_r.
Qed.

(** X14: a start command with mode 0 -- which an empty payload counts as
    --, with mode 1, or with mode 2 while the host has not been
    initialised, sets [client_started] and no other flag, sends nothing
    and does not enter the nested receive; the host is restarted with
    "gmx" exactly in mode 1 with the host initialised. *)
Theorem start_without_handshake (rec : Srv N C (bool * reply))
    (buflen mode : Z) s :
  mode = (if buflen =? 0 then 0 else nth 0 (buf_ s) 0) ->
  mode = 0 \/ mode = 1
  \/ (mode = 2 /\ STATUS_ISSET status_server_received_init s = false) ->
  exists s',
    cmd_start rec buflen s = Ok tt s'
    /\ status_ s' = Z.lor (status_ s) status_client_started
    /\ filter is_send (skipn (length (trace s)) (trace s')) = []
    /\ filter is_rcon (skipn (length (trace s)) (trace s'))
       = if (mode =? 1) && STATUS_ISSET status_server_received_init s
         then [EvRcon "gmx"] else [].
Proof.
  intros Hmode Hcase. unfold cmd_start.
  unfold log_info, log_debug, log_error. rewrite bind_emit.
  unfold STATUS_SET at 1. unfold bind at 1, modify at 1.
  unfold bind at 1, get at 1.
  cbn [buf_ set_status set_trace]. rewrite <- Hmode.
  match goal with
  | |- context [STATUS_ISSET status_server_received_init ?X] =>
      rewrite (isset_server_init_after_set status_client_started s X
                 eq_refl eq_refl)
  end.
  destruct Hcase as [->|[->|[-> Hs]]]; cbn [Z.eqb Pos.eqb andb].
  - eexists. split; [reflexivity|]. cbn [status_ trace set_status set_trace].
    rewrite <- app_assoc, skipn_trace_app. repeat split.
  - rewrite bind_emit.
    destruct (STATUS_ISSET status_server_received_init s);
      [rewrite bind_emit|];
      (eexists; split; [reflexivity|]);
      cbn [status_ trace set_status set_trace];
      rewrite <- !app_assoc, skipn_trace_app; repeat split.
  - rewrite bind_emit, Hs.
    eexists. split; [reflexivity|]. cbn [status_ trace set_status set_trace].
    rewrite <- !app_assoc, skipn_trace_app. repeat split.
Qed.

(** the receive loop returns at once when an unmapped command with a
    payload is waiting *)
Lemma cmd_receive_unhandled_immediate (fuel : nat) s (cmd : Z) (b : byte)
    (payload : bytes) (rest : list received) :
  comm_connected (communication_ s) = true ->
  comm_incoming (communication_ s) = RecvCmd cmd (b :: payload) :: rest ->
  is_mapped cmd = false ->
  cmd_receive_unhandled (S fuel) s
  = Ok (true, (Some (heap_next s), zlength (b :: payload)))
      (set_trace (trace s ++ [EvNew (heap_next s) (b :: payload)])
         (set_heap (S (heap_next s))
            ((heap_next s, b :: payload) :: heap_live s)
            (delivered (b :: payload) s))).
Proof.
  intros Hc Hin Hm. cbn [cmd_receive_unhandled]. unfold bind at 1.
  rewrite (cmd_receive_one_unmapped _ _ _ _ _ _ Hc Hin Hm). reflexivity.
Qed.

(** X15: the handshake of a start command with mode 2 ("fake gmx") once
    the host is initialised: the handler sets [client_started] and
    [client_received_init], serialises an OnGameModeInit without
    parameters of its own, sends it as one public-call command and waits
    for the reply; with the reply waiting -- an unmapped command with a
    payload -- it takes it off the channel and releases it, so that the
    live blocks are the ones from before. *)
Theorem fake_gmx_start_handshake (fuel : nat) (buflen cmd : Z) (b : byte)
    (payload call : bytes) (rest : list received) s :
  buflen <> 0 ->
  nth 0 (buf_ s) 0 = 2 ->
  STATUS_ISSET status_server_received_init s = true ->
  callbacks_fill_call_buffer (callbacks_ s) None "OnGameModeInit" [0]
    (uint32 LEN_NETBUF) = Some call ->
  comm_connected (communication_ s) = true ->
  comm_incoming (communication_ s) = RecvCmd cmd (b :: payload) :: rest ->
  is_mapped cmd = false ->
  exists s',
    cmd_start (cmd_receive_unhandled (S fuel)) buflen s = Ok tt s'
    /\ status_ s'
       = Z.lor (Z.lor (status_ s) status_client_started)
           status_client_received_init
    /\ trace s'
       = trace s
         ++ [EvLog Linfo "The gamemode has started." [];
             EvLog Ldebug "Using 'fake gmx' start method" [];
             EvFillCallBuffer "OnGameModeInit";
             EvSend CMD_PUBLIC_CALL call;
             EvNew (heap_next s) (b :: payload);
             EvDelete (heap_next s)]
    /\ heap_live s' = heap_live s
    /\ comm_incoming (communication_ s') = rest.
Proof.
  intros Hlen Hmode Hinit Hfill Hc Hin Hm. unfold cmd_start.
  unfold log_info, log_debug, log_error, send, call_fill_call_buffer,
    STATUS_SET, emit.
  unfold_monad.
  cbn [buf_ callbacks_ trace status_ set_status set_trace set_buf].
  apply Z.eqb_neq in Hlen. rewrite Hlen, Hmode.
  cbn [Z.eqb Pos.eqb].
  match goal with
  | |- context [STATUS_ISSET status_server_received_init ?X] =>
      rewrite (isset_server_init_after_set status_client_started s X
                 eq_refl eq_refl)
  end.
  rewrite Hinit.
  cbn [buf_ callbacks_ trace status_ set_status set_trace set_buf].
  rewrite Hfill.
  cbn [buf_ callbacks_ trace status_ set_status set_trace set_buf].
  rewrite firstn_poke_payload.
  match goal with
  | |- context [cmd_receive_unhandled (S fuel) ?X] =>
      rewrite (cmd_receive_unhandled_immediate fuel X cmd b payload rest
                 Hc Hin Hm)
  end.
  assert ((zlength (b :: payload) =? 0) = false) as ->
      by (apply Z.eqb_neq; unfold zlength; cbn [length]; lia).
  rewrite (delete_array_live _ _ (b :: payload));
    [|cbn; rewrite Nat.eqb_refl; reflexivity].
  eexists. split; [reflexivity|].
  cbn. rewrite Nat.eqb_refl, Hin, <- !app_assoc. repeat split.
Qed.

(** ** The time of the last tick *)

Lemma unchanged_out_of_fuel {A X : Type} (f : remote_server N C -> X) :
  unchanged f (out_of_fuel : Srv N C A).
Proof. intros s a s' H. discriminate. Qed.

Ltac frame_step :=
  match goal with
  | H : unchanged ?f ?m |- unchanged ?f ?m => exact H
  | H : forall x, unchanged ?f (@?m x) |- unchanged ?f _ => apply H
  | H : forall x y, unchanged ?f (@?m x y) |- unchanged ?f _ => apply H
  | |- unchanged _ out_of_fuel => apply unchanged_out_of_fuel
  | _ => unchanged_step
  end.

Ltac frame_auto := unfold_calls_goal; cbv zeta; repeat frame_step.

Lemma tick_stamp_connect : unchanged tick_stamp (connect : Srv N C bool).
Proof. unfold connect, cmd_send_announce. frame_auto. Qed.

Lemma tick_stamp_disconnect (context : option String.string)
    (expected : bool) :
  unchanged tick_stamp (disconnect context expected : Srv N C unit).
Proof. unfold disconnect. frame_auto. Qed.

Lemma tick_stamp_is_debugging (is_tick : bool) :
  unchanged tick_stamp (is_debugging is_tick : Srv N C bool).
Proof. unfold is_debugging. frame_auto. Qed.

Lemma tick_stamp_cmd_process (rec : Srv N C (bool * reply))
    (cmd buflen : Z) (resp : reply) :
  unchanged tick_stamp rec ->
  unchanged tick_stamp (cmd_process rec cmd buflen resp).
Proof.
  intros Hrec. pose proof (tick_stamp_disconnect None true).
  unfold cmd_process, cmd_ping, cmd_print, cmd_register_call,
    cmd_find_native, cmd_invoke_native, cmd_reconnect, cmd_disconnect,
    cmd_start, cmd_alive.
  frame_auto.
Qed.

Lemma tick_stamp_cmd_receive_one (rec : Srv N C (bool * reply))
    (resp : reply) :
  unchanged tick_stamp rec ->
  unchanged tick_stamp (cmd_receive_one rec resp).
Proof.
  intros Hrec. pose proof tick_stamp_connect.
  pose proof (fun cmd buflen =>
                tick_stamp_cmd_process rec cmd buflen resp Hrec).
  unfold cmd_receive_one. frame_auto.
Qed.

Lemma tick_stamp_cmd_receive_unhandled (fuel : nat) :
  unchanged tick_stamp (cmd_receive_unhandled fuel : Srv N C (bool * reply)).
Proof.
  induction fuel as [|fuel IH]; cbn [cmd_receive_unhandled];
    [apply unchanged_out_of_fuel|].
  pose proof (tick_stamp_cmd_receive_one _ (None, 0) IH).
  frame_auto.
Qed.

(** X16: the time of the last tick sent ([tick_]) and the switch of the
    pause detection ([debug_check_]) are written by nothing the server
    does outside [tick]: connecting, disconnecting, the receive loop with
    every handler it runs, and [public_call] leave both as they were. *)
Theorem tick_time_written_by_tick_only (fuel : nat) s s' :
  (forall b, connect s = Ok b s' -> tick_stamp s' = tick_stamp s)
  /\ (forall context expected u,
        disconnect context expected s = Ok u s' ->
        tick_stamp s' = tick_stamp s)
  /\ (forall r,
        cmd_receive_unhandled fuel s = Ok r s' ->
        tick_stamp s' = tick_stamp s)
  /\ (forall amx name params retval r,
        public_call fuel amx name params retval s = Ok r s' ->
        tick_stamp s' = tick_stamp s).
Proof.
  split; [intros b; apply tick_stamp_connect|].
  split; [intros context expected u; apply tick_stamp_disconnect|].
  split; [intros r; apply tick_stamp_cmd_receive_unhandled|].
  intros amx name params retval r. revert s r s'.
  change (unchanged tick_stamp (public_call fuel amx name params retval)).
  pose proof (tick_stamp_cmd_receive_unhandled fuel).
  pose proof (tick_stamp_is_debugging false).
  unfold public_call, public_call_forward, public_call_receive.
  frame_auto.
Qed.

(** ** How a pause ends *)

(** X17: sending ticks does not end a pause.  With the pause detection on,
    a client that looks paused still looks paused after the send half of
    [tick] -- whether the tick was suppressed, sent as a keepalive, or not
    considered at all --, provided the clock is not behind the last tick:
    the time of the last command is not touched and the time of the last
    tick only moves forward.  When the client is ready for ticks it is
    recorded as paused afterwards. *)
Theorem pause_outlasts_ticks s s' :
  debug_check_ s = true ->
  looks_paused s ->
  tick_ s <= clock s ->
  tick_send s = Ok tt s' ->
  looks_paused s'
  /\ sol_ s' = sol_ s
  /\ (tick_allowed s = true -> is_debug_ s' = true).
Proof.
  unfold looks_paused. intros Hd Hp Hclock H.
  destruct (tick_allowed s) eqn:Ha.
  - assert (forall tr, tick_allowed (set_trace tr s) = true) as Ha'
        by (intros tr; exact Ha).
    pose proof Hp as Hp'. apply Z.leb_le in Hp'.
    unfold tick_send, is_debugging in H. unfold_calls. unfold_monad.
    rewrite Ha' in H. simpl in H. rewrite Hd, Hp' in H. simpl in H.
    destruct (is_debug_ s) eqn:Hdb; simpl in H;
      [destruct ((DEBUG_PAUSE_TICK_INTERVAL <=? clock s - tick_ s)
                 && (DEBUG_PAUSE_TICK_MIN_SKIP <? ticks_skipped_ s))|];
      simpl in H; injection H as <-; simpl;
      (split; [lia|]); auto.
  - rewrite (tick_send_not_allowed s Ha) in H. injection H as <-.
    split; [exact Hp|]. split; [reflexivity | discriminate].
Qed.

(** *** Receiving a command *)

Ltac just_heard_leaf :=
  let s := fresh "s" in
  let Hs := fresh "Hs" in
  intros s Hs; unfold just_heard in *; first [exact Hs | reflexivity].

Ltac just_heard_step :=
  match goal with
  | H : keeps ?I ?m |- keeps ?I ?m => exact H
  | H : forall x, keeps ?I (@?m x) |- keeps ?I _ => apply H
  | H : forall x y, keeps ?I (@?m x y) |- keeps ?I _ => apply H
  | |- keeps _ (bind get _) => apply keeps_get_bind; intros ?
  | |- keeps _ (bind _ _) => apply keeps_bind; [|intros ?]
  | |- keeps _ (ret _) => apply keeps_ret
  | |- keeps _ (raise _) => apply keeps_raise
  | |- keeps _ out_of_fuel => apply keeps_out_of_fuel
  | |- keeps _ (modify _) => apply keeps_modify; just_heard_leaf
  | |- keeps _ (emit _) => apply keeps_modify; just_heard_leaf
  | |- keeps _ (if ?b then _ else _) => destruct b
  | |- keeps _ (match ?x with _ => _ end) => destruct x
  end.

Ltac just_heard_auto :=
  unfold_calls_goal; cbv zeta; repeat just_heard_step.

Lemma just_heard_connect : keeps just_heard (connect : Srv N C bool).
Proof. unfold connect, cmd_send_announce. just_heard_auto. Qed.

Lemma just_heard_disconnect (context : option String.string)
    (expected : bool) :
  keeps just_heard (disconnect context expected : Srv N C unit).
Proof. unfold disconnect. just_heard_auto. Qed.

Lemma just_heard_cmd_process (rec : Srv N C (bool * reply))
    (cmd buflen : Z) (resp : reply) :
  keeps just_heard rec ->
  keeps just_heard (cmd_process rec cmd buflen resp).
Proof.
  intros Hrec. pose proof (just_heard_disconnect None true).
  unfold cmd_process, cmd_ping, cmd_print, cmd_register_call,
    cmd_find_native, cmd_invoke_native, cmd_reconnect, cmd_disconnect,
    cmd_start, cmd_alive.
  just_heard_auto.
Qed.

Lemma just_heard_cmd_receive_one (rec : Srv N C (bool * reply))
    (resp : reply) :
  keeps just_heard rec ->
  keeps just_heard (cmd_receive_one rec resp).
Proof.
  intros Hrec. pose proof just_heard_connect.
  pose proof (fun cmd buflen =>
                just_heard_cmd_process rec cmd buflen resp Hrec).
  unfold cmd_receive_one. just_heard_auto.
Qed.

Lemma just_heard_cmd_receive_unhandled (fuel : nat) :
  keeps just_heard (cmd_receive_unhandled fuel : Srv N C (bool * reply)).
Proof.
  induction fuel as [|fuel IH]; cbn [cmd_receive_unhandled];
    [apply keeps_out_of_fuel|].
  pose proof (just_heard_cmd_receive_one _ (None, 0) IH).
  just_heard_auto.
Qed.

Lemma clock_cmd_receive_one (rec : Srv N C (bool * reply)) (resp : reply) :
  unchanged clock rec -> unchanged clock (cmd_receive_one rec resp).
Proof.
  intros Hrec.
  unfold cmd_receive_one, connect, cmd_send_announce, cmd_process, cmd_ping,
    cmd_print, cmd_register_call, cmd_find_native, cmd_invoke_native,
    cmd_reconnect, cmd_disconnect, cmd_start, cmd_alive, disconnect.
  frame_auto.
Qed.

Lemma clock_cmd_receive_unhandled (fuel : nat) :
  unchanged clock (cmd_receive_unhandled fuel : Srv N C (bool * reply)).
Proof.
  induction fuel as [|fuel IH]; cbn [cmd_receive_unhandled];
    [apply unchanged_out_of_fuel|].
  pose proof (clock_cmd_receive_one _ (None, 0) IH).
  frame_auto.
Qed.

(** X18: receiving a command ends a pause.  When a receive call has read a
    command -- its result is neither "no command" nor "connection dead" --
    the time of the last command is the current time, whatever the handler
    and the receive calls nested in it did, and the time of the last tick
    is as before; so with the clock not behind the last tick the client no
    longer looks paused. *)
Theorem command_ends_pause (fuel : nat) (resp resp' : reply)
    (stat : cmd_status) s s' :
  cmd_receive_one (cmd_receive_unhandled fuel) resp s = Ok (stat, resp') s' ->
  stat <> no_cmd -> stat <> conn_dead ->
  sol_ s' = clock s
  /\ tick_ s' = tick_ s
  /\ (tick_ s <= clock s -> ~ looks_paused s').
Proof.
  intros H Hcmd Hlive.
  assert (sol_ s' = clock s /\ tick_ s' = tick_ s) as [Hsol Htick].
  { split.
    - rewrite <- (clock_cmd_receive_one _ resp
                    (clock_cmd_receive_unhandled fuel) _ _ _ H).
      unfold cmd_receive_one in H.
      apply bind_ok in H. destruct H as (ok & s1 & _ & H).
      destruct ok; cbn [negb] in H;
        [|injection H as <- _ _; contradiction].
      apply bind_ok in H. destruct H as (r & s2 & _ & H).
      destruct r as [| |command payload];
        try (injection H as <- _ _; contradiction).
      apply bind_ok in H. destruct H as (s0 & s3 & E0 & H).
      injection E0 as <- <-.
      apply bind_ok in H. destruct H as (u1 & s4 & E4 & H).
      unfold modify in E4. injection E4 as _ <-.
      apply bind_ok in H. destruct H as (u2 & s5 & E5 & H).
      unfold store_time, modify in E5. injection E5 as _ <-.
      refine (just_heard_cmd_process _ _ _ _
                (just_heard_cmd_receive_unhandled fuel) _ _ _ _ H).
      reflexivity.
    - pose proof (tick_stamp_cmd_receive_one _ resp
                    (tick_stamp_cmd_receive_unhandled fuel) _ _ _ H) as E.
      unfold tick_stamp in E. injection E as E _. exact E. }
  split; [exact Hsol|]. split; [exact Htick|].
  unfold looks_paused, DEBUG_PAUSE_TIMEOUT. rewrite Hsol, Htick. lia.
Qed.

(** ** Announced and unannounced disconnects *)

(** X19: a disconnect the client announced is not an error.  After a
    disconnect command, [terminate] on the connected client signals a
    disconnect and no error, clears [client_started],
    [client_disconnecting] and [client_connected] and keeps the other
    three flags; without the announcement the same [terminate] logs the
    context as an error and signals the error instead, and leaves
    [client_disconnecting] clear. *)
Theorem announced_disconnect_is_not_an_error s (buflen : Z)
    (context : option String.string) :
  is_client_connected s = true ->
  (exists s1 s2,
      cmd_disconnect buflen s = Ok tt s1
      /\ terminate context s1 = Ok tt s2
      /\ trace s2
         = trace s
           ++ [EvLog Linfo "The gamemode is disconnecting." [];
               EvLog Linfo "Client disconnected." [];
               EvSignalDisconnect; EvNativesClear; EvCallbacksClear;
               EvCommDisconnect; EvCommSetup]
      /\ STATUS_ISSET status_client_connected s2 = false
      /\ STATUS_ISSET status_client_started s2 = false
      /\ STATUS_ISSET status_client_disconnecting s2 = false
      /\ STATUS_ISSET status_client_received_init s2
         = STATUS_ISSET status_client_received_init s
      /\ STATUS_ISSET status_client_reconnecting s2
         = STATUS_ISSET status_client_reconnecting s
      /\ STATUS_ISSET status_server_received_init s2
         = STATUS_ISSET status_server_received_init s)
  /\ (STATUS_ISSET status_client_disconnecting s = false ->
      exists s2,
        terminate context s = Ok tt s2
        /\ trace s2
           = trace s
             ++ [EvLog Lerror "Unexpected disconnect of client. %s"
                   [ArgText match context with Some c => c | None => "" end];
                 EvSignalError; EvNativesClear; EvCallbacksClear;
                 EvCommDisconnect; EvCommSetup]
        /\ STATUS_ISSET status_client_disconnecting s2 = false).
Proof.
  intros Hc. split.
  - unfold cmd_disconnect, log_info, STATUS_SET. rewrite bind_emit.
    unfold modify at 1.
    set (s1 := set_status _ _).
    assert (is_client_connected s1 = true) as Hc1.
    { rewrite <- Hc. subst s1. unfold is_client_connected.
      rewrite !isset_connected.
      cbn [status_ set_status set_trace communication_].
      rewrite Z.lor_spec. apply f_equal, orb_false_r. }
    assert (STATUS_ISSET status_client_disconnecting s1 = true) as Hd1.
    { subst s1. rewrite isset_disconnecting.
      cbn [status_ set_status set_trace]. rewrite Z.lor_spec.
      apply orb_true_r. }
    exists s1. unfold terminate, disconnect. unfold_calls. unfold_monad.
    rewrite Hc1. simpl. rewrite Hd1. simpl.
    eexists. split; [reflexivity|]. split; [reflexivity|].
    subst s1. status_bits.
    split; [rewrite <- !app_assoc; reflexivity|].
    rewrite ?andb_false_r, ?andb_true_r, ?orb_false_r.
    repeat split; rewrite Z.lor_spec; apply orb_false_r.
  - intros Hd. unfold terminate, disconnect. unfold_calls. unfold_monad.
    rewrite Hc. simpl. rewrite Hd. simpl.
    eexists. split; [reflexivity|]. status_bits.
    split; [rewrite <- !app_assoc; reflexivity|].
    rewrite isset_disconnecting in Hd. rewrite Hd. reflexivity.
Qed.

(** ** The server as constructed *)

(** X20: the constructor signals the start and sets the transport up, in
    this order, and leaves every status flag clear; until a client has
    connected, such a server forwards no callback -- [public_call] only
    notes the host's OnGameModeInit or OnGameModeExit and returns the
    return slot as it was -- and the send half of [tick] takes the lock
    and sends nothing. *)
Theorem new_server_is_idle (junk : remote_server N C)
    (communication : commsvr) (debug_check : bool) :
  status_ (remote_server_new junk communication debug_check) = status_none
  /\ debug_check_ (remote_server_new junk communication debug_check)
     = debug_check
  /\ trace (remote_server_new junk communication debug_check)
     = trace junk ++ [EvSignalStarting; EvCommSetup]
  /\ communication_ (remote_server_new junk communication debug_check)
     = snd (comm_setup communication)
  /\ (forall fuel amx name params retval,
         exists s',
           public_call fuel amx name params retval
             (remote_server_new junk communication debug_check)
           = Ok retval s'
           /\ status_ s' = note_server_init name status_none
           /\ filter is_send (trace s') = filter is_send (trace junk))
  /\ tick_send (remote_server_new junk communication debug_check)
     = Ok tt
         (set_trace
            (trace junk ++ [EvSignalStarting; EvCommSetup; EvLock])
            (remote_server_new junk communication debug_check)).
Proof.
  set (s0 := remote_server_new junk communication debug_check).
  assert (status_ s0 = status_none) as Hst by reflexivity.
  assert (trace s0 = trace junk ++ [EvSignalStarting; EvCommSetup]) as Htr
      by reflexivity.
  split; [exact Hst|]. split; [reflexivity|]. split; [exact Htr|].
  split; [reflexivity|]. split.
  - intros fuel amx name params retval.
    assert (forwarding_allowed name s0 = false) as Hgate.
    { unfold forwarding_allowed, is_client_connected.
      rewrite isset_connected, Hst. cbn [Z.testbit status_none].
      rewrite andb_false_r. reflexivity. }
    destruct (public_call_not_allowed fuel amx name params retval s0 Hgate)
      as (s' & Hrun & Hst' & Htr').
    exists s'. split; [exact Hrun|]. split; [rewrite Hst', Hst; reflexivity|].
    destruct Htr' as [-> | ->]; rewrite Htr, ?filter_app; cbn [filter is_send];
      rewrite ?app_nil_r; reflexivity.
  - rewrite tick_send_not_allowed.
    + rewrite Htr, <- app_assoc. reflexivity.
    + unfold tick_allowed, is_client_connected.
      rewrite isset_connected, Hst. cbn [Z.testbit status_none].
      rewrite andb_false_r. reflexivity.
Qed.

End Properties.

(** * The properties at concrete inputs *)

Import Demo.

(** C9 as stated fails: after a start command with mode 3 the flag
    [client_started], clear before, is set. *)
Lemma start_invalid_mode_changes_a_flag :
  exists s',
    cmd_receive_one (cmd_receive_unhandled 0) (None, 0)
      (server status_client_connected true [RecvCmd CMD_START [3]])
    = Ok (handled, (None, 0)) s'
    /\ STATUS_ISSET status_client_started
         (server status_client_connected true [RecvCmd CMD_START [3]]) = false
    /\ STATUS_ISSET status_client_started s' = true.
Proof.
  eexists. split; [vm_compute; reflexivity|]. split; reflexivity.
Qed.

Lemma start_invalid_mode_only_sets_started_witness :
  exists s',
    cmd_process (cmd_receive_unhandled 0) CMD_START 1 (None, 0)
      (set_buf [3] (server status_client_connected true []))
    = Ok (handled, (None, 0)) s'
    /\ STATUS_ISSET status_client_started s' = true
    /\ STATUS_ISSET status_client_connected s' = true.
Proof.
  destruct (start_invalid_mode_only_sets_started
              (set_buf [3] (server status_client_connected true []))
              (cmd_receive_unhandled 0) 1 (None, 0))
    as (s' & Hrun & _ & _ & _ & Hst & Hco & _);
    [lia | simpl; lia | simpl; lia | simpl; lia |].
  exists s'. split; [exact Hrun|]. split; [exact Hst|].
  rewrite Hco. reflexivity.
Defined.

Lemma find_native_not_found_reply_witness :
  exists s',
    cmd_receive_one (cmd_receive_unhandled 0) (None, 0)
      (server status_client_connected true
         [RecvCmd CMD_FIND_NATIVE [0x2A; 0x00; 65; 66; 0]])
    = Ok (handled, (None, 0)) s'
    /\ filter is_send (trace s')
       = [EvSend 0x03 [0x2A; 0x00; 0xFF; 0xFF; 0xFF; 0xFF]].
Proof.
  destruct (find_native_not_found_reply
              (server status_client_connected true
                 [RecvCmd CMD_FIND_NATIVE [0x2A; 0x00; 65; 66; 0]])
              (cmd_receive_unhandled 0) (None, 0) [65; 66; 0] [])
    as (s' & Hrun & Hsent & _); [reflexivity | reflexivity | reflexivity |].
  exists s'. split; [exact Hrun | exact Hsent].
Defined.

(** C6 as stated fails: six time units after the last received command
    (elapsed time above the timeout) [is_debugging] answers false, because
    no tick was sent since; and at an elapsed time of exactly 5, which does
    not exceed the timeout, it answers true. *)
Lemma is_debugging_not_elapsed_time :
  ((DEBUG_PAUSE_TIMEOUT
    <? clock (paused_server running false 100 100 106 0)
       - sol_ (paused_server running false 100 100 106 0))
   = true
   /\ exists s',
       is_debugging false (paused_server running false 100 100 106 0)
       = Ok false s')
  /\ ((DEBUG_PAUSE_TIMEOUT
       <? clock (paused_server running false 105 100 105 0)
          - sol_ (paused_server running false 105 100 105 0))
      = false
      /\ exists s',
          is_debugging false (paused_server running false 105 100 105 0)
          = Ok true s').
Proof.
  split; (split; [reflexivity|]); eexists; vm_compute; reflexivity.
Qed.

Lemma is_debugging_compares_last_tick_to_last_command_witness :
  exists s',
    is_debugging false (paused_server running false 106 100 106 0) = Ok true s'.
Proof.
  destruct (is_debugging_compares_last_tick_to_last_command
              (paused_server running false 106 100 106 0))
    as (_ & Hon).
  destruct (Hon eq_refl) as (_ & _ & H6 & _).
  exact (H6 eq_refl).
Defined.

(** C7 as stated fails: after 50 suppressed and counted ticks, 7 time units
    after the last sent tick, the next tick is suppressed as well. *)
Lemma no_keepalive_after_fifty_suppressed_ticks :
  exists s50 s51,
    ticks 50 (paused_server running true 100 0 107 0) = Ok tt s50
    /\ count is_send (trace s50) = 0%nat
    /\ ticks_skipped_ s50 = 50
    /\ DEBUG_PAUSE_TICK_INTERVAL <= clock s50 - tick_ s50
    /\ tick 1 0 s50 = Ok tt s51
    /\ count is_send (trace s51) = 0%nat
    /\ ticks_skipped_ s51 = 51.
Proof.
  do 2 eexists.
  split; [vm_compute; reflexivity|].
  split; [reflexivity|]. split; [reflexivity|].
  split; [vm_compute; discriminate|].
  split; [vm_compute; reflexivity|].
  split; reflexivity.
Qed.

Lemma tick_keepalive_after_more_than_min_skip_witness :
  tick_send (paused_server running true 100 0 107 51)
  = Ok tt (set_trace [EvLock; EvSetOn false;
                      EvLog Ldebug "Keepalive tick." []; EvSend CMD_TICK []]
             (set_tick 107 (set_ticks_skipped 0
                (paused_server running true 100 0 107 51)))).
Proof.
  destruct (tick_keepalive_after_more_than_min_skip
              (paused_server running true 100 0 107 51) eq_refl eq_refl)
    as (Hkeep & _).
  apply Hkeep; [vm_compute; discriminate | reflexivity
               | vm_compute; discriminate | reflexivity].
Defined.

Lemma disconnect_clears_registries_unless_expected_witness :
  exists s',
    terminate None (set_natives [[65]] (server running true [])) = Ok tt s'
    /\ natives_ s' = []
    /\ STATUS_ISSET status_client_connected s' = false.
Proof.
  destruct (disconnect_clears_registries_unless_expected
              (set_natives [[65]] (server running true [])) None eq_refl)
    as (_ & _ & _ & Hunexpected).
  destruct (Hunexpected eq_refl) as (s' & Hrun & Hn & _ & Hco & _).
  exists s'. split; [exact Hrun|]. split; [exact Hn | exact Hco].
Defined.

(** C3 as stated fails: an unexpected disconnect of a started and
    initialised client clears [client_started] and leaves
    [client_received_init] set. *)
Lemma terminate_breaks_invariant :
  received_init_implies_started (server running true [])
  /\ exists s',
      terminate None (server running true []) = Ok tt s'
      /\ STATUS_ISSET status_client_received_init s' = true
      /\ STATUS_ISSET status_client_started s' = false
      /\ ~ received_init_implies_started s'.
Proof.
  split; [intros _; reflexivity|].
  eexists. split; [vm_compute; reflexivity|].
  split; [reflexivity|]. split; [reflexivity|].
  intros H. specialize (H eq_refl). discriminate.
Qed.

Lemma invariant_kept_except_by_terminate_witness :
  exists s',
    tick 2 0 (server running true [RecvCmd CMD_START [2]]) = Ok tt s'
    /\ received_init_implies_started s'.
Proof.
  assert (exists s',
             tick 2 0 (server running true [RecvCmd CMD_START [2]]) = Ok tt s')
    as (s' & Hrun) by (eexists; vm_compute; reflexivity).
  exists s'. split; [exact Hrun|].
  destruct (invariant_kept_except_by_terminate
              (N := list bytes) (C := list bytes))
    as (_ & _ & _ & _ & _ & _ & _ & Htick & _).
  apply (Htick 2%nat 0 (server running true [RecvCmd CMD_START [2]]) tt s');
    [intros _; reflexivity | exact Hrun].
Defined.

Lemma cmd_receive_unhandled_returns_first_unhandled_witness :
  exists s',
    cmd_receive_unhandled 3
      (server status_client_connected true
         [RecvCmd CMD_REGISTER_CALL [65; 0];
          RecvCmd CMD_INVOKE_NATIVE [1; 0; 9];
          RecvCmd CMD_RESPONSE [1; 5; 0; 0; 0]])
    = Ok (true, (Some O, 5)) s'
    /\ count is_register (trace s') = 1%nat
    /\ count is_invoke (trace s') = 1%nat
    /\ count is_new (trace s') = 1%nat
    /\ heap_live s' = [(O, [1; 5; 0; 0; 0])].
Proof.
  destruct (cmd_receive_unhandled_returns_first_unhandled
              (N := list bytes) (C := list bytes)) as (_ & _ & Hscript).
  destruct (Hscript 3%nat
              (server status_client_connected true
                 [RecvCmd CMD_REGISTER_CALL [65; 0];
                  RecvCmd CMD_INVOKE_NATIVE [1; 0; 9];
                  RecvCmd CMD_RESPONSE [1; 5; 0; 0; 0]])
              [65; 0] [1; 0; 9] [1; 5; 0; 0; 0] [] eq_refl eq_refl (le_n 3))
    as (s' & args & out & buflen & logged & Hrun & Htr & _ & Hheap & _).
  exists s'. split; [exact Hrun|].
  rewrite Htr, Hheap. repeat split; reflexivity.
Defined.

(** C2 as stated fails: a response with an empty payload is answered
    [unhandled] without any block being allocated for the caller. *)
Lemma empty_response_hands_back_nothing :
  exists s',
    cmd_receive_one (cmd_receive_unhandled 0) (None, 0)
      (server status_client_connected true [RecvCmd CMD_RESPONSE []])
    = Ok (unhandled, (None, 0)) s'
    /\ heap_live s' = []
    /\ count is_new (trace s') = 0%nat.
Proof.
  eexists. split; [vm_compute; reflexivity|]. split; reflexivity.
Qed.

Lemma cmd_receive_one_status_witness :
  exists s',
    cmd_receive_one (cmd_receive_unhandled 0) (None, 0)
      (server status_client_connected true [RecvCmd 0x42 [7; 8; 9]])
    = Ok (unhandled, (Some O, 3)) s'
    /\ block_of O (heap_live s') = Some [7; 8; 9].
Proof.
  destruct (cmd_receive_one_status O
              (server status_client_connected true [RecvCmd 0x42 [7; 8; 9]])
              (None, 0) 0x42 [7; 8; 9] [] eq_refl eq_refl)
    as (_ & Hunmapped).
  destruct (Hunmapped eq_refl) as (s' & Hrun & _ & Hcopy).
  destruct Hcopy as (_ & Hblock & _); [discriminate|].
  exists s'. split; [exact Hrun | exact Hblock].
Defined.

Lemma public_call_forwards_only_when_allowed_witness :
  public_call 1 None "OnGameModeInit" [] (Some 0)
    (server status_client_connected true [])
  = Ok (Some 0)
      (set_status (Z.lor status_client_connected status_server_received_init)
         (server status_client_connected true [])).
Proof.
  destruct (public_call_forwards_only_when_allowed
              1 None "OnGameModeInit" [] (Some 0)
              (server status_client_connected true []))
    as (_ & _ & _ & Hinit).
  apply Hinit; reflexivity.
Defined.

Lemma public_call_reads_reply_in_bounds_witness :
  exists s',
    public_call_receive 1 "OnPlayerConnect" (Some 0)
      (server running true [RecvCmd CMD_RESPONSE [1; 254; 255; 255; 255]])
    = Ok (Some (-2)) s'
    /\ heap_live s' = []
    /\ count (is_delete_of O) (trace s') = 1%nat.
Proof.
  pose proof (public_call_reads_reply_in_bounds
                1 "OnPlayerConnect" (Some 0)
                (server running true
                   [RecvCmd CMD_RESPONSE [1; 254; 255; 255; 255]])) as H.
  destruct (cmd_receive_unhandled 1
              (server running true
                 [RecvCmd CMD_RESPONSE [1; 254; 255; 255; 255]]))
    as [[ok [[p|] len]] s1|f|] eqn:E in H;
    vm_compute in E; try discriminate E.
  injection E as <- <- <- <-.
  destruct H as (_ & _ & d & Hd & _ & Hrun).
  vm_compute in Hd. injection Hd as <-.
  eexists. split; [exact Hrun|]. split; reflexivity.
Defined.

(** ** The further properties at concrete inputs *)


Lemma receive_on_dead_channel_witness :
  exists s',
    cmd_receive_unhandled 1 (server status_none false [])
    = Ok (false, (None, 0)) s'
    /\ filter is_send (trace s') = [].
Proof.
  destruct (receive_on_dead_channel (server status_none false [])
              (cmd_receive_unhandled 0) (None, 0))
    as (s' & _ & _ & Hloop & _ & _ & _ & _ & Hsend);
    [reflexivity | right; right; split; reflexivity |].
  exists s'. split; [apply Hloop | exact Hsend].
Defined.

Lemma find_native_echoes_id_and_handle_witness :
  exists s' payload,
    cmd_receive_one (cmd_receive_unhandled 0) (None, 0)
      (server status_client_connected true
         [RecvCmd CMD_FIND_NATIVE [0x2A; 0x00; 65; 66; 0]])
    = Ok (handled, (None, 0)) s'
    /\ filter is_send (trace s') = [EvSend CMD_RESPONSE payload]
    /\ firstn 2 payload = [0x2A; 0x00]
    /\ int32 (le_value (skipn 2 payload)) = -1.
Proof.
  destruct (find_native_echoes_id_and_handle
              (server status_client_connected true
                 [RecvCmd CMD_FIND_NATIVE [0x2A; 0x00; 65; 66; 0]])
              (cmd_receive_unhandled 0) (None, 0) 0x2A 0x00 [65; 66; 0] [])
    as (s' & payload & Hrun & Hsent & _ & Hid & Hval & _);
    [reflexivity | reflexivity | cbn; lia |].
  exists s', payload. repeat split; assumption.
Defined.

Lemma invoke_native_echoes_id_witness :
  exists s',
    cmd_receive_one (cmd_receive_unhandled 0) (None, 0)
      (server status_client_connected true
         [RecvCmd CMD_INVOKE_NATIVE [1; 0; 9]])
    = Ok (handled, (None, 0)) s'
    /\ filter is_send (trace s')
       = [EvSend CMD_RESPONSE [1; 0; 1; 0; 0; 0]].
Proof.
  destruct (invoke_native_echoes_id
              (server status_client_connected true
                 [RecvCmd CMD_INVOKE_NATIVE [1; 0; 9]])
              (cmd_receive_unhandled 0) (None, 0) 1 0 [9] []
              [1; 0; 0; 0] 4 [])
    as (s' & Hrun & _ & Hsent & _);
    [reflexivity | reflexivity | reflexivity | reflexivity | reflexivity
    | reflexivity |].
  exists s'. split; [exact Hrun | exact Hsent].
Defined.

Lemma invoke_native_short_payload_wraps_witness :
  exists s' args,
    cmd_receive_one (cmd_receive_unhandled 0) (None, 0)
      (server status_client_connected true [RecvCmd CMD_INVOKE_NATIVE [7]])
    = Ok (handled, (None, 0)) s'
    /\ filter is_invoke (trace s') = [EvInvoke args 4294967295].
Proof.
  destruct (invoke_native_short_payload_wraps
              (server status_client_connected true
                 [RecvCmd CMD_INVOKE_NATIVE [7]])
              (cmd_receive_unhandled 0) (None, 0) [7] [])
    as (s' & args & Hrun & Hinv);
    [reflexivity | reflexivity | reflexivity |].
  exists s', args. split; [exact Hrun | exact Hinv].
Defined.

Lemma receiving_never_locks_or_clears_witness :
  exists s',
    cmd_receive_unhandled 3
      (server status_client_connected true
         [RecvCmd CMD_REGISTER_CALL [65; 0];
          RecvCmd CMD_INVOKE_NATIVE [1; 0; 9];
          RecvCmd CMD_RESPONSE [1; 5; 0; 0; 0]])
    = Ok (true, (Some O, 5)) s'
    /\ forall e, In e (trace s') -> is_lock e = false.
Proof.
  assert (exists s',
             cmd_receive_unhandled 3
               (server status_client_connected true
                  [RecvCmd CMD_REGISTER_CALL [65; 0];
                   RecvCmd CMD_INVOKE_NATIVE [1; 0; 9];
                   RecvCmd CMD_RESPONSE [1; 5; 0; 0; 0]])
             = Ok (true, (Some O, 5)) s')
    as (s' & Hrun) by (eexists; vm_compute; reflexivity).
  exists s'. split; [exact Hrun|]. intros e He.
  destruct (receiving_never_locks_or_clears 3
              (server status_client_connected true
                 [RecvCmd CMD_REGISTER_CALL [65; 0];
                  RecvCmd CMD_INVOKE_NATIVE [1; 0; 9];
                  RecvCmd CMD_RESPONSE [1; 5; 0; 0; 0]]))
    as [_ Hloop].
  apply (Hloop _ s' e Hrun He).
Defined.

Lemma sent_opcodes_witness :
  exists r s',
    public_call 1 None "OnPlayerConnect" [] (Some 0)
      (server running true [RecvCmd CMD_RESPONSE [1; 254; 255; 255; 255]])
    = Ok r s'
    /\ forall cmd payload,
         In (EvSend cmd payload) (trace s') -> cmd <> CMD_REPLY.
Proof.
  assert (exists r s',
             public_call 1 None "OnPlayerConnect" [] (Some 0)
               (server running true
                  [RecvCmd CMD_RESPONSE [1; 254; 255; 255; 255]])
             = Ok r s')
    as (r & s' & Hrun) by (do 2 eexists; vm_compute; reflexivity).
  exists r, s'. split; [exact Hrun|]. intros cmd payload Hin.
  destruct (sent_opcodes 1
              (server running true
                 [RecvCmd CMD_RESPONSE [1; 254; 255; 255; 255]])
              cmd payload)
    as [Hcall _].
  apply (Hcall _ _ _ _ _ _ Hrun Hin).
Defined.

Lemma lock_released_on_return_witness :
  exists s' mid,
    tick 1 0 (server running true []) = Ok tt s'
    /\ trace s' = EvLock :: mid ++ [EvUnlock].
Proof.
  assert (exists s', tick 1 0 (server running true []) = Ok tt s')
    as (s' & Hrun) by (eexists; vm_compute; reflexivity).
  destruct (lock_released_on_return 1 (server running true []))
    as [Htick _].
  destruct (Htick 0 s' Hrun) as (mid & Htr & _).
  exists s', mid. split; [exact Hrun | exact Htr].
Defined.

Lemma public_call_releases_reply_witness :
  exists r s',
    public_call 1 None "OnPlayerConnect" [] (Some 0)
      (server running true [RecvCmd CMD_RESPONSE [1; 254; 255; 255; 255]])
    = Ok r s'
    /\ heap_live s' = [].
Proof.
  assert (exists r s',
             public_call 1 None "OnPlayerConnect" [] (Some 0)
               (server running true
                  [RecvCmd CMD_RESPONSE [1; 254; 255; 255; 255]])
             = Ok r s')
    as (r & s' & Hrun) by (do 2 eexists; vm_compute; reflexivity).
  exists r, s'. split; [exact Hrun|].
  destruct (public_call_releases_reply (N := list bytes) (C := list bytes) 1)
    as [_ Hcall].
  apply (Hcall _ _ _ _ _ _ _ Hrun).
Defined.

Lemma tick_releases_stray_reply_twice_witness :
  tick 2 0 (server running true [RecvCmd CMD_RESPONSE [1; 2; 3]])
  = Fault (BadDelete O).
Proof.
  apply (tick_releases_stray_reply_twice 0 0 CMD_RESPONSE [1; 2; 3] []
           (server running true [RecvCmd CMD_RESPONSE [1; 2; 3]]));
    reflexivity.
Defined.

Lemma client_received_init_never_cleared_witness :
  exists s',
    terminate None (server running true []) = Ok tt s'
    /\ client_initialised s'.
Proof.
  assert (exists s', terminate None (server running true []) = Ok tt s')
    as (s' & Hrun) by (eexists; vm_compute; reflexivity).
  exists s'. split; [exact Hrun|].
  destruct (client_received_init_never_cleared
              (N := list bytes) (C := list bytes))
    as (_ & _ & Hterminate & _).
  apply (Hterminate None (server running true []) tt s');
    [reflexivity | exact Hrun].
Defined.


Lemma public_call_dropped_after_status_check_witness :
  exists s',
    public_call 1 None "OnPlayerConnect" [] (Some 7)
      (paused_server running false 105 100 105 0)
    = Ok (Some 7) s'
    /\ filter is_send (trace s') = [].
Proof.
  destruct (public_call_dropped_after_status_check
              1 None "OnPlayerConnect" [] (Some 7)
              (paused_server running false 105 100 105 0))
    as (s' & Hrun & Hsend & _);
    [reflexivity | left; split; [reflexivity | vm_compute; discriminate] |].
  exists s'. split; [exact Hrun | exact Hsend].
Defined.

Lemma start_without_handshake_witness :
  exists s',
    cmd_start (cmd_receive_unhandled 0) 0
      (server status_client_connected true [])
    = Ok tt s'
    /\ status_ s' = 3.
Proof.
  destruct (start_without_handshake (cmd_receive_unhandled 0) 0 0
              (server status_client_connected true []))
    as (s' & Hrun & Hst & _); [reflexivity | left; reflexivity |].
  exists s'. split; [exact Hrun | exact Hst].
Defined.

Lemma fake_gmx_start_handshake_witness :
  exists s',
    cmd_start (cmd_receive_unhandled 1) 1
      (set_buf [2; 0; 0; 0; 0; 0; 0; 0]
         (server hosted true [RecvCmd CMD_RESPONSE [1]]))
    = Ok tt s'
    /\ filter is_send (trace s') = [EvSend CMD_PUBLIC_CALL [0]]
    /\ heap_live s' = [].
Proof.
  destruct (fake_gmx_start_handshake 0 1 CMD_RESPONSE 1 [] [0] []
              (set_buf [2; 0; 0; 0; 0; 0; 0; 0]
                 (server hosted true [RecvCmd CMD_RESPONSE [1]])))
    as (s' & Hrun & _ & Htr & Hheap & _);
    [discriminate | reflexivity | reflexivity | reflexivity | reflexivity
    | reflexivity | reflexivity |].
  exists s'. split; [exact Hrun|]. split; [|exact Hheap].
  rewrite Htr. reflexivity.
Defined.

Lemma tick_time_written_by_tick_only_witness :
  exists r s',
    public_call 1 None "OnPlayerConnect" [] (Some 0)
      (server running true [RecvCmd CMD_RESPONSE [1; 254; 255; 255; 255]])
    = Ok r s'
    /\ tick_stamp s' = (0, true).
Proof.
  assert (exists r s',
             public_call 1 None "OnPlayerConnect" [] (Some 0)
               (server running true
                  [RecvCmd CMD_RESPONSE [1; 254; 255; 255; 255]])
             = Ok r s')
    as (r & s' & Hrun) by (do 2 eexists; vm_compute; reflexivity).
  exists r, s'. split; [exact Hrun|].
  destruct (tick_time_written_by_tick_only 1
              (server running true
                 [RecvCmd CMD_RESPONSE [1; 254; 255; 255; 255]]) s')
    as (_ & _ & _ & Hcall).
  apply (Hcall _ _ _ _ _ Hrun).
Defined.

Lemma pause_outlasts_ticks_witness :
  exists s',
    tick_send (paused_server running true 100 0 107 51) = Ok tt s'
    /\ looks_paused s'.
Proof.
  assert (exists s',
             tick_send (paused_server running true 100 0 107 51) = Ok tt s')
    as (s' & Hrun) by (eexists; vm_compute; reflexivity).
  exists s'. split; [exact Hrun|].
  apply (pause_outlasts_ticks (paused_server running true 100 0 107 51) s');
    [reflexivity | vm_compute; discriminate | vm_compute; discriminate
    | exact Hrun].
Defined.

Lemma command_ends_pause_witness :
  exists s',
    cmd_receive_one (cmd_receive_unhandled 0) (None, 0)
      (set_communication (channel true [RecvCmd CMD_PING []])
         (paused_server running true 105 100 106 0))
    = Ok (handled, (None, 0)) s'
    /\ sol_ s' = 106
    /\ ~ looks_paused s'.
Proof.
  assert (exists s',
             cmd_receive_one (cmd_receive_unhandled 0) (None, 0)
               (set_communication (channel true [RecvCmd CMD_PING []])
                  (paused_server running true 105 100 106 0))
             = Ok (handled, (None, 0)) s')
    as (s' & Hrun) by (eexists; vm_compute; reflexivity).
  exists s'. split; [exact Hrun|].
  destruct (command_ends_pause 0 (None, 0) (None, 0) handled _ s' Hrun)
    as (Hsol & _ & Hresumed); [discriminate | discriminate |].
  split; [exact Hsol|]. apply Hresumed. vm_compute. discriminate.
Defined.

Lemma announced_disconnect_is_not_an_error_witness :
  exists s1 s2,
    cmd_disconnect 0 (server running true []) = Ok tt s1
    /\ terminate None s1 = Ok tt s2
    /\ STATUS_ISSET status_client_started s2 = false
    /\ STATUS_ISSET status_client_disconnecting s2 = false.
Proof.
  destruct (announced_disconnect_is_not_an_error
              (server running true []) 0 None)
    as [(s1 & s2 & Hcmd & Hrun & _ & _ & Hstarted & Hdisc & _) _];
    [reflexivity|].
  exists s1, s2. repeat split; assumption.
Defined.

(* END *)
